(** * Honey-pot agent: scoring, confidence decay, personas, exit policy

    A shallow embedding of the Python sources [detection.py],
    [extraction.py], [persona_manager.py], [agent.py], [callback.py],
    [models.py] and the [handle_message] endpoint of [main.py], of the
    rate limiter of [middleware.py], the monitoring endpoints of [main.py]
    and the validators of [models.py] and [config.py], followed by the
    properties of the conversation state machine and of its surroundings.

    Conventions of the embedding.
    - A Python [float] is read as the rational number its literal denotes
      ([Q]); [+], [-], [*] and the comparisons are exact, and
      [round(x, 2)] is rounding to the nearest hundredth, ties to even.
    - A Python [int] is a [Z]; [len] is a [nat].
    - A [str] is a [string]; a [dict] is a [gmap]; [None] is [None].
    - Logging is not modelled.  The wall clock, the text generator and the
      HTTP client are inputs of each request ([RequestEnv]); the regular
      expression engine and [difflib] are the capabilities of
    [Externals]. *)

From Stdlib Require Import QArith Qround Lqa ZArith String Ascii List Bool Lia.
From stdpp Require Import gmap strings list.

Local Open Scope Q_scope.
Local Open Scope string_scope.

(** ** Numbers *)

Module pynum.

Definition Qltb (a b : Q) : bool := negb (Qle_bool b a).

(** [max(a, b)] of Python: the first argument unless the second is
    strictly greater. *)
Definition py_max (a b : Q) : Q := if Qltb a b then b else a.

(** [min(a, b)] of Python: the first argument unless the second is
    strictly smaller. *)
Definition py_min (a b : Q) : Q := if Qltb b a then b else a.

(** Nearest integer, ties to the even one. *)
Definition round_half_even (x : Q) : Z :=
  let n := Qfloor x in
  match (x - inject_Z n ?= 1 # 2)%Q with
  | Lt => n
  | Gt => (n + 1)%Z
  | Eq => if Z.even n then n else (n + 1)%Z
  end.

(** [round(x, 2)]. *)
Definition round2 (x : Q) : Q := round_half_even (x * 100) # 100.


End pynum.
Export pynum.

(** ** Strings *)

Module pystr.

Definition lower_ascii (c : ascii) : ascii :=
  let n := nat_of_ascii c in
  if ((65 <=? n) && (n <=? 90))%nat then ascii_of_nat (n + 32) else c.

(** [s.lower()], on the ASCII letters. *)
Fixpoint lower (s : string) : string :=
  match s with
  | EmptyString => EmptyString
  | String c s' => String (lower_ascii c) (lower s')
  end.

(** [s.startswith(p)]. *)
Definition startswith (s p : string) : bool := String.prefix p s.

(** [needle in haystack]. *)
Fixpoint contains (needle haystack : string) : bool :=
  String.prefix needle haystack ||
  match haystack with
  | EmptyString => false
  | String _ rest => contains needle rest
  end.

(** [x in xs] for a list of strings. *)
Definition py_in (x : string) (xs : list string) : bool :=
  existsb (String.eqb x) xs.

(** [any(w in text for w in words)]. *)
Definition any_in (words : list string) (text : string) : bool :=
  existsb (fun w => contains w text) words.

(** [s.replace(pat, "")] for a non-empty [pat]: the occurrences of
    [pat], found from the left and not overlapping, are removed.
    [skip] counts the characters of a match still to be dropped. *)
Fixpoint remove_all_from (pat : string) (skip : nat) (s : string) : string :=
  match s with
  | EmptyString => EmptyString
  | String c s' =>
      match skip with
      | S k => remove_all_from pat k s'
      | O =>
          if String.prefix pat s
          then remove_all_from pat (String.length pat - 1) s'
          else String c (remove_all_from pat 0 s')
      end
  end.

Definition remove_all (pat s : string) : string := remove_all_from pat 0 s.

Fixpoint drop_str (n : nat) (s : string) : string :=
  match n, s with
  | S k, String _ s' => drop_str k s'
  | _, _ => s
  end.

(** The text after the first occurrence of the character [sep], if
    there is one. *)
Fixpoint after_char (sep : ascii) (s : string) : option string :=
  match s with
  | EmptyString => None
  | String c s' => if Ascii.eqb c sep then Some s' else after_char sep s'
  end.

(** The text before the first occurrence of [sep] (all of it when
    [sep] does not occur). *)
Fixpoint before_char (sep : ascii) (s : string) : string :=
  match s with
  | EmptyString => EmptyString
  | String c s' =>
      if Ascii.eqb c sep then EmptyString else String c (before_char sep s')
  end.

(** [s.split(sep)[1]] for a one-character separator: the second piece,
    an [IndexError] ([None]) when [sep] does not occur. *)
Definition split_second (sep : ascii) (s : string) : option string :=
  option_map (before_char sep) (after_char sep s).

(** Characters matched by [\s] (ASCII). *)
Definition is_space (c : ascii) : bool :=
  let n := nat_of_ascii c in
  ((n =? 32) || ((9 <=? n) && (n <=? 13)) || ((28 <=? n) && (n <=? 31)))%nat.

Fixpoint filter_str (keep : ascii -> bool) (s : string) : string :=
  match s with
  | EmptyString => EmptyString
  | String c s' =>
      if keep c then String c (filter_str keep s') else filter_str keep s'
  end.

Fixpoint lstrip (s : string) : string :=
  match s with
  | String c s' => if is_space c then lstrip s' else s
  | EmptyString => EmptyString
  end.

Fixpoint rev_str (acc s : string) : string :=
  match s with
  | EmptyString => acc
  | String c s' => rev_str (String c acc) s'
  end.

(** [s.strip()]. *)
Definition strip (s : string) : string :=
  rev_str EmptyString (lstrip (rev_str EmptyString (lstrip s))).

(** Decimal digits of a natural number. *)
Definition digit (n : nat) : string :=
  String (ascii_of_nat (48 + n mod 10)) EmptyString.

Fixpoint nat_digits (fuel n : nat) (acc : string) : string :=
  match fuel with
  | O => acc
  | S f =>
      let acc' := digit n ++ acc in
      if (n <? 10)%nat then acc' else nat_digits f (n / 10) acc'
  end.

Definition str_nat (n : nat) : string := nat_digits (S n) n EmptyString.

(** [str(x)] for a float [x = h / 100] with [h >= 0], as [round(_, 2)]
    returns them: [0.7], [0.85], [1.0]. *)
Definition str_hundredths (h : Z) : string :=
  let n := Z.to_nat h in
  let frac := (n mod 100)%nat in
  str_nat (n / 100) ++ "." ++
  (if (frac mod 10 =? 0)%nat then digit (frac / 10)
   else digit (frac / 10) ++ digit frac).

End pystr.
Export pystr.

(** ** config.py *)

Module config.

(** The fields of [Settings] the core reads. *)
Record Settings := mkSettings {
  scam_confidence_threshold : Q;
  exit_confidence_threshold : Q;
  callback_retry_attempts : nat;
}.

(** The declared defaults. *)
Definition default_settings : Settings :=
  {| scam_confidence_threshold := 0.4;
     exit_confidence_threshold := 0.4;
     callback_retry_attempts := 3 |}.

End config.
Export config.

(** ** Capabilities taken from libraries *)

(** [difflib.SequenceMatcher(None, a, b).ratio()] and the three compiled
    patterns' [findall]. *)
Class Externals := {
  sequence_ratio : string -> string -> Q;
  UPI_PATTERN_findall : string -> list string;
  PHONE_PATTERN_findall : string -> list string;
  URL_PATTERN_findall : string -> list string;
}.

(** ** detection.py *)

Module detection.

Definition SCAM_KEYWORDS : list string :=
  [ "blocked"; "suspended"; "verify"; "urgent"; "immediately";
    "account"; "upi"; "otp"; "kyc"; "refund"; "prize";
    "final"; "warning"; "expire"; "deactivate"; "confirm" ].

Definition URGENCY_WORDS : list string :=
  [ "now"; "today"; "immediately"; "within"; "asap"; "hurry"; "quick"; "fast" ].
Definition THREAT_WORDS : list string :=
  [ "blocked"; "suspended"; "legal"; "terminated"; "action"; "penalty"; "fine" ].
Definition ESCALATION_WORDS : list string :=
  [ "final"; "last"; "ultimate"; "warning"; "chance" ].

Record RepetitionResult := mkRepetition {
  is_repetitive : bool;
  similarity : Q;
  repeated_count : Z;
}.

Record EscalationResult := mkEscalation {
  is_escalating : bool;
  escalation_type : option string;
  urgency_count : Z;
  threat_count : Z;
}.

Record DetectionResult := mkDetection {
  is_scam : bool;
  det_confidence : Q;
  flags : list string;
  repetition : RepetitionResult;
  escalation : EscalationResult;
}.

Section with_externals.
Context `{Externals}.

Definition calculate_similarity (text1 text2 : string) : Q :=
  sequence_ratio (lower text1) (lower text2).

(** The loop of [detect_repetition] over the recent messages,
    carrying [(max_similarity, repeated_count)]. *)
Fixpoint repetition_scan (message : string) (threshold : Q)
    (recent : list string) (acc : Q * Z) : Q * Z :=
  match recent with
  | [] => acc
  | prev_message :: rest =>
      let s := calculate_similarity message prev_message in
      let max_similarity := py_max (fst acc) s in
      let repeated := if Qle_bool threshold s then (snd acc + 1)%Z else snd acc in
      repetition_scan message threshold rest (max_similarity, repeated)
  end.

(** [xs[-n:]]. *)
Definition last_n {A} (n : nat) (xs : list A) : list A :=
  drop (length xs - n) xs.

Definition detect_repetition_with (message : string)
    (message_history : list string) (threshold : Q) : RepetitionResult :=
  match message_history with
  | [] => mkRepetition false 0.0 0
  | _ =>
      let recent_messages := last_n 5 message_history in
      let '(max_similarity, repeated) :=
        repetition_scan message threshold recent_messages (0.0, 0%Z) in
      mkRepetition (Qle_bool threshold max_similarity)
                   (round2 max_similarity) repeated
  end.

(** With the default [threshold = 0.7]. *)
Definition detect_repetition (message : string)
    (message_history : list string) : RepetitionResult :=
  detect_repetition_with message message_history 0.7.

End with_externals.

(** [behavior_patterns.get(key, 0)]. *)
Definition pattern_count (behavior_patterns : gmap string Z) (key : string) : Z :=
  default 0%Z (behavior_patterns !! key).

Definition detect_escalation (message : string)
    (behavior_patterns : gmap string Z) : EscalationResult :=
  let message_lower := lower message in
  let has_escalation_words := any_in ESCALATION_WORDS message_lower in
  let urgency := pattern_count behavior_patterns "urgency" in
  let threat := pattern_count behavior_patterns "threat" in
  let '(detected1, type1) :=
    if ((2 <=? urgency) || (2 <=? threat))%Z
    then (true, Some "repeated_pressure") else (false, None) in
  let '(detected2, type2) :=
    if has_escalation_words
    then (true, Some "final_warning") else (detected1, type1) in
  mkEscalation detected2 type2 urgency threat.

(** The flag [f"repetition:{similarity}"]; the similarity of a
    repetitive result is a non-negative number of hundredths. *)
Definition repetition_flag (r : RepetitionResult) : string :=
  "repetition:" ++ str_hundredths (Qnum (similarity r)).

Definition escalation_flag (e : EscalationResult) : string :=
  "escalation:" ++ default "None" (escalation_type e).

Section with_externals.
Context `{Externals}.

Definition detect_scam (settings : Settings) (message : string)
    (message_history : list string) (behavior_patterns : gmap string Z)
    : DetectionResult :=
  let message_lower := lower message in
  let keyword_flags :=
    map (fun keyword => "keyword:" ++ keyword)
        (List.filter (fun keyword => contains keyword message_lower)
                     SCAM_KEYWORDS) in
  let urgency_flags :=
    if any_in URGENCY_WORDS message_lower then ["urgency"] else [] in
  let threat_flags :=
    if any_in THREAT_WORDS message_lower then ["threat"] else [] in
  let repetition_result := detect_repetition message message_history in
  let repetition_flags :=
    if is_repetitive repetition_result
    then [repetition_flag repetition_result] else [] in
  let escalation_result := detect_escalation message behavior_patterns in
  let escalation_flags :=
    if is_escalating escalation_result
    then [escalation_flag escalation_result] else [] in
  let flags :=
    (keyword_flags ++ urgency_flags ++ threat_flags
       ++ repetition_flags ++ escalation_flags)%list in
  let confidence := py_min 1.0 (inject_Z (Z.of_nat (length flags)) * 0.2) in
  mkDetection (Qle_bool (scam_confidence_threshold settings) confidence)
              (round2 confidence) flags repetition_result escalation_result.

End with_externals.

(** [len([f for f in flags if f.startswith("keyword:")])]. *)
Definition keyword_count (flags : list string) : nat :=
  length (List.filter (fun f => startswith f "keyword:") flags).

(** The decay [update_confidence] accumulates, one summand per block of
    the function, in the order of the source. *)
Definition urgency_decay (flags : list string) : Q :=
  if py_in "urgency" flags then 0.1 else 0.

Definition keyword_decay (flags : list string) : Q :=
  if (3 <=? keyword_count flags)%nat then 0.15
  else if (2 <=? keyword_count flags)%nat then 0.08
  else 0.

Definition threat_decay (flags : list string) : Q :=
  if py_in "threat" flags then 0.2 else 0.

Definition repetition_decay (repetition_data : option RepetitionResult) : Q :=
  match repetition_data with
  | Some r =>
      if is_repetitive r
      then 0.1 * similarity r + (if (2 <=? repeated_count r)%Z then 0.1 else 0)
      else 0
  | None => 0
  end.

Definition escalation_decay (escalation_data : option EscalationResult) : Q :=
  match escalation_data with
  | Some e =>
      if is_escalating e then
        match escalation_type e with
        | Some t =>
            if String.eqb t "final_warning" then 0.15
            else if String.eqb t "repeated_pressure" then 0.12
            else 0
        | None => 0
        end
      else 0
  | None => 0
  end.

Definition total_decay (flags : list string)
    (repetition_data : option RepetitionResult)
    (escalation_data : option EscalationResult) : Q :=
  0.0 + urgency_decay flags + keyword_decay flags + threat_decay flags
    + repetition_decay repetition_data + escalation_decay escalation_data.

Definition update_confidence (old_confidence : Q) (flags : list string)
    (repetition_data : option RepetitionResult)
    (escalation_data : option EscalationResult) : Q :=
  let decay := total_decay flags repetition_data escalation_data in
  round2 (py_max 0.0 (old_confidence - decay)).

End detection.
Export detection.

(** ** models.py *)

Module models.

Record ExtractedIntelligence := mkExtracted {
  upiIds : list string;
  phoneNumbers : list string;
  phishingLinks : list string;
  suspiciousKeywords : list string;
}.

(** [ExtractedIntelligence()]: every field defaults to the empty list. *)
Definition empty_intelligence : ExtractedIntelligence := mkExtracted [] [] [] [].

(** [x.dict()]. *)
Definition intelligence_dict (x : ExtractedIntelligence) : gmap string (list string) :=
  <["upiIds" := upiIds x]>
    (<["phoneNumbers" := phoneNumbers x]>
       (<["phishingLinks" := phishingLinks x]>
          (<["suspiciousKeywords" := suspiciousKeywords x]> ∅))).

(** [d.get(key, [])]. *)
Definition get_list (d : gmap string (list string)) (key : string) : list string :=
  default [] (d !! key).

(** [ExtractedIntelligence( **d )]: a missing field takes its default. *)
Definition intelligence_of_dict (d : gmap string (list string)) : ExtractedIntelligence :=
  mkExtracted (get_list d "upiIds") (get_list d "phoneNumbers")
              (get_list d "phishingLinks") (get_list d "suspiciousKeywords").

(** An entry of [persona_history]. *)
Record PersonaTransition := mkTransition {
  tr_from : option string;
  tr_to : string;
  tr_turn : Z;
  tr_confidence : Q;
}.

Record SessionData := mkSession {
  confidence : Q;
  turns : Z;
  completed : bool;
  extracted : ExtractedIntelligence;
  created_at : Z;
  last_activity : Z;
  current_persona : option string;
  persona_history : list PersonaTransition;
  behavior_patterns : gmap string Z;
  message_history : list string;
}.

Definition set_confidence (c : Q) (s : SessionData) : SessionData :=
  mkSession c (turns s) (completed s) (extracted s) (created_at s)
            (last_activity s) (current_persona s) (persona_history s)
            (behavior_patterns s) (message_history s).

Definition set_turns (n : Z) (s : SessionData) : SessionData :=
  mkSession (confidence s) n (completed s) (extracted s) (created_at s)
            (last_activity s) (current_persona s) (persona_history s)
            (behavior_patterns s) (message_history s).

Definition set_completed (b : bool) (s : SessionData) : SessionData :=
  mkSession (confidence s) (turns s) b (extracted s) (created_at s)
            (last_activity s) (current_persona s) (persona_history s)
            (behavior_patterns s) (message_history s).

Definition set_extracted (x : ExtractedIntelligence) (s : SessionData) : SessionData :=
  mkSession (confidence s) (turns s) (completed s) x (created_at s)
            (last_activity s) (current_persona s) (persona_history s)
            (behavior_patterns s) (message_history s).

Definition set_current_persona (p : option string) (s : SessionData) : SessionData :=
  mkSession (confidence s) (turns s) (completed s) (extracted s) (created_at s)
            (last_activity s) p (persona_history s)
            (behavior_patterns s) (message_history s).

Definition set_persona_history (h : list PersonaTransition) (s : SessionData) : SessionData :=
  mkSession (confidence s) (turns s) (completed s) (extracted s) (created_at s)
            (last_activity s) (current_persona s) h
            (behavior_patterns s) (message_history s).

Definition set_behavior_patterns (b : gmap string Z) (s : SessionData) : SessionData :=
  mkSession (confidence s) (turns s) (completed s) (extracted s) (created_at s)
            (last_activity s) (current_persona s) (persona_history s)
            b (message_history s).

Definition set_message_history (h : list string) (s : SessionData) : SessionData :=
  mkSession (confidence s) (turns s) (completed s) (extracted s) (created_at s)
            (last_activity s) (current_persona s) (persona_history s)
            (behavior_patterns s) h.

(** [session.update_activity()], [now] being the clock's reading. *)
Definition update_activity (now : Z) (s : SessionData) : SessionData :=
  mkSession (confidence s) (turns s) (completed s) (extracted s) (created_at s)
            now (current_persona s) (persona_history s)
            (behavior_patterns s) (message_history s).

Record IncomingRequest := mkRequest {
  sessionId : string;
  message_text : string;
}.

Record MessageResponse := mkResponse {
  status : string;
  reply : option string;
  resp_confidence : Q;
  session_id : option string;
  resp_turns : option Z;
  agent_engaged : bool;
  scam_detected : bool;
}.

Record CallbackPayload := mkPayload {
  cb_sessionId : string;
  cb_scamDetected : bool;
  cb_totalMessagesExchanged : Z;
  cb_extractedIntelligence : ExtractedIntelligence;
  cb_agentNotes : string;
  cb_finalConfidence : Q;
}.

End models.
Export models.

(** ** extraction.py *)

Module extraction.

Definition UPI_PROVIDERS : list string :=
  [ "paytm"; "phonepe"; "googlepay"; "ybl"; "oksbi"; "okhdfcbank";
    "okicici"; "okaxis"; "ibl"; "axl"; "upi" ].

(** [list(set(xs))]: the distinct elements of [xs]; the order Python
    gives them is not specified, the embedding takes the enumeration of
    the finite set. *)
Definition list_set (xs : list string) : list string :=
  elements (list_to_set xs : gset string).

Definition valid_upi (m : string) : bool :=
  contains "@" m &&
  match split_second "@" m with
  | Some piece =>
      let provider := lower piece in
      existsb (fun p => contains p provider) UPI_PROVIDERS
      || contains "bank" provider
  | None => false
  end.

Definition normalize_phone (m : string) : option string :=
  let clean := filter_str (fun c => negb (is_space c || Ascii.eqb c "-")) m in
  let clean :=
    if startswith clean "+91" then drop_str 3 clean
    else if startswith clean "91" && (String.length clean =? 12)%nat
         then drop_str 2 clean
         else clean in
  if (String.length clean =? 10)%nat then Some clean else None.

Definition extract_suspicious_keywords (text : string)
    (detected_flags : list string) : list string :=
  list_set
    (map (remove_all "keyword:")
         (List.filter (fun flag => startswith flag "keyword:") detected_flags)).

Section with_externals.
Context `{Externals}.

Definition extract_upi_ids (text : string) : list string :=
  list_set (List.filter valid_upi (UPI_PATTERN_findall text)).

Definition extract_phone_numbers (text : string) : list string :=
  list_set (omap normalize_phone (PHONE_PATTERN_findall text)).

Definition extract_urls (text : string) : list string :=
  list_set (URL_PATTERN_findall text).

Definition extract_all_intelligence (text : string)
    (detection_flags : list string) : gmap string (list string) :=
  <["upiIds" := extract_upi_ids text]>
    (<["phoneNumbers" := extract_phone_numbers text]>
       (<["phishingLinks" := extract_urls text]>
          (<["suspiciousKeywords" :=
               extract_suspicious_keywords text detection_flags]> ∅))).

End with_externals.

Definition intelligence_keys : list string :=
  [ "upiIds"; "phoneNumbers"; "phishingLinks"; "suspiciousKeywords" ].

(** The loop of [merge_intelligence] over the four keys. *)
Fixpoint merge_keys (keys : list string)
    (existing new merged : gmap string (list string))
    : gmap string (list string) :=
  match keys with
  | [] => merged
  | key :: rest =>
      let combined := list_set (get_list existing key ++ get_list new key)%list in
      merge_keys rest existing new (<[key := combined]> merged)
  end.

Definition merge_intelligence (existing new : gmap string (list string))
    : gmap string (list string) :=
  merge_keys intelligence_keys existing new ∅.

End extraction.
Export extraction.

(** ** persona_manager.py *)

Module persona_manager.

Inductive PersonaType := CONFUSED_USER | NERVOUS_ELDER | OVER_POLITE | TECH_SAVVY.

#[export] Instance PersonaType_eq_dec : EqDecision PersonaType.
Proof. solve_decision. Defined.

(** [persona_type.value]. *)
Definition value (t : PersonaType) : string :=
  match t with
  | CONFUSED_USER => "confused_user"
  | NERVOUS_ELDER => "nervous_elder"
  | OVER_POLITE => "over_polite"
  | TECH_SAVVY => "tech_savvy"
  end.

(** [PersonaType(s)]; [None] stands for the [ValueError]. *)
Definition PersonaType_of_value (s : string) : option PersonaType :=
  if String.eqb s "confused_user" then Some CONFUSED_USER
  else if String.eqb s "nervous_elder" then Some NERVOUS_ELDER
  else if String.eqb s "over_polite" then Some OVER_POLITE
  else if String.eqb s "tech_savvy" then Some TECH_SAVVY
  else None.

Record Persona := mkPersona {
  name : string;
  persona_type : PersonaType;
  description : string;
  traits : list string;
  response_style : string;
  min_confidence : Q;
  max_confidence : Q;
}.

Definition confused_user : Persona :=
  {| name := "Confused User";
     persona_type := CONFUSED_USER;
     description := "A user who is confused and asks many clarifying questions";
     traits := [ "easily confused"; "asks for clarification";
                 "repeats information back"; "uncertain about technical terms";
                 "needs step-by-step guidance" ];
     response_style := "Ask clarifying questions, express confusion about technical terms, request simpler explanations";
     min_confidence := 0.7;
     max_confidence := 1.0 |}.

Definition nervous_elder : Persona :=
  {| name := "Nervous Elder";
     persona_type := NERVOUS_ELDER;
     description := "An elderly person who is nervous about technology and security";
     traits := [ "worried about security"; "not tech-savvy";
                 "cautious and hesitant"; "asks about safety";
                 "mentions family members who help with tech" ];
     response_style := "Express worry and caution, mention needing to ask family, show hesitation about online actions";
     min_confidence := 0.5;
     max_confidence := 0.7 |}.

Definition over_polite : Persona :=
  {| name := "Over-Polite User";
     persona_type := OVER_POLITE;
     description := "An excessively polite user who apologizes frequently";
     traits := [ "extremely polite"; "apologizes often"; "thanks repeatedly";
                 "deferential to authority"; "eager to comply but slow to act" ];
     response_style := "Be overly polite, apologize for delays, thank profusely, show eagerness to help while being slow";
     min_confidence := 0.3;
     max_confidence := 0.5 |}.

Definition tech_savvy : Persona :=
  {| name := "Tech-Savvy Skeptic";
     persona_type := TECH_SAVVY;
     description := "A tech-aware user who is becoming suspicious";
     traits := [ "asks technical questions"; "requests verification";
                 "mentions security concerns"; "questions legitimacy subtly";
                 "wants official channels" ];
     response_style := "Ask for verification, mention official websites, express mild skepticism, request documentation";
     min_confidence := 0.0;
     max_confidence := 0.3 |}.

(** The table [PERSONAS], in the order its entries are declared, which is
    the order [dict.items()] yields them. *)
Definition PERSONAS : list (PersonaType * Persona) :=
  [ (CONFUSED_USER, confused_user); (NERVOUS_ELDER, nervous_elder);
    (OVER_POLITE, over_polite); (TECH_SAVVY, tech_savvy) ].

(** [self.personas[t]]. *)
Definition personas_get (t : PersonaType) : option Persona :=
  snd <$> List.find (fun e => bool_decide (fst e = t)) PERSONAS.

Definition in_band (confidence : Q) (persona : Persona) : bool :=
  Qle_bool (min_confidence persona) confidence
  && Qle_bool confidence (max_confidence persona).

(** The [for] loop of [select_persona]: the first entry of the table whose
    band holds the confidence, [None] when the loop falls through. *)
Fixpoint first_band (confidence : Q) (table : list (PersonaType * Persona))
    : option Persona :=
  match table with
  | [] => None
  | (_, persona) :: rest =>
      if in_band confidence persona then Some persona
      else first_band confidence rest
  end.

(** [current_persona] only feeds a log line. *)
Definition select_persona (confidence : Q) (current_persona : option string)
    : Persona :=
  match first_band confidence PERSONAS with
  | Some persona => persona
  | None => default confused_user (personas_get CONFUSED_USER)
  end.

Definition get_persona_by_type (persona_type : string) : option Persona :=
  match PersonaType_of_value persona_type with
  | Some t => personas_get t
  | None => None
  end.

(** [messages[0]] of the persona's entry in [exit_messages]. *)
Definition get_exit_message (persona : Persona)
    (extracted_intelligence : gmap string (list string)) : string :=
  match persona_type persona with
  | CONFUSED_USER =>
      "I'm getting too confused. I'll visit the branch directly to sort this out."
  | NERVOUS_ELDER =>
      "I'm feeling very nervous about this. I'll ask my son to help me at the bank."
  | OVER_POLITE =>
      "Thank you so much for your help, but I think I'll visit the branch to be safe. Sorry for the trouble!"
  | TECH_SAVVY =>
      "I'll verify this through the official website and contact support directly. Thanks."
  end.

End persona_manager.
Export persona_manager.

(** ** agent.py *)

Module agent.

Inductive Mode := EXIT | DEFLECTION | NORMAL.
Inductive Topic := PAYMENT | OTP | LINK | BANK | GENERAL.

(** A raised exception, by class and message. *)
Inductive PyError := ValueError (msg : string).

(** The outcome of a call that can raise. *)
Inductive result (A : Type) := Return (a : A) | Raise (e : PyError).
Arguments Return {A} a.
Arguments Raise {A} e.

Definition decide_mode (confidence : Q) : result Mode :=
  if negb (Qle_bool 0 confidence && Qle_bool confidence 1)
  then Raise (ValueError "confidence must be between 0 and 1")
  else if Qltb confidence 0.25 then Return EXIT
  else if Qltb confidence 0.5 then Return DEFLECTION
  else Return NORMAL.

Definition detect_topic (message : string) : Topic :=
  let msg := lower message in
  if contains "fee" msg || contains "payment" msg then PAYMENT
  else if contains "otp" msg then OTP
  else if contains "link" msg || contains "click" msg then LINK
  else if contains "bank" msg || contains "upi" msg then BANK
  else GENERAL.

(** What [build_persona_prompt] puts into the prompt text. *)
Record Prompt := mkPrompt {
  prompt_persona : Persona;
  prompt_topic : Topic;
  prompt_mode : Mode;
  scammer_message : string;
}.

(** One [model.generate_content] call: the text of the response, or the
    [str] of the exception it raised. *)
Inductive Generation := Generated (text : string) | Failed (error : string).

(** The retry loop of [call_llm]; [generate prompt attempt] is what the
    model answers at that attempt. *)
Fixpoint call_llm_loop (generate : nat -> Generation) (attempt remaining : nat)
    : string :=
  match remaining with
  | O => "System busy, please try later."
  | S rest =>
      match generate attempt with
      | Generated text => strip text
      | Failed error =>
          let error_str := lower error in
          if contains "quota" error_str || contains "connection" error_str
             || contains "remote" error_str
          then call_llm_loop generate (S attempt) rest
          else "I'm having trouble understanding. Can you repeat that?"
      end
  end.

Definition call_llm (generate : Prompt -> nat -> Generation) (prompt : Prompt)
    : string :=
  call_llm_loop (generate prompt) 0 3.

Definition generate_reply (generate : Prompt -> nat -> Generation)
    (confidence : Q) (last_message : string) (current_persona : option string)
    (extracted_intelligence : gmap string (list string))
    : result (string * string) :=
  let persona := select_persona confidence current_persona in
  let topic := detect_topic last_message in
  match decide_mode confidence with
  | Raise e => Raise e
  | Return mode =>
      let prompt := mkPrompt persona topic mode last_message in
      let reply := call_llm generate prompt in
      Return (reply, value (persona_type persona))
  end.

(** Truth value of an optional string: [None] and [""] are false. *)
Definition truthy (s : option string) : bool :=
  match s with
  | Some EmptyString | None => false
  | Some _ => true
  end.

Definition generate_exit_message (current_persona : option string)
    (extracted_intelligence : gmap string (list string)) : string :=
  let persona :=
    if truthy current_persona
    then get_persona_by_type (default "" current_persona)
    else Some (select_persona 0.2 None) in
  match persona with
  | None => "I will visit the bank branch directly. Thank you."
  | Some persona => get_exit_message persona extracted_intelligence
  end.

End agent.
Export agent.

(** ** callback.py *)

Module callback.

(** One invocation of [send_final_callback]: the payload, the number of
    POST attempts made and whether one succeeded. *)
Record CallbackCall := mkCall {
  payload : CallbackPayload;
  attempts_made : nat;
  delivered : bool;
}.

(** The retry loop; [post attempt] tells whether that attempt succeeds. *)
Fixpoint post_loop (post : nat -> bool) (attempt remaining : nat) : nat * bool :=
  match remaining with
  | O => (attempt, false)
  | S rest =>
      if post attempt then (S attempt, true)
      else post_loop post (S attempt) rest
  end.

Definition send_final_callback (settings : Settings)
    (post : CallbackPayload -> nat -> bool)
    (session_id : string) (session : SessionData) : CallbackCall :=
  let max_retries := callback_retry_attempts settings in
  let payload :=
    {| cb_sessionId := session_id;
       cb_scamDetected := true;
       cb_totalMessagesExchanged := turns session;
       cb_extractedIntelligence := extracted session;
       cb_agentNotes := "Scammer used urgency, repetition, and threat escalation";
       cb_finalConfidence := confidence session |} in
  let '(made, ok) := post_loop (post payload) 0 max_retries in
  mkCall payload made ok.

End callback.
Export callback.

(** ** main.py: the [handle_message] endpoint *)

Module main.

(** What the outside world contributes to one request: the reading of
    [datetime.utcnow()], the answers of the text generator and the fate of
    each callback POST. *)
Record RequestEnv := mkEnv {
  utcnow : Z;
  llm_generate : Prompt -> nat -> Generation;
  http_post : CallbackPayload -> nat -> bool;
}.

(** The process state: the session store [SESSIONS] and the record of the
    [send_final_callback] invocations made so far, oldest first. *)
Record World := mkWorld {
  SESSIONS : gmap string SessionData;
  callbacks : list CallbackCall;
}.

Definition initial_world : World := mkWorld ∅ [].

(** The session built for an unknown session id. *)
Definition new_session (now : Z) : SessionData :=
  {| confidence := 1.0;
     turns := 0;
     completed := false;
     extracted := empty_intelligence;
     created_at := now;
     last_activity := now;
     current_persona := None;
     persona_history := [];
     behavior_patterns := ∅;
     message_history := [] |}.

(** [SESSIONS[session_id]] after the create-if-absent step. *)
Definition load_session (now : Z) (sessions : gmap string SessionData)
    (session_id : string) : SessionData :=
  default (new_session now) (sessions !! session_id).

(** Append the message and keep the last ten. *)
Definition push_history (message_text : string) (history : list string)
    : list string :=
  let history := (history ++ [message_text])%list in
  if (10 <? length history)%nat then last_n 10 history else history.

(** [xs[:-1]]. *)
Definition all_but_last {A} (xs : list A) : list A :=
  take (length xs - 1) xs.

(** The two counter updates that follow a scam verdict. *)
Definition bump_patterns (flags : list string) (patterns : gmap string Z)
    : gmap string Z :=
  let patterns :=
    if py_in "urgency" flags
    then <["urgency" := (pattern_count patterns "urgency" + 1)%Z]> patterns
    else patterns in
  if py_in "threat" flags
  then <["threat" := (pattern_count patterns "threat" + 1)%Z]> patterns
  else patterns.

(** The nested function [should_exit], closed over [session] and
    [settings]. *)
Definition should_exit (settings : Settings) (session : SessionData)
    : bool * option string :=
  if Qle_bool (confidence session) (exit_confidence_threshold settings)
  then (true, Some "confidence_threshold")
  else
    let has_critical_intel :=
      (0 <? length (upiIds (extracted session)))%nat
      || (0 <? length (phoneNumbers (extracted session)))%nat
      || (0 <? length (phishingLinks (extracted session)))%nat in
    if has_critical_intel && (3 <=? turns session)%Z
    then (true, Some "intelligence_collected")
    else if (15 <=? turns session)%Z
    then (true, Some "max_turns_reached")
    else (false, None).

Definition fallback_reply : string :=
  "I'm not sure I understand. Can you explain more?".

Section with_externals.
Context `{Externals}.

(** The session and the detection result after the steps every request
    goes through: load or create, refresh the activity stamp, record the
    message, score it against the earlier messages. *)
Definition track (settings : Settings) (env : RequestEnv)
    (request : IncomingRequest) (w : World) : SessionData * DetectionResult :=
  let session := load_session (utcnow env) (SESSIONS w) (sessionId request) in
  let session := update_activity (utcnow env) session in
  let session :=
    set_message_history
      (push_history (message_text request) (message_history session)) session in
  let detection :=
    detect_scam settings (message_text request)
                (all_but_last (message_history session))
                (behavior_patterns session) in
  (session, detection).

(** The mutations that follow a scam verdict, up to the turn counter. *)
Definition engage (request : IncomingRequest) (detection : DetectionResult)
    (session : SessionData) : SessionData :=
  let session :=
    set_behavior_patterns
      (bump_patterns (flags detection) (behavior_patterns session)) session in
  let session :=
    set_confidence
      (update_confidence (confidence session) (flags detection)
                         (Some (repetition detection))
                         (Some (escalation detection))) session in
  let new_intelligence :=
    extract_all_intelligence (message_text request) (flags detection) in
  let session :=
    set_extracted
      (intelligence_of_dict
         (merge_intelligence (intelligence_dict (extracted session))
                             new_intelligence)) session in
  set_turns (turns session + 1)%Z session.

(** The [else] branch: reply generation with persona tracking, and the
    fallback of the [except] clause. *)
Definition continue_conversation (env : RequestEnv) (request : IncomingRequest)
    (session : SessionData) : SessionData * string :=
  match generate_reply (llm_generate env) (confidence session)
                       (message_text request) (current_persona session)
                       (intelligence_dict (extracted session)) with
  | Return (reply, new_persona) =>
      if bool_decide (Some new_persona ≠ current_persona session)
      then
        let record :=
          {| tr_from := current_persona session;
             tr_to := new_persona;
             tr_turn := turns session;
             tr_confidence := confidence session |} in
        let session :=
          set_persona_history (persona_history session ++ [record])%list session in
        (set_current_persona (Some new_persona) session, reply)
      else (session, reply)
  | Raise _ => (session, fallback_reply)
  end.

(** The rest of a scam-flagged turn, [session] being the session after
    [engage]: the exit decision, then either the callback and the exit
    message or the generated reply, and the response. *)
Definition decide_and_reply (settings : Settings) (env : RequestEnv)
    (request : IncomingRequest) (w : World) (session : SessionData)
    : World * MessageResponse :=
  let session_id := sessionId request in
  let '(exit_needed, exit_reason) := should_exit settings session in
  let '(session, sent, reply) :=
    if exit_needed && negb (completed session) then
      let call :=
        send_final_callback settings (http_post env) session_id session in
      let session := set_completed true session in
      (session, [call],
       generate_exit_message (current_persona session)
                             (intelligence_dict (extracted session)))
    else
      let '(session, reply) := continue_conversation env request session in
      (session, [], reply) in
  (mkWorld (<[session_id := session]> (SESSIONS w)) (callbacks w ++ sent)%list,
   {| status := "success";
      reply := Some reply;
      resp_confidence := confidence session;
      session_id := Some session_id;
      resp_turns := Some (turns session);
      agent_engaged := true;
      scam_detected := true |}).

Definition handle_message (settings : Settings) (env : RequestEnv)
    (request : IncomingRequest) (w : World) : World * MessageResponse :=
  let session_id := sessionId request in
  let '(session, detection) := track settings env request w in
  if negb (is_scam detection) then
    (mkWorld (<[session_id := session]> (SESSIONS w)) (callbacks w),
     {| status := "success";
        reply := None;
        resp_confidence := 1.0;
        session_id := Some session_id;
        resp_turns := Some (turns session);
        agent_engaged := false;
        scam_detected := false |})
  else
    decide_and_reply settings env request w (engage request detection session).

(** The server handling a sequence of requests, one after the other. *)
Fixpoint serve (settings : Settings)
    (requests : list (RequestEnv * IncomingRequest)) (w : World) : World :=
  match requests with
  | [] => w
  | (env, request) :: rest =>
      serve settings rest (fst (handle_message settings env request w))
  end.

End with_externals.

End main.
Export main.

(** ** middleware.py: the rate limiter *)

Module middleware.

(** What [dispatch] reads of a request: [request.url.path] and
    [request.client.host] ([None] when [request.client] is missing). *)
Record HttpRequest := mkHttpRequest {
  url_path : string;
  client_host : option string;
}.

(** The two fields of a [RateLimitMiddleware]; the time stamps are
    readings of [time.time()]. *)
Record RateLimitMiddleware := mkRateLimit {
  requests_per_minute : Z;
  request_counts : gmap string (list Q);
}.

(** [RateLimitMiddleware(app, requests_per_minute)]. *)
Definition new_rate_limiter (requests_per_minute : Z) : RateLimitMiddleware :=
  mkRateLimit requests_per_minute ∅.

Definition _clean_old_requests (self : RateLimitMiddleware) (ip : string)
    (current_time : Q) : RateLimitMiddleware :=
  match request_counts self !! ip with
  | Some times =>
      mkRateLimit (requests_per_minute self)
        (<[ip := List.filter (fun req_time => Qltb (current_time - req_time) 60)
                             times]> (request_counts self))
  | None => self
  end.

(** What [dispatch] does with the request: hand it on without a look at
    the counters, hand it on after counting it, or answer 429. *)
Inductive Verdict := Bypassed | Accepted | Rejected.

(** [dispatch] up to the call of the next handler; the counters are not
    touched after it. *)
Definition dispatch (self : RateLimitMiddleware) (request : HttpRequest)
    (current_time : Q) : RateLimitMiddleware * Verdict :=
  if py_in (url_path request) ["/health"; "/health/detailed"]
  then (self, Bypassed)
  else
    let client_ip := default "unknown" (client_host request) in
    let self := _clean_old_requests self client_ip current_time in
    let self :=
      match request_counts self !! client_ip with
      | Some _ => self
      | None =>
          mkRateLimit (requests_per_minute self)
                      (<[client_ip := []]> (request_counts self))
      end in
    let times := default [] (request_counts self !! client_ip) in
    if (requests_per_minute self <=? Z.of_nat (length times))%Z
    then (self, Rejected)
    else
      (mkRateLimit (requests_per_minute self)
         (<[client_ip := (times ++ [current_time])%list]> (request_counts self)),
       Accepted).

End middleware.
Export middleware.

(** ** main.py: the monitoring endpoints *)

Module monitoring.


(** [SESSIONS.items()] and [SESSIONS.values()].  Python yields them in
    the order of insertion, which the store does not record; the
    embedding takes the enumeration of the finite map. *)
Definition session_items (w : World) : list (string * SessionData) :=
  map_to_list (SESSIONS w).


(** [sum(1 for x in xs if p(x))]. *)
Definition count_if {A} (p : A -> bool) (xs : list A) : nat :=
  length (List.filter p xs).



(** An entry of [sessions_with_data]. *)
Record SessionSummary := mkSummary {
  sum_session_id : string;
  sum_confidence : Q;
  sum_turns : Z;
  sum_completed : bool;
  sum_extracted : gmap string (list string);
  sum_created_at : Z;
}.

(** The accumulators of the loop of [get_intelligence]. *)
Record Aggregation := mkAggregation {
  all_upi_ids : list string;
  all_phone_numbers : list string;
  all_phishing_links : list string;
  all_keywords : list string;
  sessions_with_data : list SessionSummary;
  scam_count : nat;
}.

(** Truth value of [a or b or c or d] for four lists. *)
Definition has_intelligence (extracted : ExtractedIntelligence) : bool :=
  (0 <? length (upiIds extracted))%nat
  || (0 <? length (phoneNumbers extracted))%nat
  || (0 <? length (phishingLinks extracted))%nat
  || (0 <? length (suspiciousKeywords extracted))%nat.

(** One turn of the loop over [SESSIONS.items()]. *)
Definition aggregate_session (acc : Aggregation) (item : string * SessionData)
    : Aggregation :=
  let '(session_id, session_data) := item in
  let extracted := extracted session_data in
  let acc :=
    if has_intelligence extracted
    then
      mkAggregation
        (all_upi_ids acc ++ upiIds extracted)%list
        (all_phone_numbers acc ++ phoneNumbers extracted)%list
        (all_phishing_links acc ++ phishingLinks extracted)%list
        (all_keywords acc ++ suspiciousKeywords extracted)%list
        (sessions_with_data acc
           ++ [ {| sum_session_id := session_id;
                   sum_confidence := confidence session_data;
                   sum_turns := turns session_data;
                   sum_completed := completed session_data;
                   sum_extracted := intelligence_dict extracted;
                   sum_created_at := created_at session_data |} ])%list
        (scam_count acc)
    else acc in
  if Qltb (confidence session_data) 1.0
  then mkAggregation (all_upi_ids acc) (all_phone_numbers acc)
                     (all_phishing_links acc) (all_keywords acc)
                     (sessions_with_data acc) (S (scam_count acc))
  else acc.

Record UniqueCounts := mkUniqueCounts {
  unique_upi_ids : nat;
  unique_phone_numbers : nat;
  unique_phishing_links : nat;
  unique_keywords : nat;
  total_unique_items : nat;
}.

Record IntelligenceResponse := mkIntelligenceResponse {
  ir_total_sessions : nat;
  scam_sessions : nat;
  aggregated_intelligence : ExtractedIntelligence;
  unique_counts : UniqueCounts;
  sessions_with_intelligence : list SessionSummary;
}.

Definition get_intelligence (w : World) : IntelligenceResponse :=
  let acc :=
    fold_left aggregate_session (session_items w)
              (mkAggregation [] [] [] [] [] 0) in
  let aggregated :=
    mkExtracted (list_set (all_upi_ids acc)) (list_set (all_phone_numbers acc))
                (list_set (all_phishing_links acc)) (list_set (all_keywords acc)) in
  let unique_counts :=
    {| unique_upi_ids := length (upiIds aggregated);
       unique_phone_numbers := length (phoneNumbers aggregated);
       unique_phishing_links := length (phishingLinks aggregated);
       unique_keywords := length (suspiciousKeywords aggregated);
       total_unique_items :=
         (length (upiIds aggregated) + length (phoneNumbers aggregated)
          + length (phishingLinks aggregated)
          + length (suspiciousKeywords aggregated))%nat |} in
  mkIntelligenceResponse (length (session_items w)) (scam_count acc) aggregated
                         unique_counts (sessions_with_data acc).

End monitoring.
Export monitoring.

(** ** models.py and config.py: the validators *)

Module validation.





End validation.
Export validation.

(** ** Vocabulary of the statements *)

Module vocabulary.

(** A repetition result the detector can produce never reports a negative
    similarity together with [is_repetitive]. *)
Definition similarity_nonneg (repetition_data : option RepetitionResult) : Prop :=
  forall r, repetition_data = Some r -> is_repetitive r = true -> 0 <= similarity r.

(** The two shapes of response [handle_message] builds. *)
Definition pass_through_response (session_id : string) (session : SessionData)
    : MessageResponse :=
  {| status := "success"; reply := None; resp_confidence := 1.0;
     session_id := Some session_id; resp_turns := Some (turns session);
     agent_engaged := false; scam_detected := false |}.

Definition engaged_response (session_id : string) (session : SessionData)
    (text : string) : MessageResponse :=
  {| status := "success"; reply := Some text;
     resp_confidence := confidence session;
     session_id := Some session_id; resp_turns := Some (turns session);
     agent_engaged := true; scam_detected := true |}.

(** The invocations of [send_final_callback] recorded for a session. *)
Definition calls_for (session_id : string) (w : World) : list CallbackCall :=
  List.filter (fun call => String.eqb (cb_sessionId (payload call)) session_id)
              (callbacks w).

(** The exit branch of [handle_message] is taken. *)
Definition exit_fires (settings : Settings) (engaged : SessionData) : bool :=
  fst (should_exit settings engaged) && negb (completed engaged).





(** At most one callback per session, and none before the session is
    completed. *)
Definition callbacks_sound (w : World) : Prop :=
  forall session_id,
    (length (calls_for session_id w) <= 1)%nat
    /\ (calls_for session_id w <> [] ->
        exists s, SESSIONS w !! session_id = Some s /\ completed s = true).

End vocabulary.
Export vocabulary.

(** ** Vocabulary of the further statements *)

Module more_vocabulary.





(** Field by field, everything in [a] is in [b]. *)
Definition intelligence_included (a b : ExtractedIntelligence) : Prop :=
  upiIds a ⊆ upiIds b
  /\ phoneNumbers a ⊆ phoneNumbers b
  /\ phishingLinks a ⊆ phishingLinks b
  /\ suspiciousKeywords a ⊆ suspiciousKeywords b.

(** No field lists an item twice. *)
Definition intelligence_nodup (a : ExtractedIntelligence) : Prop :=
  NoDup (upiIds a) /\ NoDup (phoneNumbers a)
  /\ NoDup (phishingLinks a) /\ NoDup (suspiciousKeywords a).

(** The four persona identifiers. *)
Definition persona_names : list string := map (fun e => value (fst e)) PERSONAS.



(** The turn numbers of the records grow strictly, from above [low] up to
    at most [high]. *)
Fixpoint turns_increase (low : Z) (history : list PersonaTransition) (high : Z)
    : Prop :=
  match history with
  | [] => (low <= high)%Z
  | record :: rest =>
      (low < tr_turn record)%Z /\ turns_increase (tr_turn record) rest high
  end.



(** The texts sent to a session, oldest first. *)
Definition texts_for (session_id : string)
    (requests : list (RequestEnv * IncomingRequest)) : list string :=
  map (fun e => message_text (snd e))
      (List.filter (fun e => String.eqb (sessionId (snd e)) session_id) requests).

(** The pressure counters hold the two known keys only, and no counter
    exceeds the number of turns. *)
Definition patterns_bounded (s : SessionData) : Prop :=
  forall key n,
    behavior_patterns s !! key = Some n ->
    (key = "urgency" \/ key = "threat") /\ (1 <= n <= turns s)%Z.

(** An attempt of the text generator that [call_llm] answers by trying
    again: a failure whose message mentions a quota, a connection or a
    remote end. *)
Definition retryable (g : Generation) : bool :=
  match g with
  | Generated _ => false
  | Failed error =>
      contains "quota" (lower error) || contains "connection" (lower error)
      || contains "remote" (lower error)
  end.

(** What a response says apart from the reply text. *)
Definition response_facts (r : MessageResponse)
    : string * Q * option string * option Z * bool * bool :=
  (status r, resp_confidence r, models.session_id r, resp_turns r,
   agent_engaged r, scam_detected r).


(** Two request sequences that differ at most in what the text generator
    answers and in the fate of the callback POSTs. *)
Definition same_inputs (a b : list (RequestEnv * IncomingRequest)) : Prop :=
  Forall2 (fun x y => utcnow (fst x) = utcnow (fst y) /\ snd x = snd y) a b.

(** The client a request is counted for, and whether the limiter lets the
    request pass unseen. *)
Definition client_of (request : HttpRequest) : string :=
  default "unknown" (client_host request).

Definition exempt (request : HttpRequest) : bool :=
  py_in (url_path request) ["/health"; "/health/detailed"].

(** The limiter serving a sequence of arrivals, each with the reading of
    the clock at its arrival; [log] collects the client and time of every
    request admitted, oldest first. *)
Fixpoint limiter_run (self : RateLimitMiddleware)
    (arrivals : list (HttpRequest * Q)) (log : list (string * Q))
    : RateLimitMiddleware * list (string * Q) :=
  match arrivals with
  | [] => (self, log)
  | (request, current_time) :: rest =>
      let '(self, verdict) := dispatch self request current_time in
      limiter_run self rest
        (log ++ match verdict with
                | Accepted => [(client_of request, current_time)]
                | _ => []
                end)%list
  end.

(** A time stamp less than sixty seconds old. *)
Definition recent (now stamp : Q) : bool := Qltb (now - stamp) 60.

(** The admissions of a client in a log, and how many of them are
    recent. *)
Definition times_of (client : string) (log : list (string * Q)) : list Q :=
  map snd (List.filter (fun e => String.eqb (fst e) client) log).

Definition accepted_within (client : string) (now : Q)
    (log : list (string * Q)) : nat :=
  length (List.filter (recent now) (times_of client log)).

(** The time stamps the limiter holds for a client. *)
Definition stored_times (self : RateLimitMiddleware) (client : string) : list Q :=
  default [] (request_counts self !! client).

(** The limiter after the two steps that precede the check: the old
    time stamps of the client are dropped and a missing entry is created. *)
Definition counters_ready (self : RateLimitMiddleware) (client : string)
    (now : Q) : RateLimitMiddleware :=
  let self := _clean_old_requests self client now in
  match request_counts self !! client with
  | Some _ => self
  | None =>
      mkRateLimit (requests_per_minute self)
                  (<[client := []]> (request_counts self))
  end.

(** The counters agree with the log on everything that is still recent
    at [since] or later. *)
Definition limiter_consistent (self : RateLimitMiddleware)
    (log : list (string * Q)) (since : Q) : Prop :=
  forall client now,
    since <= now ->
    List.filter (recent now) (stored_times self client)
      = List.filter (recent now) (times_of client log).

(** Clock readings that never go back. *)
Fixpoint ascending_from (start : Q) (times : list Q) : Prop :=
  match times with
  | [] => True
  | t :: rest => start <= t /\ ascending_from t rest
  end.

Definition ascending (times : list Q) : Prop :=
  match times with
  | [] => True
  | t :: rest => ascending_from t rest
  end.

Section with_externals.
Context `{Externals}.

(** The session [handle_message] stores, as a function of the session it
    loaded. *)
Definition next_session (settings : Settings) (env : RequestEnv)
    (request : IncomingRequest) (before : SessionData) : SessionData :=
  let session :=
    set_message_history
      (push_history (message_text request) (message_history before))
      (update_activity (utcnow env) before) in
  let detection :=
    detect_scam settings (message_text request)
                (all_but_last (message_history session))
                (behavior_patterns session) in
  if negb (is_scam detection) then session
  else
    let engaged := engage request detection session in
    if exit_fires settings engaged then set_completed true engaged
    else fst (continue_conversation env request engaged).

(** The responses the server gives to a sequence of requests. *)
Fixpoint serve_responses (settings : Settings)
    (requests : list (RequestEnv * IncomingRequest)) (w : World)
    : list MessageResponse :=
  match requests with
  | [] => []
  | (env, request) :: rest =>
      snd (handle_message settings env request w)
        :: serve_responses settings rest
             (fst (handle_message settings env request w))
  end.

(** The number of requests of a sequence, addressed to [session_id], on
    which the agent engaged. *)
Definition engaged_count (settings : Settings)
    (requests : list (RequestEnv * IncomingRequest)) (w : World)
    (session_id : string) : nat :=
  length
    (List.filter
       (fun r => agent_engaged r
                 && bool_decide (models.session_id r = Some session_id))
       (serve_responses settings requests w)).

End with_externals.

End more_vocabulary.
Export more_vocabulary.

(** ** Sample inputs *)

Module samples.

(** Capabilities standing in for the libraries: equal texts are fully
    similar, different ones not at all; the patterns find nothing, except
    that any text holding an [@] is reported as one payment handle. *)
#[export] Instance sample_externals : Externals :=
  {| sequence_ratio := fun a b => if String.eqb a b then 1 else 0;
     UPI_PATTERN_findall := fun text => if contains "@" text then [text] else [];
     PHONE_PATTERN_findall := fun _ => [];
     URL_PATTERN_findall := fun _ => [] |}.

(** The generator answers at once, the callback is delivered at once. *)
Definition calm_env : RequestEnv :=
  {| utcnow := 5;
     llm_generate := fun _ _ => Generated " Which account do you mean? ";
     http_post := fun _ _ => true |}.

(** The same clock, but the generator is out of quota and no callback
    POST gets through. *)
Definition stormy_env : RequestEnv :=
  {| utcnow := 5;
     llm_generate := fun _ _ => Failed "quota exceeded";
     http_post := fun _ _ => false |}.

Definition scam_request : IncomingRequest :=
  mkRequest "s1" "Your account is blocked. Pay immediately.".

Definition benign_request : IncomingRequest :=
  mkRequest "s1" "Hello, how can I help you?".

(** The world after one scam message on a fresh store. *)
Definition world_after_one_scam : World :=
  Eval vm_compute in
    fst (handle_message default_settings calm_env scam_request initial_world).

(** The world after a second scam message, which ends the engagement. *)
Definition world_after_exit : World :=
  Eval vm_compute in
    fst (handle_message default_settings calm_env scam_request
                        world_after_one_scam).

(** A session meeting all three exit conditions at once. *)
Definition ripe_session : SessionData :=
  {| confidence := 0.3;
     turns := 15;
     completed := false;
     extracted := mkExtracted ["pay@paytm"] [] [] [];
     created_at := 0;
     last_activity := 0;
     current_persona := Some "over_polite";
     persona_history := [];
     behavior_patterns := ∅;
     message_history := [] |}.

(** Two intelligence dictionaries sharing one payment handle. *)
Definition found_first : gmap string (list string) :=
  <["upiIds" := ["pay@paytm"; "win@ybl"]]> (<["phoneNumbers" := ["9876543210"]]> ∅).

Definition found_second : gmap string (list string) :=
  <["upiIds" := ["win@ybl"; "win@ybl"]]> ∅.

End samples.
Export samples.

(** * Properties *)

(** ** Arithmetic of the embedding *)

Section numeric_facts.

Lemma Qle_bool_reflect (x y : Q) : reflect (x <= y) (Qle_bool x y).
Proof. apply iff_reflect. symmetry. apply Qle_bool_iff. Qed.

Lemma Qltb_reflect (x y : Q) : reflect (x < y) (Qltb x y).
Proof.
  unfold Qltb. destruct (Qle_bool_reflect y x); constructor; lra.
Qed.

Lemma py_max_lower (a b : Q) : a <= py_max a b.
Proof. unfold py_max. destruct (Qltb_reflect a b); lra. Qed.



Lemma round_half_even_mono (x y : Q) :
  x <= y -> (round_half_even x <= round_half_even y)%Z.
Proof.
  intros Hxy. unfold round_half_even.
  pose proof (Qfloor_resp_le x y Hxy) as Hfl.
  pose proof (Qfloor_le x) as Hx1. pose proof (Qlt_floor x) as Hx2.
  pose proof (Qfloor_le y) as Hy1. pose proof (Qlt_floor y) as Hy2.
  rewrite inject_Z_plus in Hx2, Hy2.
  destruct (Z.eq_dec (Qfloor x) (Qfloor y)) as [Heq | Hne].
  - rewrite <- Heq in *.
    destruct (Qcompare_spec (x - inject_Z (Qfloor x)) (1 # 2)) as [E1 | L1 | G1];
      destruct (Qcompare_spec (y - inject_Z (Qfloor x)) (1 # 2)) as [E2 | L2 | G2];
      try destruct (Z.even (Qfloor x)); try lia; exfalso; lra.
  - assert (Qfloor x + 1 <= Qfloor y)%Z as Hlt by lia.
    destruct (Qcompare (x - inject_Z (Qfloor x)) (1 # 2));
      destruct (Qcompare (y - inject_Z (Qfloor y)) (1 # 2));
      try destruct (Z.even (Qfloor x)); try destruct (Z.even (Qfloor y)); lia.
Qed.

Lemma round_half_even_inject (n : Z) : round_half_even (inject_Z n) = n.
Proof.
  unfold round_half_even. rewrite Qfloor_Z.
  destruct (Qcompare_spec (inject_Z n - inject_Z n) (1 # 2)) as [E | L | G];
    [exfalso; lra | reflexivity | exfalso; lra].
Qed.

Lemma round_half_even_comp (x y : Q) : x == y -> round_half_even x = round_half_even y.
Proof.
  intros E. apply Z.le_antisymm; apply round_half_even_mono; lra.
Qed.

Lemma Qmake_100_le (a b : Z) : (a <= b)%Z -> a # 100 <= b # 100.
Proof. intros Hab. unfold Qle. simpl. lia. Qed.

Lemma round2_mono (x y : Q) : x <= y -> round2 x <= round2 y.
Proof.
  intros Hxy. unfold round2. apply Qmake_100_le, round_half_even_mono. lra.
Qed.

Lemma round2_hundredths (n : Z) : round2 (n # 100) = n # 100.
Proof.
  unfold round2. f_equal.
  rewrite <- (round_half_even_inject n) at 2.
  apply round_half_even_comp. unfold Qeq. simpl. lia.
Qed.





End numeric_facts.

(** ** Scenarios of the repository's tests *)

Section test_scenarios.
Context `{Externals}.

Example test_basic_scam_detection :
  let result :=
    detect_scam default_settings "Your account is blocked. Pay immediately." [] ∅ in
  is_scam result = true
  /\ flags result
       = [ "keyword:blocked"; "keyword:immediately"; "keyword:account";
           "urgency"; "threat" ].
Proof. split; reflexivity. Qed.

Example test_no_scam_detected :
  is_scam (detect_scam default_settings "Hello, how can I help you?" [] ∅) = false.
Proof. reflexivity. Qed.

Example test_no_repetition_empty_history :
  detect_repetition "Hello" [] = mkRepetition false 0.0 0.
Proof. reflexivity. Qed.

End test_scenarios.

Example test_escalation_final_warning :
  let result :=
    detect_escalation "This is your final warning"
                      (<["urgency" := 1%Z]> (<["threat" := 1%Z]> ∅)) in
  is_escalating result = true /\ escalation_type result = Some "final_warning".
Proof. vm_compute. split; reflexivity. Qed.

Example test_escalation_repeated_pressure :
  let result :=
    detect_escalation "Pay now" (<["urgency" := 3%Z]> (<["threat" := 1%Z]> ∅)) in
  is_escalating result = true /\ escalation_type result = Some "repeated_pressure".
Proof. vm_compute. split; reflexivity. Qed.

Example test_basic_confidence_decay :
  update_confidence 1.0 ["urgency"; "keyword:blocked"] None None == 0.9.
Proof. reflexivity. Qed.

Example test_confidence_decay_with_repetition :
  update_confidence 0.8 ["urgency"] (Some (mkRepetition true 0.9 2)) None == 0.51.
Proof. reflexivity. Qed.

Example test_confidence_decay_with_escalation :
  update_confidence 0.7 ["threat"] None
    (Some (mkEscalation true (Some "final_warning") 0 0)) == 0.35.
Proof. reflexivity. Qed.

Example test_confidence_minimum_zero :
  update_confidence 0.1 ["urgency"; "threat"; "keyword:blocked"]
    (Some (mkRepetition true 0.9 3))
    (Some (mkEscalation true (Some "final_warning") 0 0)) == 0.
Proof. reflexivity. Qed.

Example test_persona_selection :
  map (fun c => persona_type (select_persona c None)) [0.9; 0.6; 0.4; 0.2]
    = [CONFUSED_USER; NERVOUS_ELDER; OVER_POLITE; TECH_SAVVY].
Proof. reflexivity. Qed.

Example test_get_persona_by_type :
  get_persona_by_type "confused_user" = Some confused_user
  /\ get_persona_by_type "invalid_type" = None.
Proof. split; reflexivity. Qed.

(** ** The confidence tracker *)

Section confidence_facts.











End confidence_facts.

(** ** Monotonicity of the decay *)

Section decay_monotone.







End decay_monotone.

(** ** Mode derivation *)

Section mode_facts.

(** C10: [decide_mode] raises its validation error exactly when the
    confidence is outside [[0, 1]]; inside, it returns [EXIT] below 0.25,
    [DEFLECTION] from 0.25 up to but excluding 0.5, and [NORMAL] from 0.5
    to 1. *)
Theorem decide_mode_validation (confidence : Q) :
  ((exists e, decide_mode confidence = Raise e) <-> ~ (0 <= confidence <= 1))
  /\ (0 <= confidence <= 1 -> exists mode, decide_mode confidence = Return mode)
  /\ (0 <= confidence < 0.25 -> decide_mode confidence = Return EXIT)
  /\ (0.25 <= confidence < 0.5 -> decide_mode confidence = Return DEFLECTION)
  /\ (0.5 <= confidence <= 1 -> decide_mode confidence = Return NORMAL).
Proof.
  unfold decide_mode.
  destruct (Qle_bool_reflect 0 confidence) as [H0 | H0];
    destruct (Qle_bool_reflect confidence 1) as [H1 | H1];
    destruct (Qltb_reflect confidence 0.25) as [Ha | Ha];
    destruct (Qltb_reflect confidence 0.5) as [Hb | Hb];
    cbn [andb negb];
    (repeat split);
    try (intros [e He]; discriminate He);
    try (intros; exfalso; lra);
    try (intros; eexists; reflexivity);
    try reflexivity;
    try (intros _; lra).
Qed.

Lemma decide_mode_validation_witness :
  decide_mode 0.1 = Return EXIT
  /\ decide_mode 0.25 = Return DEFLECTION
  /\ decide_mode 0.5 = Return NORMAL
  /\ (exists e, decide_mode 1.5 = Raise e).
Proof.
  split; [apply (decide_mode_validation 0.1); lra |].
  split; [apply (decide_mode_validation 0.25); lra |].
  split; [apply (decide_mode_validation 0.5); lra |].
  apply (decide_mode_validation 1.5). lra.
Defined.

End mode_facts.

(** ** Persona bands *)

Section persona_facts.

Lemma first_band_first (c : Q) (table : list (PersonaType * Persona)) (p : Persona) :
  first_band c table = Some p <->
  exists before t after,
    table = (before ++ (t, p) :: after)%list
    /\ in_band c p = true
    /\ Forall (fun e => in_band c (snd e) = false) before.
Proof.
  induction table as [| [t0 p0] rest IH]; simpl.
  - split; [discriminate |].
    intros (before & t & after & Heq & _). destruct before; discriminate Heq.
  - destruct (in_band c p0) eqn:Hin.
    + split.
      * intros [= <-]. exists [], t0, rest. auto.
      * intros (before & t & after & Heq & Hp & Hbefore).
        destruct before as [| e before]; simpl in Heq.
        -- injection Heq as _ <- _. reflexivity.
        -- injection Heq as <- _. apply Forall_cons in Hbefore as [Hf _].
           simpl in Hf. congruence.
    + rewrite IH. split.
      * intros (before & t & after & -> & Hp & Hbefore).
        exists ((t0, p0) :: before), t, after. repeat split; auto.
      * intros (before & t & after & Heq & Hp & Hbefore).
        destruct before as [| e before]; simpl in Heq.
        -- injection Heq as _ <- _. congruence.
        -- injection Heq as <- ->. apply Forall_cons in Hbefore as [_ Hb].
           exists before, t, after. auto.
Qed.

Lemma first_band_PERSONAS (c : Q) :
  first_band c PERSONAS =
    if in_band c confused_user then Some confused_user
    else if in_band c nervous_elder then Some nervous_elder
    else if in_band c over_polite then Some over_polite
    else if in_band c tech_savvy then Some tech_savvy
    else None.
Proof. reflexivity. Qed.

Ltac band_cases c :=
  rewrite ?first_band_PERSONAS; unfold in_band; cbn [min_confidence max_confidence
    confused_user nervous_elder over_polite tech_savvy];
  destruct (Qle_bool_reflect 0.7 c); destruct (Qle_bool_reflect c 1.0);
  destruct (Qle_bool_reflect 0.5 c); destruct (Qle_bool_reflect c 0.7);
  destruct (Qle_bool_reflect 0.3 c); destruct (Qle_bool_reflect c 0.5);
  destruct (Qle_bool_reflect 0.0 c); destruct (Qle_bool_reflect c 0.3);
  cbn [andb]; try reflexivity; try (exfalso; lra).

Lemma select_persona_band (c : Q) (cur : option string) :
  (0.7 <= c <= 1 -> select_persona c cur = confused_user)
  /\ (0.5 <= c < 0.7 -> select_persona c cur = nervous_elder)
  /\ (0.3 <= c < 0.5 -> select_persona c cur = over_polite)
  /\ (0 <= c < 0.3 -> select_persona c cur = tech_savvy).
Proof.
  unfold select_persona. repeat split; intros Hc; band_cases c.
Qed.

Lemma first_band_total (c : Q) :
  0 <= c <= 1 -> is_Some (first_band c PERSONAS).
Proof.
  intros Hc. band_cases c; eauto.
Qed.

(** C6: the persona is a function of the confidence alone (the current
    persona does not influence it); the bands are tried in the order
    confused_user, nervous_elder, over_polite, tech_savvy and the first one
    holding the confidence is selected; a confidence of 0.7, 0.5 or 0.3,
    which two bands hold, gets the persona of the higher band; every
    confidence in [[0, 1]] is held by some band, so the loop never falls
    through to the default. *)
Theorem select_persona_deterministic_bands (confidence : Q) (current other : option string) :
  select_persona confidence current = select_persona confidence other
  /\ map (fun e => value (fst e)) PERSONAS
       = [ "confused_user"; "nervous_elder"; "over_polite"; "tech_savvy" ]
  /\ map (fun e => (min_confidence (snd e), max_confidence (snd e))) PERSONAS
       = [ (0.7, 1.0); (0.5, 0.7); (0.3, 0.5); (0.0, 0.3) ]
  /\ (forall p, first_band confidence PERSONAS = Some p <->
        exists before t after,
          PERSONAS = (before ++ (t, p) :: after)%list
          /\ in_band confidence p = true
          /\ Forall (fun e => in_band confidence (snd e) = false) before)
  /\ (0 <= confidence <= 1 ->
        exists p, first_band confidence PERSONAS = Some p
                  /\ select_persona confidence current = p)
  /\ (0.7 <= confidence <= 1 -> select_persona confidence current = confused_user)
  /\ (0.5 <= confidence < 0.7 -> select_persona confidence current = nervous_elder)
  /\ (0.3 <= confidence < 0.5 -> select_persona confidence current = over_polite)
  /\ (0 <= confidence < 0.3 -> select_persona confidence current = tech_savvy)
  /\ (in_band 0.7 nervous_elder = true /\ select_persona 0.7 current = confused_user)
  /\ (in_band 0.5 over_polite = true /\ select_persona 0.5 current = nervous_elder)
  /\ (in_band 0.3 tech_savvy = true /\ select_persona 0.3 current = over_polite).
Proof.
  split; [reflexivity |]. split; [reflexivity |]. split; [reflexivity |].
  split; [intros p; apply first_band_first |].
  split.
  { intros Hc. destruct (first_band_total confidence Hc) as [p Hp].
    exists p. split; [exact Hp |]. unfold select_persona. rewrite Hp. reflexivity. }
  pose proof (select_persona_band confidence current) as (Ha & Hb & Hc & Hd).
  repeat split; auto.
Qed.

Lemma select_persona_deterministic_bands_witness :
  select_persona 0.55 (Some "confused_user") = nervous_elder
  /\ select_persona 1 None = confused_user
  /\ select_persona 0.31 None = over_polite
  /\ select_persona 0 None = tech_savvy
  /\ exists p, first_band 0.55 PERSONAS = Some p.
Proof.
  split; [apply (select_persona_deterministic_bands 0.55 (Some "confused_user") None); lra |].
  split; [apply (select_persona_deterministic_bands 1 None None); lra |].
  split; [apply (select_persona_deterministic_bands 0.31 None None); lra |].
  split; [apply (select_persona_deterministic_bands 0 None None); lra |].
  destruct (select_persona_deterministic_bands 0.55 None None)
    as (_ & _ & _ & _ & Hcover & _).
  destruct Hcover as [p [Hp _]]; [lra |]. exists p. exact Hp.
Defined.

End persona_facts.

(** ** Exit policy *)

Section exit_facts.

(** C3: [should_exit] tests, in this order, the confidence against the
    exit threshold (0.4 by default), then critical intelligence together
    with at least three turns, then at least fifteen turns, and reports the
    reason of the first test that holds; with all three holding the reason
    is [confidence_threshold]. *)
Theorem should_exit_precedence (settings : Settings) (session : SessionData) :
  let low_confidence := confidence session <= exit_confidence_threshold settings in
  let critical_intel :=
    upiIds (extracted session) <> []
    \/ phoneNumbers (extracted session) <> []
    \/ phishingLinks (extracted session) <> [] in
  let enough_intel := critical_intel /\ (3 <= turns session)%Z in
  let too_long := (15 <= turns session)%Z in
  exit_confidence_threshold default_settings == 0.4
  /\ (low_confidence ->
        should_exit settings session = (true, Some "confidence_threshold"))
  /\ (~ low_confidence -> enough_intel ->
        should_exit settings session = (true, Some "intelligence_collected"))
  /\ (~ low_confidence -> ~ enough_intel -> too_long ->
        should_exit settings session = (true, Some "max_turns_reached"))
  /\ (~ low_confidence -> ~ enough_intel -> ~ too_long ->
        should_exit settings session = (false, None))
  /\ (low_confidence -> enough_intel -> too_long ->
        should_exit settings session = (true, Some "confidence_threshold")).
Proof.
  intros low_confidence critical_intel enough_intel too_long.
  assert ((0 <? length (upiIds (extracted session)))%nat
          || (0 <? length (phoneNumbers (extracted session)))%nat
          || (0 <? length (phishingLinks (extracted session)))%nat = true
          <-> critical_intel) as Hintel.
  { unfold critical_intel.
    destruct (upiIds (extracted session)), (phoneNumbers (extracted session)),
      (phishingLinks (extracted session)); simpl; split; intros Hx;
      try reflexivity; try discriminate Hx;
      try (left; discriminate); try (right; left; discriminate);
      try (right; right; discriminate).
    destruct Hx as [Hx | [Hx | Hx]]; contradiction. }
  unfold should_exit, low_confidence, enough_intel, too_long in *.
  split; [reflexivity |].
  destruct (Qle_bool_reflect (confidence session) (exit_confidence_threshold settings))
    as [Hlow | Hlow].
  { repeat split; intros; try reflexivity; contradiction. }
  destruct ((0 <? length (upiIds (extracted session)))%nat
            || (0 <? length (phoneNumbers (extracted session)))%nat
            || (0 <? length (phishingLinks (extracted session)))%nat) eqn:Hb;
    destruct (Z.leb_spec 3 (turns session)); destruct (Z.leb_spec 15 (turns session));
    cbn [andb]; repeat split; intros; try reflexivity; try contradiction;
    try lia; exfalso;
    try (match goal with Hn : ~ (critical_intel /\ _) |- _ =>
           apply Hn; split; [apply Hintel; reflexivity | lia] end);
    try (match goal with He : critical_intel /\ _ |- _ =>
           destruct He as [He _]; apply Hintel in He; discriminate He end).
Qed.

Lemma should_exit_precedence_witness :
  should_exit default_settings ripe_session = (true, Some "confidence_threshold").
Proof.
  pose proof (should_exit_precedence default_settings ripe_session) as Hexit.
  cbv zeta in Hexit. destruct Hexit as (_ & _ & _ & _ & _ & Hall).
  apply Hall.
  - cbn. lra.
  - split; [left; discriminate | cbn; lia].
  - cbn. lia.
Defined.

End exit_facts.

(** ** The orchestrator, branch by branch *)

Section orchestrator_facts.
Context `{Externals}.

Lemma handle_message_pass settings env request w session detection :
  track settings env request w = (session, detection) ->
  is_scam detection = false ->
  handle_message settings env request w =
    (mkWorld (<[sessionId request := session]> (SESSIONS w)) (callbacks w),
     pass_through_response (sessionId request) session).
Proof.
  intros Htrack Hscam. unfold handle_message. rewrite Htrack, Hscam. reflexivity.
Qed.

Lemma decide_and_reply_exit settings env request w engaged :
  exit_fires settings engaged = true ->
  decide_and_reply settings env request w engaged =
    (mkWorld (<[sessionId request := set_completed true engaged]> (SESSIONS w))
             (callbacks w ++ [send_final_callback settings (http_post env)
                                (sessionId request) engaged]),
     engaged_response (sessionId request) (set_completed true engaged)
       (generate_exit_message (current_persona engaged)
                              (intelligence_dict (extracted engaged)))).
Proof.
  intros Hexit. unfold exit_fires in Hexit. unfold decide_and_reply.
  destruct (should_exit settings engaged) as [needed reason].
  cbn [fst] in Hexit. cbv beta iota zeta. rewrite Hexit. reflexivity.
Qed.

Lemma decide_and_reply_continue settings env request w engaged :
  exit_fires settings engaged = false ->
  decide_and_reply settings env request w engaged =
    (mkWorld (<[sessionId request :=
                  fst (continue_conversation env request engaged)]> (SESSIONS w))
             (callbacks w),
     engaged_response (sessionId request)
       (fst (continue_conversation env request engaged))
       (snd (continue_conversation env request engaged))).
Proof.
  intros Hstay. unfold exit_fires in Hstay. unfold decide_and_reply.
  destruct (should_exit settings engaged) as [needed reason].
  cbn [fst] in Hstay. cbv beta iota zeta. rewrite Hstay.
  destruct (continue_conversation env request engaged) as [session' text].
  cbn [fst snd]. rewrite app_nil_r. reflexivity.
Qed.

Lemma handle_message_scam settings env request w session detection :
  track settings env request w = (session, detection) ->
  is_scam detection = true ->
  handle_message settings env request w =
    decide_and_reply settings env request w (engage request detection session).
Proof.
  intros Htrack Hscam. unfold handle_message. rewrite Htrack, Hscam. reflexivity.
Qed.

Lemma track_unfold settings env request w :
  track settings env request w =
    let before := load_session (utcnow env) (SESSIONS w) (sessionId request) in
    let session :=
      set_message_history
        (push_history (message_text request) (message_history before))
        (update_activity (utcnow env) before) in
    (session,
     detect_scam settings (message_text request)
                 (all_but_last (message_history session))
                 (behavior_patterns before)).
Proof. reflexivity. Qed.

(** The session and verdict [track] hands on, against the stored session. *)
Lemma track_frame settings env request w session detection :
  track settings env request w = (session, detection) ->
  let before := load_session (utcnow env) (SESSIONS w) (sessionId request) in
  confidence session = confidence before
  /\ turns session = turns before
  /\ completed session = completed before
  /\ extracted session = extracted before
  /\ created_at session = created_at before
  /\ current_persona session = current_persona before
  /\ persona_history session = persona_history before
  /\ behavior_patterns session = behavior_patterns before
  /\ last_activity session = utcnow env
  /\ message_history session
       = push_history (message_text request) (message_history before)
  /\ detection =
       detect_scam settings (message_text request)
         (all_but_last (push_history (message_text request)
                                     (message_history before)))
         (behavior_patterns before).
Proof.
  rewrite track_unfold. cbv zeta. intros [= <- <-]. repeat split.
Qed.

(** What [engage] leaves alone and what it sets. *)
Lemma engage_frame_eq request detection session engaged :
  engaged = engage request detection session ->
  completed engaged = completed session
  /\ current_persona engaged = current_persona session
  /\ persona_history engaged = persona_history session
  /\ created_at engaged = created_at session
  /\ last_activity engaged = last_activity session
  /\ message_history engaged = message_history session
  /\ turns engaged = (turns session + 1)%Z
  /\ confidence engaged =
       update_confidence (confidence session) (flags detection)
                         (Some (repetition detection))
                         (Some (escalation detection)).
Proof. intros ->. repeat split. Qed.

(** Reply generation touches the persona fields only. *)
Lemma continue_frame_eq env request session after text :
  continue_conversation env request session = (after, text) ->
  confidence after = confidence session
  /\ turns after = turns session
  /\ completed after = completed session
  /\ extracted after = extracted session
  /\ created_at after = created_at session
  /\ last_activity after = last_activity session
  /\ behavior_patterns after = behavior_patterns session
  /\ message_history after = message_history session.
Proof.
  unfold continue_conversation.
  destruct (generate_reply _ _ _ _ _) as [[reply new_persona] | e];
    [destruct (bool_decide _) |]; intros [= <- <-]; repeat split.
Qed.

(** Every request takes one of three branches. *)
Lemma handle_message_branches settings env request w :
  exists session detection engaged after text,
    track settings env request w = (session, detection)
    /\ engaged = engage request detection session
    /\ continue_conversation env request engaged = (after, text)
    /\ ((is_scam detection = false
         /\ handle_message settings env request w =
              (mkWorld (<[sessionId request := session]> (SESSIONS w)) (callbacks w),
               pass_through_response (sessionId request) session))
        \/ (is_scam detection = true /\ exit_fires settings engaged = true
            /\ handle_message settings env request w =
                 (mkWorld (<[sessionId request := set_completed true engaged]>
                             (SESSIONS w))
                          (callbacks w ++ [send_final_callback settings (http_post env)
                                             (sessionId request) engaged]),
                  engaged_response (sessionId request) (set_completed true engaged)
                    (generate_exit_message (current_persona engaged)
                       (intelligence_dict (extracted engaged)))))
        \/ (is_scam detection = true /\ exit_fires settings engaged = false
            /\ handle_message settings env request w =
                 (mkWorld (<[sessionId request := after]> (SESSIONS w)) (callbacks w),
                  engaged_response (sessionId request) after text))).
Proof.
  destruct (track settings env request w) as [session detection] eqn:Htrack.
  exists session, detection.
  destruct (continue_conversation env request (engage request detection session))
    as [after text] eqn:Hcont.
  exists (engage request detection session), after, text.
  split; [reflexivity |]. split; [reflexivity |]. split; [exact Hcont |].
  destruct (is_scam detection) eqn:Hscam.
  - rewrite (handle_message_scam _ _ _ _ _ _ Htrack Hscam).
    destruct (exit_fires settings (engage request detection session)) eqn:Hexit.
    + right; left. split; [reflexivity |]. split; [reflexivity |].
      exact (decide_and_reply_exit _ _ _ _ _ Hexit).
    + right; right. split; [reflexivity |]. split; [reflexivity |].
      rewrite (decide_and_reply_continue _ _ _ _ _ Hexit), Hcont. reflexivity.
  - left. split; [reflexivity |].
    exact (handle_message_pass _ _ _ _ _ _ Htrack Hscam).
Qed.

End orchestrator_facts.

(** ** Invariants of the session store *)

Section store_invariants.
Context `{Externals}.

Lemma repetition_scan_lower message threshold recent acc :
  fst acc <= fst (repetition_scan message threshold recent acc).
Proof.
  revert acc. induction recent as [| prev rest IH]; intros acc; simpl.
  - lra.
  - specialize (IH (py_max (fst acc) (calculate_similarity message prev),
                    if Qle_bool threshold (calculate_similarity message prev)
                    then (snd acc + 1)%Z else snd acc)).
    cbn [fst] in IH.
    pose proof (py_max_lower (fst acc) (calculate_similarity message prev)). lra.
Qed.

Lemma detect_repetition_similarity_nonneg message history :
  0 <= similarity (detect_repetition message history).
Proof.
  unfold detect_repetition, detect_repetition_with.
  destruct history as [| m rest]; [cbn; lra |].
  pose proof (repetition_scan_lower message 0.7 (last_n 5 (m :: rest)) (0.0, 0%Z))
    as Hlow.
  destruct (repetition_scan message 0.7 (last_n 5 (m :: rest)) (0.0, 0%Z))
    as [max_similarity repeated].
  cbn [fst similarity] in *.
  assert (round2 (0 # 100) <= round2 max_similarity) as Hle
    by (apply round2_mono; lra).
  rewrite round2_hundredths in Hle. lra.
Qed.

Lemma detect_scam_repetition settings message history patterns :
  repetition (detect_scam settings message history patterns)
    = detect_repetition message history.
Proof. reflexivity. Qed.

Lemma detect_scam_similarity_nonneg settings message history patterns :
  similarity_nonneg
    (Some (repetition (detect_scam settings message history patterns))).
Proof.
  intros r Hr _. rewrite detect_scam_repetition in Hr.
  injection Hr as Hr. rewrite <- Hr.
  apply detect_repetition_similarity_nonneg.
Qed.



Lemma load_session_found now (sessions : gmap string SessionData) session_id s :
  sessions !! session_id = Some s -> load_session now sessions session_id = s.
Proof. intros Hs. unfold load_session. rewrite Hs. reflexivity. Qed.

Lemma track_similarity_nonneg settings env request w session detection :
  track settings env request w = (session, detection) ->
  similarity_nonneg (Some (repetition detection)).
Proof.
  intros Htrack. apply track_frame in Htrack. cbv zeta in Htrack.
  destruct Htrack as (_ & _ & _ & _ & _ & _ & _ & _ & _ & _ & ->).
  apply detect_scam_similarity_nonneg.
Qed.

Lemma handle_message_step settings env request w before :
  before = load_session (utcnow env) (SESSIONS w) (sessionId request) ->
  exists after,
    SESSIONS (fst (handle_message settings env request w))
      = <[sessionId request := after]> (SESSIONS w)
    /\ (completed before = true -> completed after = true)
    /\ (confidence after = confidence before
        \/ exists fl rep esc,
             similarity_nonneg rep
             /\ confidence after
                  = update_confidence (confidence before) fl rep esc).
Proof.
  intros Hbefore.
  destruct (handle_message_branches settings env request w)
    as (session & detection & engaged & after & text
        & Htrack & Hengaged & Hcont & Hcases).
  pose proof (track_similarity_nonneg _ _ _ _ _ _ Htrack) as Hsim.
  apply track_frame in Htrack. cbv zeta in Htrack. rewrite <- Hbefore in Htrack.
  destruct Htrack as (Hconf & _ & Hcompleted & _).
  apply engage_frame_eq in Hengaged.
  destruct Hengaged as (Hec & _ & _ & _ & _ & _ & _ & Heconf).
  apply continue_frame_eq in Hcont. destruct Hcont as (Hcc & _ & Hccompleted & _).
  destruct Hcases as [[_ Heq] | [(_ & _ & Heq) | (_ & _ & Heq)]]; rewrite Heq;
    cbn [fst SESSIONS].
  - exists session. split; [reflexivity |]. split; [congruence | left; exact Hconf].
  - exists (set_completed true engaged). split; [reflexivity |].
    split; [reflexivity |]. right.
    exists (flags detection), (Some (repetition detection)), (Some (escalation detection)).
    split; [exact Hsim |]. cbn [confidence set_completed]. congruence.
  - exists after. split; [reflexivity |]. split; [congruence |]. right.
    exists (flags detection), (Some (repetition detection)), (Some (escalation detection)).
    split; [exact Hsim |]. congruence.
Qed.





Lemma serve_app settings earlier later w :
  serve settings (earlier ++ later) w
    = serve settings later (serve settings earlier w).
Proof.
  revert w. induction earlier as [| [env request] rest IH]; intros w.
  - reflexivity.
  - exact (IH (fst (handle_message settings env request w))).
Qed.

End store_invariants.

(** ** Pass-through and engagement *)

Section response_facts.
Context `{Externals}.

(** C2: when the verdict on the inbound message is "no scam", the session
    keeps its confidence, turns, behaviour-pattern counters, current
    persona, persona history and extracted intelligence (and its completed
    flag and creation time); only the bounded message history and the
    last-activity stamp change, no callback is sent, other sessions are
    untouched, and the response has no reply, [agent_engaged] and
    [scam_detected] false, and the constant confidence 1.0. *)
Theorem pass_through_frame (settings : Settings) (env : RequestEnv)
    (request : IncomingRequest) (w : World) :
  let before := load_session (utcnow env) (SESSIONS w) (sessionId request) in
  let detection := snd (track settings env request w) in
  let w' := fst (handle_message settings env request w) in
  let response := snd (handle_message settings env request w) in
  is_scam detection = false ->
  (exists after,
     SESSIONS w' !! sessionId request = Some after
     /\ confidence after = confidence before
     /\ turns after = turns before
     /\ behavior_patterns after = behavior_patterns before
     /\ current_persona after = current_persona before
     /\ persona_history after = persona_history before
     /\ extracted after = extracted before
     /\ completed after = completed before
     /\ created_at after = created_at before
     /\ message_history after
          = push_history (message_text request) (message_history before)
     /\ last_activity after = utcnow env)
  /\ (forall other, other <> sessionId request ->
        SESSIONS w' !! other = SESSIONS w !! other)
  /\ callbacks w' = callbacks w
  /\ reply response = None
  /\ agent_engaged response = false
  /\ scam_detected response = false
  /\ resp_confidence response = 1.0
  /\ resp_turns response = Some (turns before).
Proof.
  cbv zeta.
  destruct (handle_message_branches settings env request w)
    as (session & detection & engaged & after & text
        & Htrack & _ & _ & Hcases).
  rewrite Htrack. cbn [snd]. intros Hscam.
  destruct Hcases as [[_ Heq] | [(Hs & _) | (Hs & _)]];
    [| congruence | congruence].
  rewrite Heq. cbn [fst snd SESSIONS callbacks].
  apply track_frame in Htrack. cbv zeta in Htrack.
  destruct Htrack
    as (Hconf & Hturns & Hcompleted & Hextracted & Hcreated & Hpersona
        & Hhistory & Hpatterns & Hactivity & Hmessages & _).
  split.
  { exists session. rewrite lookup_insert_eq. repeat split; assumption. }
  split.
  { intros other Hother. apply lookup_insert_ne. congruence. }
  split; [reflexivity |]. split; [reflexivity |]. split; [reflexivity |].
  split; [reflexivity |]. split; [reflexivity |].
  cbn [resp_turns pass_through_response]. rewrite Hturns. reflexivity.
Qed.

End response_facts.

Lemma pass_through_frame_witness :
  exists after,
    SESSIONS (fst (handle_message default_settings calm_env benign_request
                                  world_after_one_scam)) !! "s1" = Some after
    /\ confidence after = 0.55
    /\ resp_confidence (snd (handle_message default_settings calm_env
                               benign_request world_after_one_scam)) = 1.0.
Proof.
  destruct (pass_through_frame default_settings calm_env benign_request
              world_after_one_scam)
    as ((after & Hafter & Hconf & _) & _ & _ & _ & _ & _ & Hresp & _).
  - vm_compute. reflexivity.
  - exists after. split; [exact Hafter |]. split; [| exact Hresp].
    rewrite Hconf. vm_compute. reflexivity.
Defined.

Section engagement_facts.
Context `{Externals}.

(** C9: the response has no reply exactly when [agent_engaged] is false.
    The pass-through branch answers with no reply and [agent_engaged]
    false; each branch taken after a scam verdict answers with a reply
    and [agent_engaged] true: the exit message, the generated text, or
    the fallback sentence when generation raised. *)
Theorem reply_iff_agent_engaged (settings : Settings) (env : RequestEnv)
    (request : IncomingRequest) (w : World) :
  let session := fst (track settings env request w) in
  let detection := snd (track settings env request w) in
  let engaged := engage request detection session in
  let generation :=
    generate_reply (llm_generate env) (confidence engaged)
                   (message_text request) (current_persona engaged)
                   (intelligence_dict (extracted engaged)) in
  let response := snd (handle_message settings env request w) in
  (reply response = None <-> agent_engaged response = false)
  /\ (is_scam detection = false ->
        reply response = None /\ agent_engaged response = false)
  /\ (is_scam detection = true ->
        agent_engaged response = true
        /\ (exists text, reply response = Some text)
        /\ (exit_fires settings engaged = true ->
              reply response
                = Some (generate_exit_message (current_persona engaged)
                          (intelligence_dict (extracted engaged))))
        /\ (exit_fires settings engaged = false ->
              forall text persona, generation = Return (text, persona) ->
              reply response = Some text)
        /\ (exit_fires settings engaged = false ->
              forall e, generation = Raise e ->
              reply response = Some fallback_reply)).
Proof.
  cbv zeta.
  destruct (handle_message_branches settings env request w)
    as (session & detection & engaged & after & text
        & Htrack & Hengaged & Hcont & Hcases).
  rewrite Htrack. cbn [fst snd]. rewrite <- Hengaged.
  destruct Hcases as [[Hs Heq] | [(Hs & Hfire & Heq) | (Hs & Hfire & Heq)]];
    rewrite Heq, Hs; try rewrite Hfire;
    cbn [snd reply agent_engaged pass_through_response engaged_response].
  - split; [split; reflexivity |]. split; [auto | discriminate].
  - split; [split; discriminate |]. split; [discriminate |].
    intros _. split; [reflexivity |]. split; [eauto |].
    split; [reflexivity |]. split; discriminate.
  - split; [split; discriminate |]. split; [discriminate |].
    intros _. split; [reflexivity |]. split; [eauto |].
    split; [discriminate |].
    unfold continue_conversation in Hcont.
    split; intros _.
    + intros reply0 persona Hgen. rewrite Hgen in Hcont.
      destruct (bool_decide _); injection Hcont as _ <-; reflexivity.
    + intros e Hgen. rewrite Hgen in Hcont. injection Hcont as _ <-. reflexivity.
Qed.

End engagement_facts.

Lemma reply_iff_agent_engaged_witness :
  reply (snd (handle_message default_settings calm_env scam_request initial_world))
    = Some "Which account do you mean?"
  /\ reply (snd (handle_message default_settings calm_env benign_request
                                initial_world)) = None.
Proof.
  split.
  - destruct (reply_iff_agent_engaged default_settings calm_env scam_request
                initial_world) as (_ & _ & Hscam).
    destruct Hscam as (_ & _ & _ & Hgen & _); [vm_compute; reflexivity |].
    apply (Hgen ltac:(vm_compute; reflexivity) _ "nervous_elder").
    vm_compute. reflexivity.
  - destruct (reply_iff_agent_engaged default_settings calm_env benign_request
                initial_world) as (_ & Hpass & _).
    apply Hpass. vm_compute. reflexivity.
Defined.

(** ** Confidence: bounds, decay, monotonicity *)

Section confidence_claims.
Context `{Externals}.



End confidence_claims.




(** ** Completion and the final callback *)

Section completion_facts.
Context `{Externals}.

Lemma send_final_callback_session_id settings post session_id session :
  cb_sessionId (payload (send_final_callback settings post session_id session))
    = session_id.
Proof.
  unfold send_final_callback. destruct (post_loop _ _ _) as [made ok]. reflexivity.
Qed.

Lemma calls_for_unchanged session_id (w w' : World) :
  callbacks w' = callbacks w -> calls_for session_id w' = calls_for session_id w.
Proof. intros Hcb. unfold calls_for. rewrite Hcb. reflexivity. Qed.

Lemma calls_for_added session_id (w w' : World) call :
  callbacks w' = (callbacks w ++ [call])%list ->
  calls_for session_id w' =
    (calls_for session_id w
       ++ if String.eqb (cb_sessionId (payload call)) session_id
          then [call] else [])%list.
Proof.
  intros Hcb. unfold calls_for. rewrite Hcb, List.filter_app. reflexivity.
Qed.

(** One request, as seen from the callback log. *)
Lemma handle_message_callbacks settings env request w before :
  before = load_session (utcnow env) (SESSIONS w) (sessionId request) ->
  exists after,
    SESSIONS (fst (handle_message settings env request w))
      = <[sessionId request := after]> (SESSIONS w)
    /\ ((callbacks (fst (handle_message settings env request w)) = callbacks w
         /\ completed after = completed before)
        \/ (exists call,
              callbacks (fst (handle_message settings env request w))
                = (callbacks w ++ [call])%list
              /\ cb_sessionId (payload call) = sessionId request
              /\ completed before = false
              /\ completed after = true)).
Proof.
  intros Hbefore.
  destruct (handle_message_branches settings env request w)
    as (session & detection & engaged & after & text
        & Htrack & Hengaged & Hcont & Hcases).
  apply track_frame in Htrack. cbv zeta in Htrack. rewrite <- Hbefore in Htrack.
  destruct Htrack as (_ & _ & Hcompleted & _).
  apply engage_frame_eq in Hengaged. destruct Hengaged as (Hec & _).
  apply continue_frame_eq in Hcont. destruct Hcont as (_ & _ & Hcc & _).
  destruct Hcases as [[_ Heq] | [(_ & Hfire & Heq) | (_ & _ & Heq)]]; rewrite Heq;
    cbn [fst SESSIONS callbacks].
  - exists session. split; [reflexivity |]. left. split; [reflexivity | exact Hcompleted].
  - exists (set_completed true engaged). split; [reflexivity |]. right.
    eexists. split; [reflexivity |].
    split; [apply send_final_callback_session_id |].
    split; [| reflexivity].
    unfold exit_fires in Hfire. apply andb_true_iff in Hfire as [_ Hopen].
    apply negb_true_iff in Hopen. congruence.
  - exists after. split; [reflexivity |]. left. split; [reflexivity | congruence].
Qed.

Lemma handle_message_callbacks_sound settings env request w :
  callbacks_sound w ->
  callbacks_sound (fst (handle_message settings env request w)).
Proof.
  intros Hw session_id.
  destruct (handle_message_callbacks settings env request w _ eq_refl)
    as (after & Hstore & [[Hcb Hcompleted] | (call & Hcb & Hid & Hopen & Hdone)]).
  - rewrite (calls_for_unchanged _ _ _ Hcb), Hstore.
    destruct (Hw session_id) as [Hlen Hsome]. split; [exact Hlen |].
    intros Hcalls. destruct (Hsome Hcalls) as (s & Hs & Hc).
    destruct (decide (sessionId request = session_id)) as [<- | Hne].
    + rewrite lookup_insert_eq. exists after. split; [reflexivity |].
      rewrite (load_session_found _ _ _ _ Hs) in Hcompleted. congruence.
    + rewrite lookup_insert_ne by exact Hne. exists s. split; assumption.
  - rewrite (calls_for_added _ _ _ _ Hcb), Hstore, Hid.
    destruct (Hw session_id) as [Hlen Hsome].
    destruct (String.eqb_spec (sessionId request) session_id) as [<- | Hne].
    + assert (calls_for (sessionId request) w = []) as Hnone.
      { destruct (calls_for (sessionId request) w) as [| c rest] eqn:Hcalls;
          [reflexivity |].
        destruct Hsome as (s & Hs & Hc); [discriminate |].
        rewrite (load_session_found _ _ _ _ Hs) in Hopen. congruence. }
      rewrite Hnone. split; [cbn; lia |].
      intros _. exists after. rewrite lookup_insert_eq. split; [reflexivity | exact Hdone].
    + rewrite app_nil_r. split; [exact Hlen |].
      intros Hcalls. rewrite lookup_insert_ne by exact Hne. apply Hsome, Hcalls.
Qed.

Lemma initial_world_callbacks_sound : callbacks_sound initial_world.
Proof.
  intros session_id. split; [cbn; lia |]. intros Hcalls. contradiction.
Qed.

Lemma serve_callbacks_sound settings requests w :
  callbacks_sound w -> callbacks_sound (serve settings requests w).
Proof.
  revert w. induction requests as [| [env request] rest IH]; intros w Hw.
  - exact Hw.
  - cbn [serve]. apply IH, handle_message_callbacks_sound, Hw.
Qed.

Lemma handle_message_completed_stays settings env request w session_id s :
  SESSIONS w !! session_id = Some s -> completed s = true ->
  exists s', SESSIONS (fst (handle_message settings env request w)) !! session_id
               = Some s'
             /\ completed s' = true.
Proof.
  intros Hs Hc.
  destruct (handle_message_step settings env request w _ eq_refl)
    as (after & Hstore & Hcompleted & _).
  rewrite Hstore.
  destruct (decide (sessionId request = session_id)) as [<- | Hne].
  - rewrite lookup_insert_eq. exists after. split; [reflexivity |].
    rewrite (load_session_found _ _ _ _ Hs) in Hcompleted. auto.
  - rewrite lookup_insert_ne by exact Hne. exists s. split; assumption.
Qed.

Lemma serve_completed_stays settings requests w session_id s :
  SESSIONS w !! session_id = Some s -> completed s = true ->
  exists s', SESSIONS (serve settings requests w) !! session_id = Some s'
             /\ completed s' = true.
Proof.
  revert w s. induction requests as [| [env request] rest IH]; intros w s Hs Hc.
  - exists s. split; assumption.
  - cbn [serve].
    destruct (handle_message_completed_stays settings env request w _ _ Hs Hc)
      as (s1 & Hs1 & Hc1).
    apply (IH _ _ Hs1 Hc1).
Qed.

(** A scam-flagged message for a session that is already completed. *)
Lemma handle_message_after_completion settings env request w s
    session detection engaged :
  SESSIONS w !! sessionId request = Some s ->
  completed s = true ->
  track settings env request w = (session, detection) ->
  engaged = engage request detection session ->
  is_scam detection = true ->
  exit_fires settings engaged = false
  /\ callbacks (fst (handle_message settings env request w)) = callbacks w
  /\ (exists s',
        SESSIONS (fst (handle_message settings env request w)) !! sessionId request
          = Some s'
        /\ completed s' = true
        /\ turns s' = (turns s + 1)%Z
        /\ confidence s'
             = update_confidence (confidence s) (flags detection)
                 (Some (repetition detection)) (Some (escalation detection)))
  /\ reply (snd (handle_message settings env request w))
       = Some (snd (continue_conversation env request engaged)).
Proof.
  intros Hs Hc Htrack Hengaged Hscam.
  pose proof (handle_message_scam _ _ _ _ _ _ Htrack Hscam) as Heq.
  rewrite <- Hengaged in Heq.
  apply track_frame in Htrack. cbv zeta in Htrack.
  rewrite (load_session_found _ _ _ _ Hs) in Htrack.
  destruct Htrack as (Hconf & Hturns & Hcompleted & _).
  apply engage_frame_eq in Hengaged.
  destruct Hengaged as (Hec & _ & _ & _ & _ & _ & Het & Heconf).
  assert (exit_fires settings engaged = false) as Hstay.
  { unfold exit_fires. rewrite Hec, Hcompleted, Hc. apply andb_false_r. }
  rewrite (decide_and_reply_continue _ _ _ _ _ Hstay) in Heq.
  destruct (continue_conversation env request engaged) as [after text] eqn:Hcont.
  apply continue_frame_eq in Hcont.
  destruct Hcont as (Hcc & Hct & Hccompleted & _).
  rewrite Heq. cbn [fst snd SESSIONS callbacks reply engaged_response].
  split; [exact Hstay |]. split; [reflexivity |]. split; [| reflexivity].
  exists after. rewrite lookup_insert_eq. split; [reflexivity |].
  split; [congruence |]. split; congruence.
Qed.

(** C4: a session gets at most one final callback, however many requests
    the server handles; a completed session stays completed; and a
    scam-flagged message reaching a completed session fires no exit and
    sends no callback, while its turn counter still advances, its
    confidence is still updated and the reply comes from the generation
    branch. *)
Theorem completed_once_callback_once :
  (forall settings requests session_id,
      (length (calls_for session_id (serve settings requests initial_world)) <= 1)%nat)
  /\ (forall settings requests session_id,
        calls_for session_id (serve settings requests initial_world) <> [] ->
        exists s, SESSIONS (serve settings requests initial_world) !! session_id
                    = Some s
                  /\ completed s = true)
  /\ (forall settings requests w session_id s,
        SESSIONS w !! session_id = Some s -> completed s = true ->
        exists s', SESSIONS (serve settings requests w) !! session_id = Some s'
                   /\ completed s' = true)
  /\ (forall settings env request w s,
        SESSIONS w !! sessionId request = Some s ->
        completed s = true ->
        let detection := snd (track settings env request w) in
        let engaged := engage request detection (fst (track settings env request w)) in
        let w' := fst (handle_message settings env request w) in
        is_scam detection = true ->
        exit_fires settings engaged = false
        /\ callbacks w' = callbacks w
        /\ (exists s',
              SESSIONS w' !! sessionId request = Some s'
              /\ completed s' = true
              /\ turns s' = (turns s + 1)%Z
              /\ confidence s'
                   = update_confidence (confidence s) (flags detection)
                       (Some (repetition detection))
                       (Some (escalation detection)))
        /\ reply (snd (handle_message settings env request w))
             = Some (snd (continue_conversation env request engaged))).
Proof.
  split.
  { intros settings requests session_id.
    apply (serve_callbacks_sound settings requests initial_world
             initial_world_callbacks_sound session_id). }
  split.
  { intros settings requests session_id.
    apply (serve_callbacks_sound settings requests initial_world
             initial_world_callbacks_sound session_id). }
  split; [intros; eapply serve_completed_stays; eassumption |].
  intros settings env request w s Hs Hc. cbv zeta.
  destruct (track settings env request w) as [session detection] eqn:Htrack.
  cbn [fst snd]. intros Hscam.
  exact (handle_message_after_completion settings env request w s session
           detection _ Hs Hc Htrack eq_refl Hscam).
Qed.

End completion_facts.

Lemma completed_once_callback_once_witness :
  (length (calls_for "s1"
             (serve default_settings
                    [(calm_env, scam_request); (calm_env, scam_request);
                     (calm_env, scam_request)] initial_world)) <= 1)%nat
  /\ callbacks (fst (handle_message default_settings calm_env scam_request
                                    world_after_exit))
       = callbacks world_after_exit
  /\ exists s s',
       SESSIONS world_after_exit !! "s1" = Some s
       /\ SESSIONS (fst (handle_message default_settings calm_env scam_request
                                        world_after_exit)) !! "s1" = Some s'
       /\ completed s' = true
       /\ turns s' = (turns s + 1)%Z.
Proof.
  destruct (completed_once_callback_once (H := sample_externals))
    as (Honce & _ & _ & Hafter).
  split; [apply Honce |].
  edestruct (Hafter default_settings calm_env scam_request world_after_exit)
    as (_ & Hcb & (s' & Hs' & Hc' & Ht' & _) & _).
  - vm_compute. reflexivity.
  - vm_compute. reflexivity.
  - vm_compute. reflexivity.
  - split; [exact Hcb |]. eexists. exists s'.
    split; [vm_compute; reflexivity |]. split; [exact Hs' |].
    split; [exact Hc' | exact Ht'].
Defined.

(** ** Persona transitions *)

Section transition_facts.
Context `{Externals}.

Lemma generate_reply_outcome generate confidence last_message current intelligence :
  if Qle_bool 0 confidence && Qle_bool confidence 1
  then exists text,
         generate_reply generate confidence last_message current intelligence
           = Return (text, value (persona_type (select_persona confidence current)))
  else exists e,
         generate_reply generate confidence last_message current intelligence
           = Raise e.
Proof.
  unfold generate_reply, decide_mode.
  destruct (Qle_bool 0 confidence && Qle_bool confidence 1); cbn [negb].
  - destruct (Qltb confidence 0.25); [eexists; reflexivity |].
    destruct (Qltb confidence 0.5); eexists; reflexivity.
  - eexists. reflexivity.
Qed.

(** What the generation branch does to the persona fields. *)
Lemma continue_conversation_persona env request session after text :
  continue_conversation env request session = (after, text) ->
  let selected :=
    value (persona_type (select_persona (confidence session)
                                        (current_persona session))) in
  if Qle_bool 0 (confidence session) && Qle_bool (confidence session) 1
     && bool_decide (Some selected <> current_persona session)
  then persona_history after
         = (persona_history session
              ++ [ {| tr_from := current_persona session;
                      tr_to := selected;
                      tr_turn := turns session;
                      tr_confidence := confidence session |} ])%list
       /\ current_persona after = Some selected
  else persona_history after = persona_history session
       /\ current_persona after = current_persona session.
Proof.
  intros Hcont selected. unfold continue_conversation in Hcont.
  pose proof (generate_reply_outcome (llm_generate env) (confidence session)
                (message_text request) (current_persona session)
                (intelligence_dict (extracted session))) as Hgen.
  destruct (Qle_bool 0 (confidence session) && Qle_bool (confidence session) 1).
  - destruct Hgen as [reply Hgen]. rewrite Hgen in Hcont. fold selected in Hcont.
    cbn [andb]. destruct (bool_decide (Some selected <> current_persona session));
      injection Hcont as <- _; split; reflexivity.
  - destruct Hgen as [e Hgen]. rewrite Hgen in Hcont. cbn [andb].
    injection Hcont as <- _. split; reflexivity.
Qed.

(** C7 (as amended): the persona history gains a record
    [{from, to, turn, confidence}] and the current persona is replaced
    exactly when a reply is generated on a scam-flagged turn that does not
    exit and the selected persona differs from the session's current
    persona, the absent persona of a session not engaged before included
    (the record then has no [from]); on every other request both fields
    keep their values. *)
Theorem persona_transition_recorded (settings : Settings) (env : RequestEnv)
    (request : IncomingRequest) (w : World) :
  let before := load_session (utcnow env) (SESSIONS w) (sessionId request) in
  let detection := snd (track settings env request w) in
  let engaged := engage request detection (fst (track settings env request w)) in
  let selected :=
    value (persona_type (select_persona (confidence engaged)
                                        (current_persona before))) in
  let reply_generated :=
    is_scam detection && negb (exit_fires settings engaged)
    && (Qle_bool 0 (confidence engaged) && Qle_bool (confidence engaged) 1) in
  exists after,
    SESSIONS (fst (handle_message settings env request w)) !! sessionId request
      = Some after
    /\ if reply_generated && bool_decide (Some selected <> current_persona before)
       then persona_history after
              = (persona_history before
                   ++ [ {| tr_from := current_persona before;
                           tr_to := selected;
                           tr_turn := turns engaged;
                           tr_confidence := confidence engaged |} ])%list
            /\ current_persona after = Some selected
       else persona_history after = persona_history before
            /\ current_persona after = current_persona before.
Proof.
  cbv zeta.
  destruct (handle_message_branches settings env request w)
    as (session & detection & engaged & after & text
        & Htrack & Hengaged & Hcont & Hcases).
  rewrite Htrack. cbn [fst snd]. rewrite <- Hengaged.
  apply track_frame in Htrack. cbv zeta in Htrack.
  destruct Htrack as (_ & _ & _ & _ & _ & Hpersona & Hhistory & _).
  rewrite <- Hpersona, <- Hhistory.
  apply engage_frame_eq in Hengaged.
  destruct Hengaged as (_ & Hep & Heh & _).
  pose proof (continue_conversation_persona env request engaged after text Hcont)
    as Hrecord.
  cbv zeta in Hrecord. rewrite Hep, Heh in Hrecord.
  destruct Hcases as [[Hscam Heq] | [(Hscam & Hfire & Heq) | (Hscam & Hfire & Heq)]];
    rewrite Heq; cbn [fst SESSIONS]; rewrite lookup_insert_eq; eexists;
    (split; [reflexivity |]); rewrite Hscam; try rewrite Hfire; cbn [andb negb].
  - split; reflexivity.
  - cbn [persona_history current_persona set_completed]. split; assumption.
  - exact Hrecord.
Qed.

End transition_facts.

(** The claim C7 as first stated fails: the first scam-flagged message of
    a session, which has no current persona yet, does put a record into
    the persona history, with no [from]. *)
Lemma first_persona_is_recorded :
  current_persona (load_session (utcnow calm_env) (SESSIONS initial_world)
                                (sessionId scam_request)) = None
  /\ (persona_history
        <$> SESSIONS (fst (handle_message default_settings calm_env scam_request
                                          initial_world)) !! sessionId scam_request)
       = Some [ {| tr_from := None; tr_to := "nervous_elder";
                   tr_turn := 1; tr_confidence := 0.55 |} ]
  /\ (current_persona
        <$> SESSIONS (fst (handle_message default_settings calm_env scam_request
                                          initial_world)) !! sessionId scam_request)
       = Some (Some "nervous_elder").
Proof. split; [| split]; vm_compute; reflexivity. Qed.

(** ** Merging intelligence *)

Section merge_facts.

Lemma elem_of_list_set (x : string) (xs : list string) : x ∈ list_set xs <-> x ∈ xs.
Proof. unfold list_set. rewrite elem_of_elements, elem_of_list_to_set. reflexivity. Qed.

Lemma NoDup_list_set (xs : list string) : NoDup (list_set xs).
Proof. unfold list_set. apply NoDup_elements. Qed.

Lemma list_to_set_list_set (xs : list string) :
  (list_to_set (list_set xs) : gset string) = list_to_set xs.
Proof.
  apply set_eq. intros x. rewrite !elem_of_list_to_set. apply elem_of_list_set.
Qed.

Lemma merge_intelligence_lookup (existing new : gmap string (list string))
    (key : string) :
  key ∈ intelligence_keys ->
  merge_intelligence existing new !! key
    = Some (list_set (get_list existing key ++ get_list new key)).
Proof.
  unfold merge_intelligence, intelligence_keys. cbn [merge_keys].
  intros Hin.
  repeat (apply elem_of_cons in Hin as [-> | Hin]);
    [ | | | | apply elem_of_nil in Hin; contradiction ];
    repeat (rewrite lookup_insert_ne by discriminate);
    apply lookup_insert_eq.
Qed.

Lemma merge_intelligence_get (existing new : gmap string (list string))
    (key : string) :
  key ∈ intelligence_keys ->
  get_list (merge_intelligence existing new) key
    = list_set (get_list existing key ++ get_list new key).
Proof.
  intros Hin. unfold get_list at 1.
  rewrite (merge_intelligence_lookup _ _ _ Hin). reflexivity.
Qed.

(** C5: for each of the four intelligence fields, the merged list holds
    exactly the elements of the two inputs' lists, without repetition;
    merging a dictionary with itself gives back the elements it had, and
    merging in either order gives the same elements. *)
Theorem merge_intelligence_set_union (r r1 r2 : gmap string (list string))
    (key : string) :
  key ∈ intelligence_keys ->
  ((list_to_set (get_list (merge_intelligence r1 r2) key) : gset string)
     = list_to_set (get_list r1 key) ∪ list_to_set (get_list r2 key)
   /\ NoDup (get_list (merge_intelligence r1 r2) key)
   /\ (forall x, x ∈ get_list (merge_intelligence r1 r2) key
                 <-> x ∈ get_list r1 key \/ x ∈ get_list r2 key))
  /\ ((list_to_set (get_list (merge_intelligence r r) key) : gset string)
        = list_to_set (get_list r key)
      /\ (forall x, x ∈ get_list (merge_intelligence r r) key
                    <-> x ∈ get_list r key))
  /\ ((list_to_set (get_list (merge_intelligence r1 r2) key) : gset string)
        = list_to_set (get_list (merge_intelligence r2 r1) key)
      /\ (forall x, x ∈ get_list (merge_intelligence r1 r2) key
                    <-> x ∈ get_list (merge_intelligence r2 r1) key)).
Proof.
  intros Hin. rewrite !(merge_intelligence_get _ _ _ Hin).
  rewrite !list_to_set_list_set, !list_to_set_app_L.
  split; [split; [reflexivity | split; [apply NoDup_list_set |]] | split; split].
  - intros x. rewrite elem_of_list_set, elem_of_app. reflexivity.
  - apply set_eq. intros x. rewrite elem_of_union. tauto.
  - intros x. rewrite elem_of_list_set, elem_of_app. tauto.
  - apply set_eq. intros x. rewrite !elem_of_union. tauto.
  - intros x. rewrite !elem_of_list_set, !elem_of_app. tauto.
Qed.

Lemma merge_intelligence_set_union_witness :
  (list_to_set (get_list (merge_intelligence found_first found_second) "upiIds")
     : gset string)
    = list_to_set (get_list found_first "upiIds")
        ∪ list_to_set (get_list found_second "upiIds")
  /\ (list_to_set (get_list (merge_intelligence found_second found_second) "upiIds")
        : gset string)
       = list_to_set (get_list found_second "upiIds")
  /\ (list_to_set (get_list (merge_intelligence found_first found_second)
                            "phoneNumbers") : gset string)
       = list_to_set (get_list (merge_intelligence found_second found_first)
                               "phoneNumbers").
Proof.
  split; [| split].
  - apply (merge_intelligence_set_union found_first found_first found_second "upiIds").
    apply list_elem_of_here.
  - apply (merge_intelligence_set_union found_second found_first found_second "upiIds").
    apply list_elem_of_here.
  - apply (merge_intelligence_set_union found_first found_first found_second
             "phoneNumbers").
    apply list_elem_of_further, list_elem_of_here.
Defined.

End merge_facts.

(** ** More on the detectors *)

Section repetition_facts.
Context `{Externals}.

(** The similarities [detect_repetition] looks at. *)
Lemma repetition_scan_spec message threshold recent acc :
  repetition_scan message threshold recent acc
    = (fold_left py_max (map (calculate_similarity message) recent) (fst acc),
       (snd acc
        + Z.of_nat (length (List.filter (Qle_bool threshold)
                              (map (calculate_similarity message) recent))))%Z).
Proof.
  revert acc. induction recent as [| prev rest IH]; intros [a c]; cbn [repetition_scan].
  - cbn. f_equal. lia.
  - rewrite IH. cbn [fst snd map fold_left List.filter].
    destruct (Qle_bool threshold (calculate_similarity message prev));
      cbn [length]; f_equal; lia.
Qed.

Lemma py_max_reaches threshold a s :
  Qle_bool threshold (py_max a s) = Qle_bool threshold a || Qle_bool threshold s.
Proof.
  apply Bool.eq_iff_eq_true. rewrite orb_true_iff, !Qle_bool_iff.
  unfold py_max. destruct (Qltb_reflect a s) as [Hlt | Hge].
  - split; [intros Hs; right; exact Hs | intros [Ha | Hs]; lra].
  - split; [intros Ha; left; exact Ha | intros [Ha | Hs]; lra].
Qed.

Lemma fold_py_max_reaches threshold sims a :
  Qle_bool threshold (fold_left py_max sims a)
    = Qle_bool threshold a || existsb (Qle_bool threshold) sims.
Proof.
  revert a. induction sims as [| s rest IH]; intros a; cbn [fold_left existsb].
  - rewrite orb_false_r. reflexivity.
  - rewrite IH, py_max_reaches, orb_assoc. reflexivity.
Qed.


Lemma filter_length_le {A} (p : A -> bool) (xs : list A) :
  (length (List.filter p xs) <= length xs)%nat.
Proof.
  induction xs as [| x rest IH]; cbn; [lia |]. destruct (p x); cbn; lia.
Qed.

Lemma last_n_length {A} (n : nat) (xs : list A) :
  length (last_n n xs) = Nat.min n (length xs).
Proof. unfold last_n. rewrite length_drop. lia. Qed.


Lemma detect_repetition_unfold message history :
  detect_repetition message history =
    match history with
    | [] => mkRepetition false 0.0 0
    | _ =>
        let sims := map (calculate_similarity message) (last_n 5 history) in
        mkRepetition (existsb (Qle_bool 0.7) sims)
                     (round2 (fold_left py_max sims 0.0))
                     (Z.of_nat (length (List.filter (Qle_bool 0.7) sims)))
    end.
Proof.
  unfold detect_repetition, detect_repetition_with.
  destruct history as [| m rest]; [reflexivity |].
  rewrite repetition_scan_spec. cbn [fst snd]. cbv zeta.
  rewrite fold_py_max_reaches. reflexivity.
Qed.



(** X2: only the last five messages of the history matter: messages older
    than those never change the result. *)
Theorem detect_repetition_recent (message : string) (older history : list string) :
  (5 <= length history)%nat ->
  detect_repetition message (older ++ history) = detect_repetition message history.
Proof.
  intros Hlen. rewrite !detect_repetition_unfold.
  assert (last_n 5 (older ++ history) = last_n 5 history) as Hlast.
  { unfold last_n. rewrite length_app.
    replace (length older + length history - 5)%nat
      with (length older + (length history - 5))%nat by lia.
    rewrite drop_app_add. reflexivity. }
  destruct history as [| m rest]; [cbn in Hlen; lia |].
  destruct older as [| o older']; [reflexivity |].
  cbn [app] in *. cbv zeta. rewrite Hlast. reflexivity.
Qed.


End repetition_facts.

Lemma detect_repetition_recent_witness :
  detect_repetition (H := sample_externals) "pay now"
    (["pay now"; "hello"] ++ ["a"; "b"; "c"; "d"; "e"])
  = detect_repetition (H := sample_externals) "pay now" ["a"; "b"; "c"; "d"; "e"].
Proof.
  apply (detect_repetition_recent (H := sample_externals)). cbn. lia.
Defined.


(** ** More on the scam scorer *)

Section escalation_facts.

(** X4: [detect_escalation] reports an escalation exactly when the session
    already counts two urgency or two threat messages, or the message holds
    an escalation word; the word decides the type ([final_warning]) even
    when the counters alone would give [repeated_pressure]; the type is
    absent exactly when nothing is reported; a counter missing from the
    patterns reads as 0. *)
Theorem detect_escalation_cases (message : string) (patterns : gmap string Z) :
  let r := detect_escalation message patterns in
  let worded := any_in ESCALATION_WORDS (lower message) in
  let pressed :=
    ((2 <=? pattern_count patterns "urgency")
     || (2 <=? pattern_count patterns "threat"))%Z in
  is_escalating r = worded || pressed
  /\ (worded = true -> escalation_type r = Some "final_warning")
  /\ (worded = false -> pressed = true ->
      escalation_type r = Some "repeated_pressure")
  /\ (escalation_type r = None <-> is_escalating r = false)
  /\ urgency_count r = default 0%Z (patterns !! "urgency")
  /\ threat_count r = default 0%Z (patterns !! "threat").
Proof.
  cbv zeta. unfold detect_escalation.
  destruct (any_in ESCALATION_WORDS (lower message));
    destruct ((2 <=? pattern_count patterns "urgency")
              || (2 <=? pattern_count patterns "threat"))%Z;
    cbn; repeat split; intros; try reflexivity; try discriminate.
Qed.

Lemma detect_escalation_cases_witness :
  escalation_type
    (detect_escalation "Last chance!" (<["urgency" := 3%Z]> ∅))
  = Some "final_warning"
  /\ escalation_type (detect_escalation "Pay up" (<["threat" := 2%Z]> ∅))
     = Some "repeated_pressure".
Proof.
  split.
  - apply (detect_escalation_cases "Last chance!" (<["urgency" := 3%Z]> ∅)).
    reflexivity.
  - apply (detect_escalation_cases "Pay up" (<["threat" := 2%Z]> ∅));
      vm_compute; reflexivity.
Defined.

End escalation_facts.

Section case_facts.
Context `{Externals}.










End case_facts.

Section verdict_facts.
Context `{Externals}.

(** The keywords of the vocabulary found in a lower-cased message. *)
Lemma detect_scam_flags settings message history patterns :
  flags (detect_scam settings message history patterns) =
    (map (fun keyword => ("keyword:" ++ keyword)%string)
         (List.filter (fun keyword => contains keyword (lower message))
                      SCAM_KEYWORDS)
     ++ (if any_in URGENCY_WORDS (lower message) then ["urgency"] else [])
     ++ (if any_in THREAT_WORDS (lower message) then ["threat"] else [])
     ++ (if is_repetitive (detect_repetition message history)
         then [repetition_flag (detect_repetition message history)] else [])
     ++ (if is_escalating (detect_escalation message patterns)
         then [escalation_flag (detect_escalation message patterns)] else []))%list.
Proof. reflexivity. Qed.

Lemma detect_scam_verdict_unfold settings message history patterns :
  is_scam (detect_scam settings message history patterns)
    = Qle_bool (scam_confidence_threshold settings)
        (py_min 1.0
           (inject_Z (Z.of_nat (length (flags (detect_scam settings message
                                                  history patterns)))) * 0.2))
  /\ det_confidence (detect_scam settings message history patterns)
     = round2
         (py_min 1.0
            (inject_Z (Z.of_nat (length (flags (detect_scam settings message
                                                   history patterns)))) * 0.2)).
Proof. split; reflexivity. Qed.

Lemma scaled_count_verdict (n : nat) :
  Qle_bool 0.4 (py_min 1.0 (inject_Z (Z.of_nat n) * 0.2)) = (2 <=? n)%nat.
Proof.
  destruct n as [| [| n]]; [reflexivity | reflexivity |].
  change (2 <=? S (S n))%nat with true. apply Qle_bool_iff.
  assert (2 <= inject_Z (Z.of_nat (S (S n)))) as Hn.
  { change 2 with (inject_Z 2). rewrite <- Zle_Qle. lia. }
  unfold py_min. destruct (Qltb_reflect (inject_Z (Z.of_nat (S (S n))) * 0.2) 1.0); lra.
Qed.

Lemma scaled_count_confidence (n : nat) :
  round2 (py_min 1.0 (inject_Z (Z.of_nat n) * 0.2))
    == (if (5 <=? n)%nat then 1 else inject_Z (Z.of_nat n) * 0.2).
Proof.
  do 5 (destruct n as [| n]; [reflexivity |]).
  change (5 <=? S (S (S (S (S n)))))%nat with true. cbv iota.
  assert (5 <= inject_Z (Z.of_nat (S (S (S (S (S n))))))) as Hn.
  { change 5 with (inject_Z 5). rewrite <- Zle_Qle. lia. }
  unfold py_min.
  destruct (Qltb_reflect (inject_Z (Z.of_nat (S (S (S (S (S n)))))) * 0.2) 1.0);
    [lra | reflexivity].
Qed.

(** X6: with the default threshold a message is a scam exactly when it
    raises at least two flags; a message raises at most twenty flags; the
    reported detection confidence is 0.2 per flag, capped at 1. *)
Theorem detect_scam_verdict (message : string) (history : list string)
    (patterns : gmap string Z) :
  let r := detect_scam default_settings message history patterns in
  (is_scam r = true <-> (2 <= length (flags r))%nat)
  /\ (length (flags r) <= 20)%nat
  /\ det_confidence r
       == (if (5 <=? length (flags r))%nat then 1
           else inject_Z (Z.of_nat (length (flags r))) * 0.2)
  /\ 0 <= det_confidence r <= 1.
Proof.
  cbv zeta.
  destruct (detect_scam_verdict_unfold default_settings message history patterns)
    as [Hscam Hconf].
  rewrite Hscam, Hconf. clear Hscam Hconf.
  assert (length (flags (detect_scam default_settings message history patterns))
          <= 20)%nat as Hmax.
  { rewrite detect_scam_flags, !length_app, length_map.
    pose proof (filter_length_le (fun keyword => contains keyword (lower message))
                  SCAM_KEYWORDS) as Hkw.
    change (length SCAM_KEYWORDS) with 16%nat in Hkw.
    destruct (any_in URGENCY_WORDS (lower message)),
      (any_in THREAT_WORDS (lower message)),
      (is_repetitive (detect_repetition message history)),
      (is_escalating (detect_escalation message patterns)); cbn [length]; lia. }
  generalize dependent (length (flags (detect_scam default_settings message
                                         history patterns))).
  intros n Hmax.
  change (scam_confidence_threshold default_settings) with 0.4.
  rewrite scaled_count_verdict.
  split; [rewrite Nat.leb_le; reflexivity |]. split; [exact Hmax |].
  pose proof (scaled_count_confidence n) as Hc.
  split; [exact Hc |]. rewrite Hc.
  destruct (Nat.leb_spec 5 n) as [Hbig | Hsmall]; [lra |].
  assert (0 <= inject_Z (Z.of_nat n) <= 4) as Hn.
  { change 0 with (inject_Z 0). change 4 with (inject_Z 4).
    rewrite <- !Zle_Qle. lia. }
  lra.
Qed.

Lemma detect_escalation_worded (message : string) (patterns : gmap string Z) :
  any_in ESCALATION_WORDS (lower message) = true ->
  is_escalating (detect_escalation message patterns) = true.
Proof.
  intros Hworded. unfold detect_escalation. rewrite Hworded.
  destruct ((2 <=? pattern_count patterns "urgency")
            || (2 <=? pattern_count patterns "threat"))%Z; reflexivity.
Qed.

Lemma two_flags_are_scam (message : string) (history : list string)
    (patterns : gmap string Z) :
  (2 <= length (flags (detect_scam default_settings message history patterns)))%nat ->
  is_scam (detect_scam default_settings message history patterns) = true.
Proof.
  intros Htwo.
  destruct (detect_scam_verdict_unfold default_settings message history patterns)
    as [-> _].
  change (scam_confidence_threshold default_settings) with 0.4.
  rewrite scaled_count_verdict. apply Nat.leb_le. exact Htwo.
Qed.

Lemma keyword_found_flag message keyword :
  In keyword SCAM_KEYWORDS -> contains keyword (lower message) = true ->
  (1 <= length (List.filter (fun k => contains k (lower message)) SCAM_KEYWORDS))%nat.
Proof.
  intros Hin Hfound.
  assert (In keyword (List.filter (fun k => contains k (lower message))
                                  SCAM_KEYWORDS)) as Hf
    by (apply filter_In; split; assumption).
  destruct (List.filter _ SCAM_KEYWORDS); [contradiction | cbn; lia].
Qed.

Lemma any_in_found words text word :
  In word words -> contains word text = true -> any_in words text = true.
Proof. intros Hin Hfound. apply existsb_exists. exists word. split; assumption. Qed.

(** X7: five words of the vocabulary raise two flags on their own and so
    make any message holding one of them a scam under the default
    threshold, whatever the letter case, the history and the counters:
    "blocked" and "suspended" (keyword and threat), "immediately" (keyword
    and urgency), "final" and "warning" (keyword and escalation). *)
Theorem single_word_is_scam (word message : string) (history : list string)
    (patterns : gmap string Z) :
  In word ["blocked"; "suspended"; "immediately"; "final"; "warning"] ->
  contains word (lower message) = true ->
  is_scam (detect_scam default_settings message history patterns) = true.
Proof.
  intros Hword Hfound.
  apply two_flags_are_scam.
  rewrite detect_scam_flags, !length_app, length_map.
  assert (In word SCAM_KEYWORDS) as Hkw.
  { cbn in Hword. cbn. intuition (subst; auto 20). }
  pose proof (keyword_found_flag message word Hkw Hfound) as Hone.
  assert (any_in URGENCY_WORDS (lower message) = true
          \/ any_in THREAT_WORDS (lower message) = true
          \/ is_escalating (detect_escalation message patterns) = true) as Hsecond.
  { cbn in Hword. destruct Hword as [<- | [<- | [<- | [<- | [<- | []]]]]].
    - right; left. eapply any_in_found; [| exact Hfound]. cbn. auto.
    - right; left. eapply any_in_found; [| exact Hfound]. cbn. auto.
    - left. eapply any_in_found; [| exact Hfound]. cbn. auto.
    - right; right. apply detect_escalation_worded.
      eapply any_in_found; [| exact Hfound]. cbn. auto.
    - right; right. apply detect_escalation_worded.
      eapply any_in_found; [| exact Hfound]. cbn. auto 10. }
  destruct Hsecond as [-> | [-> | ->]];
    repeat match goal with |- context [if ?b then _ else _] => destruct b end;
    cbn [length]; lia.
Qed.

Lemma keyword_flags_no_signal target keywords :
  (String.eqb target "urgency" || String.eqb target "threat" = true) ->
  existsb (String.eqb target) (map (fun keyword => "keyword:" ++ keyword) keywords)
    = false.
Proof.
  intros Ht. induction keywords as [| k rest IH]; [reflexivity |].
  cbn [map existsb]. rewrite IH, orb_false_r.
  apply orb_true_iff in Ht as [Ht | Ht]; apply String.eqb_eq in Ht; subst target;
    reflexivity.
Qed.

Lemma keyword_flag_tagged keyword :
  startswith ("keyword:" ++ keyword) "keyword:" = true.
Proof.
  destruct keyword; reflexivity.
Qed.

Lemma keyword_flags_count keywords :
  List.filter (fun f => startswith f "keyword:")
              (map (fun keyword => "keyword:" ++ keyword) keywords)
    = map (fun keyword => "keyword:" ++ keyword) keywords.
Proof.
  induction keywords as [| k rest IH]; [reflexivity |].
  cbn [map List.filter].
  rewrite keyword_flag_tagged, IH. reflexivity.
Qed.

Lemma repetition_flag_untagged r : startswith (repetition_flag r) "keyword:" = false.
Proof. reflexivity. Qed.

Lemma escalation_flag_untagged e : startswith (escalation_flag e) "keyword:" = false.
Proof. reflexivity. Qed.

Lemma repetition_flag_no_signal target r :
  (String.eqb target "urgency" || String.eqb target "threat" = true) ->
  String.eqb target (repetition_flag r) = false.
Proof.
  intros Ht. apply orb_true_iff in Ht as [Ht | Ht]; apply String.eqb_eq in Ht;
    subst target; reflexivity.
Qed.

Lemma escalation_flag_no_signal target e :
  (String.eqb target "urgency" || String.eqb target "threat" = true) ->
  String.eqb target (escalation_flag e) = false.
Proof.
  intros Ht. apply orb_true_iff in Ht as [Ht | Ht]; apply String.eqb_eq in Ht;
    subst target; reflexivity.
Qed.

Lemma other_flags_not_keywords settings message history patterns :
  List.filter (fun f => startswith f "keyword:")
              (flags (detect_scam settings message history patterns))
    = map (fun keyword => "keyword:" ++ keyword)
          (List.filter (fun keyword => contains keyword (lower message))
                       SCAM_KEYWORDS).
Proof.
  rewrite detect_scam_flags, !List.filter_app, keyword_flags_count.
  destruct (any_in URGENCY_WORDS (lower message)),
    (any_in THREAT_WORDS (lower message)),
    (is_repetitive (detect_repetition message history)),
    (is_escalating (detect_escalation message patterns));
    cbn [List.filter];
    rewrite ?repetition_flag_untagged, ?escalation_flag_untagged;
    change (startswith "urgency" "keyword:") with false;
    change (startswith "threat" "keyword:") with false;
    cbn [app]; rewrite ?app_nil_r; reflexivity.
Qed.

(** X8: the confidence tracker reads from the flags exactly what the
    scorer found in the message: the urgency test and the threat test of
    [update_confidence] succeed exactly when the message holds an urgency
    word, respectively a threat word, and its keyword count is the number
    of vocabulary keywords in the message; repetition and escalation flags
    never count as keywords. *)
Theorem flags_feed_tracker (settings : Settings) (message : string)
    (history : list string) (patterns : gmap string Z) :
  let r := detect_scam settings message history patterns in
  py_in "urgency" (flags r) = any_in URGENCY_WORDS (lower message)
  /\ py_in "threat" (flags r) = any_in THREAT_WORDS (lower message)
  /\ keyword_count (flags r)
       = length (List.filter (fun keyword => contains keyword (lower message))
                             SCAM_KEYWORDS).
Proof.
  cbv zeta. split; [| split].
  - unfold py_in. rewrite detect_scam_flags, !existsb_app.
    rewrite keyword_flags_no_signal by reflexivity.
    destruct (any_in URGENCY_WORDS (lower message)),
      (any_in THREAT_WORDS (lower message)),
      (is_repetitive (detect_repetition message history)),
      (is_escalating (detect_escalation message patterns));
      cbn [existsb];
      rewrite ?repetition_flag_no_signal, ?escalation_flag_no_signal by reflexivity;
      reflexivity.
  - unfold py_in. rewrite detect_scam_flags, !existsb_app.
    rewrite keyword_flags_no_signal by reflexivity.
    destruct (any_in URGENCY_WORDS (lower message)),
      (any_in THREAT_WORDS (lower message)),
      (is_repetitive (detect_repetition message history)),
      (is_escalating (detect_escalation message patterns));
      cbn [existsb];
      rewrite ?repetition_flag_no_signal, ?escalation_flag_no_signal by reflexivity;
      reflexivity.
  - unfold keyword_count. rewrite other_flags_not_keywords, length_map. reflexivity.
Qed.

Lemma keyword_tag_round_trip :
  Forall (fun keyword => remove_all "keyword:" ("keyword:" ++ keyword) = keyword)
         SCAM_KEYWORDS.
Proof. repeat constructor. Qed.

(** X9: the suspicious keywords extracted from the flags of a message are
    exactly the vocabulary keywords the message holds, each once: tagging
    a keyword as a flag and stripping the tag again gives the keyword
    back. *)
Theorem extracted_keywords_are_found (settings : Settings) (message text : string)
    (history : list string) (patterns : gmap string Z) (keyword : string) :
  let found :=
    extract_suspicious_keywords text
      (flags (detect_scam settings message history patterns)) in
  NoDup found
  /\ (keyword ∈ found <->
      In keyword SCAM_KEYWORDS /\ contains keyword (lower message) = true).
Proof.
  cbv zeta. unfold extract_suspicious_keywords.
  split; [apply NoDup_list_set |].
  rewrite elem_of_list_set, other_flags_not_keywords, map_map.
  rewrite (map_ext_in _ (fun k => k)).
  - rewrite map_id, list_elem_of_In, filter_In. reflexivity.
  - intros k Hk. apply filter_In in Hk as [Hk _].
    pose proof keyword_tag_round_trip as Hall.
    rewrite Forall_forall in Hall. apply Hall, list_elem_of_In, Hk.
Qed.

End verdict_facts.

Lemma single_word_is_scam_witness :
  is_scam (detect_scam (H := sample_externals) default_settings
             "This is the FINAL notice" [] ∅) = true.
Proof.
  apply (single_word_is_scam (H := sample_externals) "final").
  - cbn. auto.
  - reflexivity.
Defined.

(** ** More on extraction and merging *)

Section extraction_facts.
Context `{Externals}.





End extraction_facts.


(** ** The life of a session *)

Section session_life.
Context `{Externals}.

Lemma track_load settings env request w :
  track settings env request w =
    (set_message_history
       (push_history (message_text request)
          (message_history (load_session (utcnow env) (SESSIONS w)
                                         (sessionId request))))
       (update_activity (utcnow env)
          (load_session (utcnow env) (SESSIONS w) (sessionId request))),
     detect_scam settings (message_text request)
       (all_but_last
          (push_history (message_text request)
             (message_history (load_session (utcnow env) (SESSIONS w)
                                            (sessionId request)))))
       (behavior_patterns (load_session (utcnow env) (SESSIONS w)
                                        (sessionId request)))).
Proof. reflexivity. Qed.

(** The branches of [next_session], with names for the intermediate
    sessions. *)
Lemma next_session_cases settings env request before :
  exists session detection engaged after text,
    session = set_message_history
                (push_history (message_text request) (message_history before))
                (update_activity (utcnow env) before)
    /\ detection = detect_scam settings (message_text request)
                     (all_but_last (push_history (message_text request)
                                                 (message_history before)))
                     (behavior_patterns before)
    /\ engaged = engage request detection session
    /\ continue_conversation env request engaged = (after, text)
    /\ ((is_scam detection = false
         /\ next_session settings env request before = session)
        \/ (is_scam detection = true /\ exit_fires settings engaged = true
            /\ next_session settings env request before
                 = set_completed true engaged)
        \/ (is_scam detection = true /\ exit_fires settings engaged = false
            /\ next_session settings env request before = after)).
Proof.
  unfold next_session. cbv zeta.
  cbn [message_history behavior_patterns set_message_history update_activity].
  set (session := set_message_history _ _).
  set (detection := detect_scam _ _ _ _).
  destruct (continue_conversation env request (engage request detection session))
    as [after text] eqn:Hcont.
  exists session, detection, (engage request detection session), after, text.
  split; [reflexivity |]. split; [reflexivity |]. split; [reflexivity |].
  split; [exact Hcont |].
  destruct (is_scam detection); cbn [negb].
  - destruct (exit_fires settings (engage request detection session)).
    + right; left. repeat split.
    + right; right. repeat split.
  - left. repeat split.
Qed.

Lemma handle_message_next settings env request w :
  SESSIONS (fst (handle_message settings env request w))
    = <[sessionId request :=
          next_session settings env request
            (load_session (utcnow env) (SESSIONS w) (sessionId request))]>
        (SESSIONS w).
Proof.
  destruct (handle_message_branches settings env request w)
    as (session & detection & engaged & after & text
        & Htrack & Hengaged & Hcont & Hcases).
  rewrite track_load in Htrack. injection Htrack as Hs Hd.
  destruct (next_session_cases settings env request
              (load_session (utcnow env) (SESSIONS w) (sessionId request)))
    as (session' & detection' & engaged' & after' & text'
        & Hs' & Hd' & Hengaged' & Hcont' & Hnext).
  assert (session' = session) as -> by congruence.
  assert (detection' = detection) as -> by congruence.
  assert (engaged' = engaged) as -> by congruence.
  rewrite Hcont in Hcont'. injection Hcont' as <- <-.
  destruct Hcases as [[Hscam Heq] | [(Hscam & Hfire & Heq) | (Hscam & Hfire & Heq)]];
    destruct Hnext as [[Hscam' Hn] | [(Hscam' & Hfire' & Hn) | (Hscam' & Hfire' & Hn)]];
    try congruence; rewrite Heq, Hn; reflexivity.
Qed.

(** A property of sessions that new sessions have and every request
    preserves holds for every session the server ever stores. *)
Lemma serve_invariant (P : SessionData -> Prop) settings :
  (forall now, P (new_session now)) ->
  (forall env request s, P s -> P (next_session settings env request s)) ->
  forall requests w,
    (forall session_id s, SESSIONS w !! session_id = Some s -> P s) ->
    forall session_id s,
      SESSIONS (serve settings requests w) !! session_id = Some s -> P s.
Proof.
  intros Hnew Hstep requests.
  induction requests as [| [env request] rest IH]; intros w Hw; [exact Hw |].
  cbn [serve]. apply IH. intros session_id s. rewrite handle_message_next.
  destruct (decide (sessionId request = session_id)) as [<- | Hne].
  - rewrite lookup_insert_eq. intros [= <-]. apply Hstep.
    unfold load_session.
    destruct (SESSIONS w !! sessionId request) as [s0 |] eqn:Hs0; cbn [default].
    + eapply Hw, Hs0.
    + apply Hnew.
  - rewrite lookup_insert_ne by exact Hne. apply Hw.
Qed.

(** A reflexive, transitive relation that every request respects relates
    a stored session to each of its later states. *)
Lemma serve_monotone (R : SessionData -> SessionData -> Prop) settings :
  (forall s, R s s) ->
  (forall a b c, R a b -> R b c -> R a c) ->
  (forall env request s, R s (next_session settings env request s)) ->
  forall requests w session_id s,
    SESSIONS w !! session_id = Some s ->
    exists s', SESSIONS (serve settings requests w) !! session_id = Some s'
               /\ R s s'.
Proof.
  intros Hrefl Htrans Hstep requests.
  induction requests as [| [env request] rest IH]; intros w session_id s Hs.
  - exists s. split; [exact Hs | apply Hrefl].
  - cbn [serve].
    assert (exists s1, SESSIONS (fst (handle_message settings env request w))
                         !! session_id = Some s1 /\ R s s1) as (s1 & Hs1 & Hr1).
    { rewrite handle_message_next.
      destruct (decide (sessionId request = session_id)) as [<- | Hne].
      - rewrite lookup_insert_eq. eexists. split; [reflexivity |].
        rewrite (load_session_found _ _ _ _ Hs). apply Hstep.
      - rewrite lookup_insert_ne by exact Hne. exists s.
        split; [exact Hs | apply Hrefl]. }
    destruct (IH _ _ _ Hs1) as (s' & Hs' & Hr').
    exists s'. split; [exact Hs' |]. eapply Htrans; eassumption.
Qed.

End session_life.

(** ** Intelligence over a session's life *)

Section intelligence_life.
Context `{Externals}.

Lemma intelligence_dict_get x :
  get_list (intelligence_dict x) "upiIds" = upiIds x
  /\ get_list (intelligence_dict x) "phoneNumbers" = phoneNumbers x
  /\ get_list (intelligence_dict x) "phishingLinks" = phishingLinks x
  /\ get_list (intelligence_dict x) "suspiciousKeywords" = suspiciousKeywords x.
Proof.
  unfold get_list, intelligence_dict.
  repeat split;
    repeat (rewrite lookup_insert_ne by discriminate);
    rewrite lookup_insert_eq; reflexivity.
Qed.

(** X11: the dictionary form of an [ExtractedIntelligence] has exactly the
    four field names as keys, and building the model back from it gives
    the same value; from any other dictionary the model takes the four
    fields and reads a missing one as the empty list. *)
Theorem intelligence_dict_round_trip (x : ExtractedIntelligence)
    (d : gmap string (list string)) :
  intelligence_of_dict (intelligence_dict x) = x
  /\ dom (intelligence_dict x) = (list_to_set intelligence_keys : gset string)
  /\ intelligence_dict (intelligence_of_dict d)
       = list_to_map (map (fun key => (key, default [] (d !! key)))
                          intelligence_keys)
  /\ intelligence_of_dict ∅ = empty_intelligence.
Proof.
  destruct (intelligence_dict_get x) as (H1 & H2 & H3 & H4).
  split.
  { unfold intelligence_of_dict. rewrite H1, H2, H3, H4. destruct x; reflexivity. }
  split.
  { unfold intelligence_dict, intelligence_keys.
    rewrite !dom_insert_L, dom_empty_L. cbn [list_to_set foldr]. set_solver. }
  split; reflexivity.
Qed.

Lemma merge_intelligence_dom (a b : gmap string (list string)) :
  dom (merge_intelligence a b) = (list_to_set intelligence_keys : gset string).
Proof.
  unfold merge_intelligence, intelligence_keys. cbn [merge_keys].
  rewrite !dom_insert_L, dom_empty_L. cbn [list_to_set foldr]. set_solver.
Qed.

(** X12: the merged dictionary has exactly the four intelligence keys: a
    field missing from both inputs comes out as the empty list and any
    other key of the inputs is dropped; merging is associative up to the
    order of the lists, and merging with an empty dictionary keeps the
    elements of each field. *)
Theorem merge_intelligence_shape (a b c : gmap string (list string))
    (key : string) :
  dom (merge_intelligence a b) = (list_to_set intelligence_keys : gset string)
  /\ (key ∉ intelligence_keys -> merge_intelligence a b !! key = None)
  /\ (key ∈ intelligence_keys -> a !! key = None -> b !! key = None ->
      merge_intelligence a b !! key = Some [])
  /\ (key ∈ intelligence_keys ->
      (list_to_set (get_list (merge_intelligence (merge_intelligence a b) c) key)
         : gset string)
        = list_to_set (get_list (merge_intelligence a (merge_intelligence b c)) key)
      /\ (list_to_set (get_list (merge_intelligence a ∅) key) : gset string)
           = list_to_set (get_list a key)).
Proof.
  split; [apply merge_intelligence_dom |].
  split.
  { intros Hkey. apply not_elem_of_dom. rewrite merge_intelligence_dom.
    rewrite elem_of_list_to_set. exact Hkey. }
  split.
  { intros Hkey Ha Hb. rewrite (merge_intelligence_lookup _ _ _ Hkey).
    unfold get_list. rewrite Ha, Hb. reflexivity. }
  intros Hkey. rewrite !(merge_intelligence_get _ _ _ Hkey).
  rewrite !list_to_set_list_set, !list_to_set_app_L, !list_to_set_list_set,
    !list_to_set_app_L.
  split; [apply set_eq; intros x; rewrite !elem_of_union; tauto |].
  unfold get_list at 2. rewrite lookup_empty. cbn [default list_to_set].
  apply set_eq. intros x. rewrite elem_of_union, elem_of_empty. tauto.
Qed.

Lemma extract_all_intelligence_get text detection_flags :
  get_list (extract_all_intelligence text detection_flags) "upiIds"
    = extract_upi_ids text
  /\ get_list (extract_all_intelligence text detection_flags) "phoneNumbers"
     = extract_phone_numbers text
  /\ get_list (extract_all_intelligence text detection_flags) "phishingLinks"
     = extract_urls text
  /\ get_list (extract_all_intelligence text detection_flags) "suspiciousKeywords"
     = extract_suspicious_keywords text detection_flags.
Proof.
  unfold get_list, extract_all_intelligence.
  repeat split;
    repeat (rewrite lookup_insert_ne by discriminate);
    rewrite lookup_insert_eq; reflexivity.
Qed.

Lemma merged_model x d :
  let merged := intelligence_of_dict (merge_intelligence (intelligence_dict x) d) in
  upiIds merged = list_set (upiIds x ++ get_list d "upiIds")
  /\ phoneNumbers merged = list_set (phoneNumbers x ++ get_list d "phoneNumbers")
  /\ phishingLinks merged = list_set (phishingLinks x ++ get_list d "phishingLinks")
  /\ suspiciousKeywords merged
       = list_set (suspiciousKeywords x ++ get_list d "suspiciousKeywords").
Proof.
  cbv zeta. unfold intelligence_of_dict.
  cbn [upiIds phoneNumbers phishingLinks suspiciousKeywords].
  destruct (intelligence_dict_get x) as (H1 & H2 & H3 & H4).
  rewrite !merge_intelligence_get, H1, H2, H3, H4.
  - repeat split.
  - repeat constructor.
  - apply list_elem_of_further, list_elem_of_further, list_elem_of_here.
  - apply list_elem_of_further, list_elem_of_here.
  - apply list_elem_of_here.
Qed.

Lemma engage_extracted request detection session engaged :
  engaged = engage request detection session ->
  extracted engaged
    = intelligence_of_dict
        (merge_intelligence (intelligence_dict (extracted session))
           (extract_all_intelligence (message_text request) (flags detection)))
  /\ behavior_patterns engaged
     = bump_patterns (flags detection) (behavior_patterns session).
Proof. intros ->. split; reflexivity. Qed.

Lemma list_set_includes_l (xs ys : list string) : xs ⊆ list_set (xs ++ ys).
Proof. intros x Hx. apply elem_of_list_set, elem_of_app. left. exact Hx. Qed.

Lemma intelligence_included_refl a : intelligence_included a a.
Proof. repeat split; reflexivity. Qed.

Lemma intelligence_included_trans a b c :
  intelligence_included a b -> intelligence_included b c ->
  intelligence_included a c.
Proof.
  intros (H1 & H2 & H3 & H4) (G1 & G2 & G3 & G4).
  repeat split; etransitivity; eassumption.
Qed.

Lemma next_session_extracted settings env request before :
  intelligence_included (extracted before)
    (extracted (next_session settings env request before))
  /\ (intelligence_nodup (extracted before) ->
      intelligence_nodup (extracted (next_session settings env request before))).
Proof.
  destruct (next_session_cases settings env request before)
    as (session & detection & engaged & after & text
        & Hs & Hd & Hengaged & Hcont & Hnext).
  assert (extracted session = extracted before) as Hsame by (rewrite Hs; reflexivity).
  destruct (engage_extracted _ _ _ _ Hengaged) as [Hex _].
  pose proof (merged_model (extracted session)
                (extract_all_intelligence (message_text request) (flags detection)))
    as Hm.
  cbv zeta in Hm. rewrite <- Hex, Hsame in Hm. destruct Hm as (M1 & M2 & M3 & M4).
  apply continue_frame_eq in Hcont. destruct Hcont as (_ & _ & _ & Hce & _).
  assert (intelligence_included (extracted before) (extracted engaged)
          /\ intelligence_nodup (extracted engaged)) as [Hinc Hnd].
  { split.
    - unfold intelligence_included. rewrite M1, M2, M3, M4.
      repeat split; apply list_set_includes_l.
    - unfold intelligence_nodup. rewrite M1, M2, M3, M4.
      repeat split; apply NoDup_list_set. }
  destruct Hnext as [[_ ->] | [(_ & _ & ->) | (_ & _ & ->)]].
  - rewrite Hsame. split; [apply intelligence_included_refl | auto].
  - cbn [extracted set_completed]. split; [exact Hinc | auto].
  - rewrite Hce. split; [exact Hinc | auto].
Qed.

(** X13: a session never loses intelligence and never lists an item
    twice: in every session the server stores no field has a duplicate,
    and whatever requests follow, every item of every field is still
    there. *)
Theorem intelligence_accumulates (settings : Settings)
    (earlier later : list (RequestEnv * IncomingRequest))
    (session_id : string) (s : SessionData) :
  SESSIONS (serve settings earlier initial_world) !! session_id = Some s ->
  intelligence_nodup (extracted s)
  /\ exists s',
       SESSIONS (serve settings (earlier ++ later) initial_world) !! session_id
         = Some s'
       /\ intelligence_included (extracted s) (extracted s').
Proof.
  intros Hs. split.
  - apply (serve_invariant (fun s => intelligence_nodup (extracted s)) settings)
      with (requests := earlier) (w := initial_world) (session_id := session_id).
    + intros now. repeat split; constructor.
    + intros env request s0. apply next_session_extracted.
    + intros sid s0 Hs0. cbn in Hs0. rewrite lookup_empty in Hs0. discriminate.
    + exact Hs.
  - rewrite serve_app.
    apply (serve_monotone
             (fun a b => intelligence_included (extracted a) (extracted b)) settings).
    + intros s0. apply intelligence_included_refl.
    + intros a b c. apply intelligence_included_trans.
    + intros env request s0. apply next_session_extracted.
    + exact Hs.
Qed.

End intelligence_life.

Lemma merge_intelligence_shape_witness :
  merge_intelligence found_first found_second !! "other" = None
  /\ merge_intelligence found_first found_second !! "phishingLinks" = Some [].
Proof.
  split.
  - apply (merge_intelligence_shape found_first found_second ∅ "other").
    intros Hin. repeat (apply elem_of_cons in Hin as [Hin | Hin]; [discriminate |]).
    apply elem_of_nil in Hin. exact Hin.
  - apply (merge_intelligence_shape found_first found_second ∅ "phishingLinks").
    + apply list_elem_of_further, list_elem_of_further, list_elem_of_here.
    + reflexivity.
    + reflexivity.
Defined.

Lemma intelligence_accumulates_witness :
  exists s s',
    SESSIONS (serve default_settings [(calm_env, scam_request)] initial_world)
      !! "s1" = Some s
    /\ SESSIONS (serve default_settings
                   ([(calm_env, scam_request)] ++ [(calm_env, benign_request)])
                   initial_world) !! "s1" = Some s'
    /\ intelligence_included (extracted s) (extracted s').
Proof.
  edestruct (intelligence_accumulates (H := sample_externals) default_settings
               [(calm_env, scam_request)] [(calm_env, benign_request)] "s1")
    as (_ & s' & Hs' & Hinc).
  - vm_compute. reflexivity.
  - eexists. exists s'. split; [vm_compute; reflexivity |].
    split; [exact Hs' | exact Hinc].
Defined.

(** ** More on personas, modes and topics *)

Section persona_more.

Lemma value_is_name (t : PersonaType) : value t ∈ persona_names.
Proof.
  destruct t; unfold persona_names; cbn [map PERSONAS fst value];
    repeat first [apply list_elem_of_here | apply list_elem_of_further].
Qed.

Lemma PersonaType_of_value_inv (s : string) (t : PersonaType) :
  PersonaType_of_value s = Some t -> s = value t.
Proof.
  unfold PersonaType_of_value.
  destruct (String.eqb_spec s "confused_user") as [-> | _];
    [intros [= <-]; reflexivity |].
  destruct (String.eqb_spec s "nervous_elder") as [-> | _];
    [intros [= <-]; reflexivity |].
  destruct (String.eqb_spec s "over_polite") as [-> | _];
    [intros [= <-]; reflexivity |].
  destruct (String.eqb_spec s "tech_savvy") as [-> | _];
    [intros [= <-]; reflexivity |].
  discriminate.
Qed.

(** X14: persona identifiers and persona types correspond one to one:
    [PersonaType(value)] succeeds on the identifier of each type and gives
    that type back, succeeds on nothing else, and [get_persona_by_type]
    returns the persona of that type for the four identifiers and nothing
    for any other string. *)
Theorem persona_identifier_round_trip (t : PersonaType) (s : string) :
  PersonaType_of_value (value t) = Some t
  /\ (PersonaType_of_value s = Some t <-> s = value t)
  /\ (exists p, get_persona_by_type (value t) = Some p /\ persona_type p = t
                /\ personas_get t = Some p)
  /\ (is_Some (get_persona_by_type s) <-> s ∈ persona_names).
Proof.
  split; [destruct t; reflexivity |].
  split.
  { split; [apply PersonaType_of_value_inv | intros ->; destruct t; reflexivity]. }
  split; [destruct t; eexists; repeat split |].
  split.
  - intros [p Hp]. unfold get_persona_by_type in Hp.
    destruct (PersonaType_of_value s) as [t' |] eqn:Ht; [| discriminate].
    apply PersonaType_of_value_inv in Ht. subst s. apply value_is_name.
  - unfold persona_names. cbn [map PERSONAS fst value]. intros Hin.
    repeat (apply elem_of_cons in Hin as [-> | Hin]; [eexists; reflexivity |]).
    apply elem_of_nil in Hin. contradiction.
Qed.

Lemma decide_mode_inv (confidence : Q) (mode : Mode) :
  decide_mode confidence = Return mode ->
  0 <= confidence <= 1
  /\ (mode = EXIT -> confidence < 0.25)
  /\ (mode = DEFLECTION -> 0.25 <= confidence < 0.5)
  /\ (mode = NORMAL -> 0.5 <= confidence).
Proof.
  unfold decide_mode.
  destruct (Qle_bool_reflect 0 confidence) as [H0 | H0];
    destruct (Qle_bool_reflect confidence 1) as [H1 | H1];
    cbn [andb negb]; try discriminate.
  destruct (Qltb_reflect confidence 0.25) as [Hq | Hq];
    [| destruct (Qltb_reflect confidence 0.5) as [Hh | Hh]];
    intros [= <-]; repeat split; intros; try discriminate; lra.
Qed.

(** X15: inside [generate_reply] the mode and the persona are derived
    from the same confidence and so go together: mode [EXIT] always comes
    with the tech-savvy persona, mode [NORMAL] with the confused user or
    the nervous elder, mode [DEFLECTION] with the over-polite or the
    tech-savvy persona; the call raises exactly when the confidence is
    outside [[0, 1]], and the persona identifier it returns is one of the
    four. *)
Theorem generate_reply_mode_persona (generate : Prompt -> nat -> Generation)
    (confidence : Q) (last_message : string) (current : option string)
    (intelligence : gmap string (list string)) :
  let persona := select_persona confidence current in
  (decide_mode confidence = Return EXIT -> persona = tech_savvy)
  /\ (decide_mode confidence = Return NORMAL ->
      persona = confused_user \/ persona = nervous_elder)
  /\ (decide_mode confidence = Return DEFLECTION ->
      persona = over_polite \/ persona = tech_savvy)
  /\ ((exists e, generate_reply generate confidence last_message current
                   intelligence = Raise e)
      <-> ~ (0 <= confidence <= 1))
  /\ (forall text name,
        generate_reply generate confidence last_message current intelligence
          = Return (text, name) ->
        name = value (persona_type persona) /\ name ∈ persona_names
        /\ 0 <= confidence <= 1).
Proof.
  cbv zeta.
  pose proof (select_persona_band confidence current) as (Ha & Hb & Hc & Hd).
  pose proof (generate_reply_outcome generate confidence last_message current
                intelligence) as Hgen.
  assert (Qle_bool 0 confidence && Qle_bool confidence 1 = true
          <-> 0 <= confidence <= 1) as Hrange
    by (rewrite andb_true_iff, !Qle_bool_iff; reflexivity).
  split.
  { intros Hm. apply decide_mode_inv in Hm as (Hr & He & _). apply Hd.
    specialize (He eq_refl). lra. }
  split.
  { intros Hm. apply decide_mode_inv in Hm as (Hr & _ & _ & Hn).
    specialize (Hn eq_refl).
    destruct (Qle_bool_reflect 0.7 confidence);
      [left; apply Ha; lra | right; apply Hb; lra]. }
  split.
  { intros Hm. apply decide_mode_inv in Hm as (Hr & _ & Hdf & _).
    specialize (Hdf eq_refl).
    destruct (Qle_bool_reflect 0.3 confidence);
      [left; apply Hc; lra | right; apply Hd; lra]. }
  destruct (Qle_bool 0 confidence && Qle_bool confidence 1) eqn:Hin.
  - destruct Hgen as [text Hgen]. rewrite Hgen.
    assert (0 <= confidence <= 1) as Hr by (apply Hrange; reflexivity).
    split.
    + split; [intros [e He]; discriminate He | intros Hn; contradiction].
    + intros text' name [= _ <-]. split; [reflexivity |].
      split; [apply value_is_name | exact Hr].
  - destruct Hgen as [e Hgen]. rewrite Hgen.
    split.
    + split; [intros _ Hr; apply Hrange in Hr; discriminate Hr | eauto].
    + intros text name Hret. discriminate Hret.
Qed.


End persona_more.

Lemma persona_identifier_round_trip_witness :
  exists p, get_persona_by_type "over_polite" = Some p.
Proof.
  apply (persona_identifier_round_trip OVER_POLITE "over_polite").
  apply list_elem_of_further, list_elem_of_further, list_elem_of_here.
Defined.

Lemma generate_reply_mode_persona_witness :
  select_persona 0.1 None = tech_savvy.
Proof.
  apply (generate_reply_mode_persona (fun _ _ => Generated "ok") 0.1 "hi" None ∅).
  reflexivity.
Defined.


(** ** The message history of a session *)

Section history_facts.
Context `{Externals}.

Lemma last_n_all {A} (n : nat) (xs : list A) :
  (length xs <= n)%nat -> last_n n xs = xs.
Proof.
  intros Hle. unfold last_n.
  replace (length xs - n)%nat with 0%nat by lia. reflexivity.
Qed.

Lemma last_n_app_last {A} (n m : nat) (xs ys : list A) :
  (n <= m + length ys)%nat ->
  last_n n (last_n m xs ++ ys)%list = last_n n (xs ++ ys)%list.
Proof.
  intros Hn. destruct (decide (length xs <= m)%nat) as [Hle | Hgt].
  - rewrite (last_n_all m xs Hle). reflexivity.
  - unfold last_n. rewrite !length_app, length_drop.
    rewrite <- (drop_app_le xs ys (length xs - m)) by lia.
    rewrite drop_drop. f_equal. lia.
Qed.

Lemma push_history_last_n (text : string) (history : list string) :
  push_history text history = last_n 10 (history ++ [text])%list.
Proof.
  unfold push_history. cbv zeta.
  destruct (10 <? length (history ++ [text])%list)%nat eqn:Hlong; [reflexivity |].
  apply Nat.ltb_ge in Hlong. symmetry. apply last_n_all. exact Hlong.
Qed.

Lemma all_but_last_snoc {A} (xs : list A) (x : A) :
  all_but_last (xs ++ [x])%list = xs.
Proof.
  unfold all_but_last. rewrite length_app. cbn [length].
  replace (length xs + 1 - 1)%nat with (length xs) by lia.
  apply take_app_length.
Qed.

Lemma last_n_snoc {A} (n : nat) (xs : list A) (x : A) :
  last_n (S n) (xs ++ [x])%list = (last_n n xs ++ [x])%list.
Proof.
  unfold last_n. rewrite length_app. cbn [length].
  replace (length xs + 1 - S n)%nat with (length xs - n)%nat by lia.
  apply drop_app_le. lia.
Qed.

Lemma all_but_last_push (text : string) (history : list string) :
  all_but_last (push_history text history) = last_n 9 history.
Proof.
  rewrite push_history_last_n, last_n_snoc. apply all_but_last_snoc.
Qed.

Lemma last_n_nil_inv {A} (n : nat) (xs : list A) :
  last_n (S n) xs = [] -> xs = [].
Proof.
  intros Hnil. apply (f_equal length) in Hnil.
  rewrite last_n_length in Hnil. cbn [length] in Hnil.
  destruct xs; [reflexivity | cbn [length] in Hnil; lia].
Qed.

Lemma last_n_last_n {A} (n m : nat) (xs : list A) :
  (n <= m)%nat -> last_n n (last_n m xs) = last_n n xs.
Proof.
  intros Hnm. pose proof (last_n_app_last n m xs []) as Happ.
  rewrite !app_nil_r in Happ. apply Happ. cbn [length]. lia.
Qed.

(** Only the last five messages of the history count. *)
Lemma detect_repetition_last_n message (n : nat) history :
  (5 <= n)%nat ->
  detect_repetition message (last_n n history) = detect_repetition message history.
Proof.
  intros Hn. rewrite !detect_repetition_unfold.
  destruct n as [| n]; [lia |].
  destruct (last_n (S n) history) as [| m rest] eqn:Hlast.
  - apply last_n_nil_inv in Hlast. subst history. reflexivity.
  - destruct history as [| m0 rest0].
    + unfold last_n in Hlast. cbn in Hlast. discriminate Hlast.
    + rewrite <- Hlast, last_n_last_n by exact Hn. reflexivity.
Qed.

Lemma detect_scam_last_n settings message (n : nat) history patterns :
  (5 <= n)%nat ->
  detect_scam settings message (last_n n history) patterns
    = detect_scam settings message history patterns.
Proof.
  intros Hn. unfold detect_scam.
  rewrite (detect_repetition_last_n message n history Hn). reflexivity.
Qed.

(** X17: the verdict on a message is the one [detect_scam] gives for the
    message, the history the session had stored before the request and the
    counters it had then: the message is never compared with itself, and
    neither the trimming of the history to ten entries nor the removal of
    its last entry changes what the detector sees. *)
Theorem verdict_uses_stored_history (settings : Settings) (env : RequestEnv)
    (request : IncomingRequest) (w : World) :
  let before := load_session (utcnow env) (SESSIONS w) (sessionId request) in
  snd (track settings env request w)
    = detect_scam settings (message_text request) (message_history before)
                  (behavior_patterns before)
  /\ all_but_last (message_history (fst (track settings env request w)))
     = last_n 9 (message_history before).
Proof.
  cbv zeta. rewrite track_load. cbn [fst snd message_history set_message_history].
  rewrite all_but_last_push. split; [| reflexivity].
  apply detect_scam_last_n. lia.
Qed.

Lemma next_session_history settings env request before :
  message_history (next_session settings env request before)
    = push_history (message_text request) (message_history before).
Proof.
  destruct (next_session_cases settings env request before)
    as (session & detection & engaged & after & text
        & Hs & Hd & Hengaged & Hcont & Hnext).
  assert (message_history session
          = push_history (message_text request) (message_history before)) as Hh
    by (rewrite Hs; reflexivity).
  apply engage_frame_eq in Hengaged.
  destruct Hengaged as (_ & _ & _ & _ & _ & Heh & _).
  apply continue_frame_eq in Hcont.
  destruct Hcont as (_ & _ & _ & _ & _ & _ & _ & Hch).
  destruct Hnext as [[_ ->] | [(_ & _ & ->) | (_ & _ & ->)]].
  - exact Hh.
  - cbn [message_history set_completed]. congruence.
  - congruence.
Qed.

Lemma texts_for_snoc session_id requests env request :
  texts_for session_id (requests ++ [(env, request)])%list
    = (texts_for session_id requests
       ++ (if String.eqb (sessionId request) session_id
           then [message_text request] else []))%list.
Proof.
  unfold texts_for. rewrite List.filter_app, map_app. cbn [List.filter snd].
  destruct (String.eqb (sessionId request) session_id); reflexivity.
Qed.

(** X18: the store holds a session exactly for the identifiers that
    received a request, and the history of a stored session is the last ten
    texts sent to it, oldest first. *)
Theorem message_history_window (settings : Settings)
    (requests : list (RequestEnv * IncomingRequest)) (session_id : string) :
  match SESSIONS (serve settings requests initial_world) !! session_id with
  | Some s => message_history s = last_n 10 (texts_for session_id requests)
              /\ texts_for session_id requests <> []
              /\ (length (message_history s) <= 10)%nat
  | None => texts_for session_id requests = []
  end.
Proof.
  induction requests as [| [env request] earlier IH] using rev_ind.
  - cbn [serve initial_world SESSIONS]. rewrite lookup_empty. reflexivity.
  - rewrite serve_app. cbn [serve]. rewrite handle_message_next, texts_for_snoc.
    destruct (String.eqb_spec (sessionId request) session_id) as [Heq | Hne].
    + subst session_id. rewrite lookup_insert_eq, next_session_history.
      assert (message_history
                (load_session (utcnow env)
                   (SESSIONS (serve settings earlier initial_world))
                   (sessionId request))
              = last_n 10 (texts_for (sessionId request) earlier)) as ->.
      { unfold load_session.
        destruct (SESSIONS (serve settings earlier initial_world)
                    !! sessionId request) as [s |]; cbn [default].
        - apply IH.
        - rewrite IH. reflexivity. }
      rewrite push_history_last_n, last_n_app_last by (cbn [length]; lia).
      split; [reflexivity |].
      split; [intros Hnil; apply app_eq_nil in Hnil as [_ Hnil]; discriminate Hnil |].
      rewrite last_n_length. lia.
    + rewrite lookup_insert_ne by exact Hne. rewrite app_nil_r. exact IH.
Qed.

End history_facts.

(** ** Turns, counters and personas over the life of a session *)

Section accounting_facts.
Context `{Externals}.

(** One request: the session stored and the response given, branch by
    branch. *)
Lemma handle_message_outcome settings env request w :
  let before := load_session (utcnow env) (SESSIONS w) (sessionId request) in
  let next := next_session settings env request before in
  exists session detection engaged after text,
    track settings env request w = (session, detection)
    /\ engaged = engage request detection session
    /\ continue_conversation env request engaged = (after, text)
    /\ ((is_scam detection = false /\ next = session
         /\ callbacks (fst (handle_message settings env request w)) = callbacks w
         /\ snd (handle_message settings env request w)
              = pass_through_response (sessionId request) session)
        \/ (is_scam detection = true /\ exit_fires settings engaged = true
            /\ next = set_completed true engaged
            /\ callbacks (fst (handle_message settings env request w))
                 = (callbacks w
                      ++ [send_final_callback settings (http_post env)
                            (sessionId request) engaged])%list
            /\ snd (handle_message settings env request w)
                 = engaged_response (sessionId request) next
                     (generate_exit_message (current_persona engaged)
                        (intelligence_dict (extracted engaged))))
        \/ (is_scam detection = true /\ exit_fires settings engaged = false
            /\ next = after
            /\ callbacks (fst (handle_message settings env request w)) = callbacks w
            /\ snd (handle_message settings env request w)
                 = engaged_response (sessionId request) next text)).
Proof.
  cbv zeta.
  pose proof (handle_message_next settings env request w) as Hnext.
  destruct (handle_message_branches settings env request w)
    as (session & detection & engaged & after & text
        & Htrack & Hengaged & Hcont & Hcases).
  exists session, detection, engaged, after, text.
  split; [exact Htrack |]. split; [exact Hengaged |]. split; [exact Hcont |].
  destruct Hcases as [[Hscam Heq] | [(Hscam & Hfire & Heq) | (Hscam & Hfire & Heq)]];
    rewrite Heq in Hnext |- *; cbn [fst snd SESSIONS callbacks] in Hnext |- *;
    apply (f_equal (fun m => m !! sessionId request)) in Hnext;
    rewrite !lookup_insert_eq in Hnext; injection Hnext as Hnext;
    rewrite <- Hnext.
  - left. repeat split. exact Hscam.
  - right; left. repeat split; assumption.
  - right; right. repeat split; assumption.
Qed.

Lemma serve_responses_app settings earlier later w :
  serve_responses settings (earlier ++ later) w
    = (serve_responses settings earlier w
       ++ serve_responses settings later (serve settings earlier w))%list.
Proof.
  revert w. induction earlier as [| [env request] rest IH]; intros w.
  - reflexivity.
  - cbn [app serve_responses serve]. f_equal.
    exact (IH (fst (handle_message settings env request w))).
Qed.

(** The turn counter after one request, against the response given. *)
Lemma next_session_turns settings env request w :
  let before := load_session (utcnow env) (SESSIONS w) (sessionId request) in
  let response := snd (handle_message settings env request w) in
  models.session_id response = Some (sessionId request)
  /\ turns (next_session settings env request before)
     = (turns before + (if agent_engaged response then 1 else 0))%Z
  /\ resp_turns response
     = Some (turns (next_session settings env request before)).
Proof.
  cbv zeta.
  destruct (handle_message_outcome settings env request w)
    as (session & detection & engaged & after & text
        & Htrack & Hengaged & Hcont & Hcases).
  cbv zeta in Hcases.
  apply track_frame in Htrack. cbv zeta in Htrack.
  destruct Htrack as (_ & Hturns & _).
  apply engage_frame_eq in Hengaged.
  destruct Hengaged as (_ & _ & _ & _ & _ & _ & Heturns & _).
  apply continue_frame_eq in Hcont. destruct Hcont as (_ & Hcturns & _).
  destruct Hcases as [(_ & Hn & _ & ->) | [(_ & _ & Hn & _ & ->) | (_ & _ & Hn & _ & ->)]];
    cbn [pass_through_response engaged_response models.session_id agent_engaged
         resp_turns]; rewrite Hn.
  - split; [reflexivity |]. split; [lia | reflexivity].
  - cbn [turns set_completed]. split; [reflexivity |].
    split; [lia | reflexivity].
  - split; [reflexivity |]. split; [lia | reflexivity].
Qed.

(** X19: the turn counter of a stored session is the number of requests
    addressed to it on which the agent engaged; pass-through requests do
    not count, and a session known to the store has no other source of
    turns. *)
Theorem turns_count_engaged (settings : Settings)
    (requests : list (RequestEnv * IncomingRequest)) (session_id : string) :
  match SESSIONS (serve settings requests initial_world) !! session_id with
  | Some s =>
      turns s = Z.of_nat (engaged_count settings requests initial_world session_id)
  | None => engaged_count settings requests initial_world session_id = 0%nat
  end.
Proof.
  induction requests as [| [env request] earlier IH] using rev_ind.
  - cbn [serve initial_world SESSIONS]. rewrite lookup_empty. reflexivity.
  - unfold engaged_count in *. rewrite serve_app, serve_responses_app.
    cbn [serve serve_responses]. rewrite List.filter_app, length_app.
    rewrite handle_message_next.
    pose proof (next_session_turns settings env request
                  (serve settings earlier initial_world)) as Hstep.
    cbv zeta in Hstep. destruct Hstep as (Hid & Hturns & _).
    cbn [List.filter]. rewrite Hid.
    destruct (decide (sessionId request = session_id)) as [Heq | Hne].
    + subst session_id. rewrite lookup_insert_eq, Hturns.
      rewrite bool_decide_eq_true_2 by reflexivity. rewrite andb_true_r.
      assert (turns (load_session (utcnow env)
                       (SESSIONS (serve settings earlier initial_world))
                       (sessionId request))
              = Z.of_nat
                  (length
                     (List.filter
                        (fun r => agent_engaged r
                                  && bool_decide (models.session_id r
                                                  = Some (sessionId request)))
                        (serve_responses settings earlier initial_world)))) as ->.
      { unfold load_session.
        destruct (SESSIONS (serve settings earlier initial_world)
                    !! sessionId request) as [s |]; cbn [default].
        - exact IH.
        - rewrite IH. reflexivity. }
      destruct (agent_engaged _); cbn [length]; lia.
    + rewrite lookup_insert_ne by exact Hne.
      rewrite bool_decide_eq_false_2 by congruence. rewrite andb_false_r.
      cbn [length]. rewrite Nat.add_0_r. exact IH.
Qed.

End accounting_facts.

(** ** The persona history *)

Section persona_history_facts.
Context `{Externals}.








Lemma turns_increase_le low history high :
  turns_increase low history high -> (low <= high)%Z.
Proof.
  revert low. induction history as [| first rest IH]; intros low; cbn [turns_increase].
  - trivial.
  - intros [Hlow Hrest]. apply IH in Hrest. lia.
Qed.






End persona_history_facts.


(** ** The pressure counters *)

Section pattern_facts.
Context `{Externals}.

Lemma pattern_count_bounded (patterns : gmap string Z) (t : Z) (key : string) :
  (0 <= t)%Z ->
  (forall k n, patterns !! k = Some n ->
               (k = "urgency" \/ k = "threat") /\ (1 <= n <= t)%Z) ->
  (0 <= pattern_count patterns key <= t)%Z.
Proof.
  intros Ht Hb. unfold pattern_count.
  destruct (patterns !! key) as [n |] eqn:Hkey; cbn [default from_option id];
    [| lia].
  apply Hb in Hkey. lia.
Qed.

Lemma bump_patterns_bounded (flags : list string) (patterns : gmap string Z) (t : Z) :
  (0 <= t)%Z ->
  (forall k n, patterns !! k = Some n ->
               (k = "urgency" \/ k = "threat") /\ (1 <= n <= t)%Z) ->
  forall k n, bump_patterns flags patterns !! k = Some n ->
              (k = "urgency" \/ k = "threat") /\ (1 <= n <= t + 1)%Z.
Proof.
  intros Ht Hb k n. unfold bump_patterns. cbv zeta.
  pose proof (pattern_count_bounded patterns t "urgency" Ht Hb) as Hu.
  pose proof (pattern_count_bounded patterns t "threat" Ht Hb) as Hth.
  assert (forall k0 n0, patterns !! k0 = Some n0 ->
                        (k0 = "urgency" \/ k0 = "threat") /\ (1 <= n0 <= t + 1)%Z)
    as Hb' by (intros k0 n0 Hk0; apply Hb in Hk0; split; [tauto | lia]).
  assert (pattern_count
            (<["urgency" := (pattern_count patterns "urgency" + 1)%Z]> patterns)
            "threat" = pattern_count patterns "threat") as Hsame
    by (unfold pattern_count; rewrite lookup_insert_ne by discriminate;
        reflexivity).
  destruct (py_in "urgency" flags), (py_in "threat" flags); rewrite ?Hsame.
  - destruct (decide (k = "threat")) as [-> | Hk1].
    + rewrite lookup_insert_eq. intros [= <-]. split; [tauto | lia].
    + rewrite lookup_insert_ne by congruence.
      destruct (decide (k = "urgency")) as [-> | Hk2].
      * rewrite lookup_insert_eq. intros [= <-]. split; [tauto | lia].
      * rewrite lookup_insert_ne by congruence. apply Hb'.
  - destruct (decide (k = "urgency")) as [-> | Hk2].
    + rewrite lookup_insert_eq. intros [= <-]. split; [tauto | lia].
    + rewrite lookup_insert_ne by congruence. apply Hb'.
  - destruct (decide (k = "threat")) as [-> | Hk1].
    + rewrite lookup_insert_eq. intros [= <-]. split; [tauto | lia].
    + rewrite lookup_insert_ne by congruence. apply Hb'.
  - apply Hb'.
Qed.

Lemma engage_patterns request detection session :
  behavior_patterns (engage request detection session)
    = bump_patterns (flags detection) (behavior_patterns session).
Proof. reflexivity. Qed.

Lemma next_session_patterns settings env request before :
  patterns_bounded before /\ (0 <= turns before)%Z ->
  patterns_bounded (next_session settings env request before)
  /\ (0 <= turns (next_session settings env request before))%Z.
Proof.
  intros [Hb Ht].
  destruct (next_session_cases settings env request before)
    as (session & detection & engaged & after & text
        & Hs & Hd & Hengaged & Hcont & Hnext).
  assert (behavior_patterns session = behavior_patterns before
          /\ turns session = turns before) as [Hsp Hst]
    by (rewrite Hs; split; reflexivity).
  assert (behavior_patterns engaged
          = bump_patterns (flags detection) (behavior_patterns before)) as Hep
    by (rewrite Hengaged, engage_patterns, Hsp; reflexivity).
  apply engage_frame_eq in Hengaged.
  destruct Hengaged as (_ & _ & _ & _ & _ & _ & Het & _).
  apply continue_frame_eq in Hcont.
  destruct Hcont as (_ & Hct & _ & _ & _ & _ & Hcp & _).
  pose proof (bump_patterns_bounded (flags detection) (behavior_patterns before)
                (turns before) Ht Hb) as Hbump.
  unfold patterns_bounded.
  destruct Hnext as [[_ ->] | [(_ & _ & ->) | (_ & _ & ->)]].
  - rewrite Hsp, Hst. split; assumption.
  - cbn [behavior_patterns turns set_completed]. rewrite Hep, Het, Hst.
    split; [exact Hbump | lia].
  - rewrite Hcp, Hct, Hep, Het, Hst. split; [exact Hbump | lia].
Qed.

(** X21: in every session the server stores the pressure counters have
    no key but [urgency] and [threat], each counter is at least one and at
    most the number of turns, and the turn counter is not negative; so the
    detector can report an escalation by repeated pressure only from the
    third engaged turn of a session on. *)
Theorem behavior_patterns_bounded (settings : Settings)
    (requests : list (RequestEnv * IncomingRequest))
    (session_id : string) (s : SessionData) :
  SESSIONS (serve settings requests initial_world) !! session_id = Some s ->
  patterns_bounded s
  /\ (0 <= turns s)%Z
  /\ (forall message,
        escalation_type (detect_escalation message (behavior_patterns s))
          = Some "repeated_pressure" ->
        (2 <= turns s)%Z).
Proof.
  intros Hs.
  assert (patterns_bounded s /\ (0 <= turns s)%Z) as [Hb Ht].
  { apply (serve_invariant
             (fun s => patterns_bounded s /\ (0 <= turns s)%Z) settings) with
      (requests := requests) (w := initial_world) (session_id := session_id).
    - intros now. split; [| cbn; lia].
      intros k n Hk. cbn in Hk. rewrite lookup_empty in Hk. discriminate.
    - intros env request s0. apply next_session_patterns.
    - intros sid s0 Hs0. cbn in Hs0. rewrite lookup_empty in Hs0. discriminate.
    - exact Hs. }
  split; [exact Hb |]. split; [exact Ht |].
  intros message. unfold detect_escalation. cbv zeta.
  pose proof (pattern_count_bounded (behavior_patterns s) (turns s) "urgency" Ht Hb)
    as Hu.
  pose proof (pattern_count_bounded (behavior_patterns s) (turns s) "threat" Ht Hb)
    as Hth.
  destruct ((2 <=? pattern_count (behavior_patterns s) "urgency")%Z
            || (2 <=? pattern_count (behavior_patterns s) "threat")%Z) eqn:Hp;
    destruct (any_in ESCALATION_WORDS (lower message));
    cbn [escalation_type]; intros Heq; try discriminate Heq.
  apply orb_true_iff in Hp as [Hp | Hp]; apply Z.leb_le in Hp; lia.
Qed.

End pattern_facts.

Lemma behavior_patterns_bounded_witness :
  exists s,
    SESSIONS (serve default_settings [(calm_env, scam_request)] initial_world)
      !! "s1" = Some s
    /\ patterns_bounded s.
Proof.
  eexists. split; [vm_compute; reflexivity |].
  edestruct (behavior_patterns_bounded (H := sample_externals) default_settings
               [(calm_env, scam_request)] "s1") as (Hb & _).
  - vm_compute. reflexivity.
  - exact Hb.
Defined.

(** ** What the generator and the callback endpoint cannot influence *)

Section independence_facts.
Context `{Externals}.

Lemma continue_conversation_session env env' request session :
  fst (continue_conversation env request session)
    = fst (continue_conversation env' request session).
Proof.
  unfold continue_conversation.
  pose proof (generate_reply_outcome (llm_generate env) (confidence session)
                (message_text request) (current_persona session)
                (intelligence_dict (extracted session))) as Hgen.
  pose proof (generate_reply_outcome (llm_generate env') (confidence session)
                (message_text request) (current_persona session)
                (intelligence_dict (extracted session))) as Hgen'.
  destruct (Qle_bool 0 (confidence session) && Qle_bool (confidence session) 1).
  - destruct Hgen as [text ->], Hgen' as [text' ->].
    destruct (bool_decide _); reflexivity.
  - destruct Hgen as [e ->], Hgen' as [e' ->]. reflexivity.
Qed.

Lemma next_session_env settings env env' request before :
  utcnow env = utcnow env' ->
  next_session settings env request before
    = next_session settings env' request before.
Proof.
  intros Hnow. unfold next_session. rewrite Hnow. cbv zeta.
  destruct (negb _); [reflexivity |].
  destruct (exit_fires _ _); [reflexivity |].
  apply continue_conversation_session.
Qed.

Lemma send_final_callback_payload settings post session_id session :
  payload (send_final_callback settings post session_id session)
    = {| cb_sessionId := session_id;
         cb_scamDetected := true;
         cb_totalMessagesExchanged := turns session;
         cb_extractedIntelligence := extracted session;
         cb_agentNotes := "Scammer used urgency, repetition, and threat escalation";
         cb_finalConfidence := confidence session |}.
Proof.
  unfold send_final_callback. destruct (post_loop _ _ _) as [made ok]. reflexivity.
Qed.

Lemma track_env settings env env' request w w' :
  utcnow env = utcnow env' -> SESSIONS w = SESSIONS w' ->
  track settings env request w = track settings env' request w'.
Proof. intros Hnow Hs. rewrite !track_load, Hnow, Hs. reflexivity. Qed.

(** One request in two worlds with the same store, under two
    environments with the same clock. *)
Lemma handle_message_env settings env env' request w w' :
  utcnow env = utcnow env' -> SESSIONS w = SESSIONS w' ->
  map payload (callbacks w) = map payload (callbacks w') ->
  SESSIONS (fst (handle_message settings env request w))
    = SESSIONS (fst (handle_message settings env' request w'))
  /\ map payload (callbacks (fst (handle_message settings env request w)))
     = map payload (callbacks (fst (handle_message settings env' request w')))
  /\ response_facts (snd (handle_message settings env request w))
     = response_facts (snd (handle_message settings env' request w')).
Proof.
  intros Hnow Hs Hcb.
  pose proof (next_session_env settings env env' request
                (load_session (utcnow env) (SESSIONS w) (sessionId request)) Hnow)
    as Hnext.
  split; [rewrite !handle_message_next, <- Hs, <- Hnow, Hnext; reflexivity |].
  destruct (handle_message_outcome settings env request w)
    as (session & detection & engaged & after & text
        & Htrack & Hengaged & Hcont & Hcases).
  destruct (handle_message_outcome settings env' request w')
    as (session' & detection' & engaged' & after' & text'
        & Htrack' & Hengaged' & Hcont' & Hcases').
  cbv zeta in Hcases, Hcases'.
  rewrite <- (track_env settings env env' request w w' Hnow Hs), Htrack in Htrack'.
  injection Htrack' as <- <-. rewrite <- Hengaged in Hengaged'. subst engaged'.
  rewrite <- Hs, <- Hnow, <- Hnext in Hcases'.
  destruct Hcases as [(Hscam & Hn & Hc & Hr) | [(Hscam & Hfire & Hn & Hc & Hr)
                                               | (Hscam & Hfire & Hn & Hc & Hr)]];
    destruct Hcases' as [(Hscam' & Hn' & Hc' & Hr') | [(Hscam' & Hfire' & Hn' & Hc' & Hr')
                                                      | (Hscam' & Hfire' & Hn' & Hc' & Hr')]];
    try congruence; rewrite Hc, Hc', Hr, Hr'.
  - split; [exact Hcb | reflexivity].
  - rewrite !map_app, Hcb. cbn [map]. rewrite !send_final_callback_payload.
    split; reflexivity.
  - split; [exact Hcb | reflexivity].
Qed.

(** X22: what the text generator answers and whether the callback POSTs
    get through has no influence on the store, on the payloads of the
    callbacks or on any field of a response but the reply text: two request
    sequences with the same messages and the same clock readings lead to
    the same sessions, the same callback payloads in the same order, and
    responses that agree except for the reply. *)
Theorem sessions_ignore_generator_and_callback (settings : Settings)
    (first second : list (RequestEnv * IncomingRequest)) (w : World) :
  same_inputs first second ->
  SESSIONS (serve settings first w) = SESSIONS (serve settings second w)
  /\ map payload (callbacks (serve settings first w))
     = map payload (callbacks (serve settings second w))
  /\ map response_facts (serve_responses settings first w)
     = map response_facts (serve_responses settings second w).
Proof.
  intros Hsame.
  assert (forall w1 w2,
            SESSIONS w1 = SESSIONS w2 ->
            map payload (callbacks w1) = map payload (callbacks w2) ->
            SESSIONS (serve settings first w1) = SESSIONS (serve settings second w2)
            /\ map payload (callbacks (serve settings first w1))
               = map payload (callbacks (serve settings second w2))
            /\ map response_facts (serve_responses settings first w1)
               = map response_facts (serve_responses settings second w2)) as Hgen.
  { induction Hsame as [| [env1 request1] [env2 request2] rest1 rest2 [Hnow Hreq] _ IH];
      intros w1 w2 Hs Hcb.
    - repeat split; assumption.
    - cbn [fst snd] in Hnow, Hreq. subst request2.
      cbn [serve serve_responses map].
      destruct (handle_message_env settings env1 env2 request1 w1 w2 Hnow Hs Hcb)
        as (Hs' & Hcb' & Hr').
      destruct (IH _ _ Hs' Hcb') as (Hs'' & Hcb'' & Hr'').
      split; [exact Hs'' |]. split; [exact Hcb'' |]. rewrite Hr', Hr''. reflexivity. }
  apply Hgen; reflexivity.
Qed.

End independence_facts.

Lemma sessions_ignore_generator_and_callback_witness :
  SESSIONS (serve default_settings
              [(calm_env, scam_request); (calm_env, scam_request)] initial_world)
  = SESSIONS (serve default_settings
                [(stormy_env, scam_request); (stormy_env, scam_request)]
                initial_world).
Proof.
  apply (sessions_ignore_generator_and_callback (H := sample_externals)
           default_settings
           [(calm_env, scam_request); (calm_env, scam_request)]
           [(stormy_env, scam_request); (stormy_env, scam_request)]).
  repeat constructor.
Defined.

(** ** The replies of the agent *)

Section reply_facts.
Context `{Externals}.









End reply_facts.


(** ** The retry loops *)

Section retry_facts.

Lemma call_llm_loop_retry (generate : nat -> Generation) (attempt remaining : nat) :
  retryable (generate attempt) = true ->
  call_llm_loop generate attempt (S remaining)
    = call_llm_loop generate (S attempt) remaining.
Proof.
  cbn [call_llm_loop]. cbv zeta. unfold retryable.
  destruct (generate attempt) as [text | error]; [discriminate |].
  intros ->. reflexivity.
Qed.

Lemma call_llm_loop_success (generate : nat -> Generation) (k : nat) :
  forall attempt remaining text,
    (k < remaining)%nat ->
    (forall j, (j < k)%nat -> retryable (generate (attempt + j)%nat) = true) ->
    generate (attempt + k)%nat = Generated text ->
    call_llm_loop generate attempt remaining = strip text.
Proof.
  induction k as [| k IH]; intros attempt remaining text Hk Hearlier Hnow;
    (destruct remaining as [| remaining]; [lia |]).
  - rewrite Nat.add_0_r in Hnow. cbn [call_llm_loop]. rewrite Hnow. reflexivity.
  - rewrite call_llm_loop_retry
      by (specialize (Hearlier 0%nat); rewrite Nat.add_0_r in Hearlier;
          apply Hearlier; lia).
    apply IH; [lia | | rewrite Nat.add_succ_comm; exact Hnow].
    intros j Hj. rewrite Nat.add_succ_comm. apply Hearlier. lia.
Qed.

Lemma call_llm_loop_fatal (generate : nat -> Generation) (k : nat) :
  forall attempt remaining,
    (k < remaining)%nat ->
    (forall j, (j < k)%nat -> retryable (generate (attempt + j)%nat) = true) ->
    (exists error, generate (attempt + k)%nat = Failed error) ->
    retryable (generate (attempt + k)%nat) = false ->
    call_llm_loop generate attempt remaining
      = "I'm having trouble understanding. Can you repeat that?".
Proof.
  induction k as [| k IH]; intros attempt remaining Hk Hearlier Hfailed Hnow;
    (destruct remaining as [| remaining]; [lia |]).
  - rewrite Nat.add_0_r in Hfailed, Hnow. cbn [call_llm_loop]. cbv zeta.
    destruct Hfailed as [error Hfailed]. rewrite Hfailed in Hnow |- *.
    cbn [retryable] in Hnow. rewrite Hnow. reflexivity.
  - rewrite call_llm_loop_retry
      by (specialize (Hearlier 0%nat); rewrite Nat.add_0_r in Hearlier;
          apply Hearlier; lia).
    apply IH; [lia | | rewrite Nat.add_succ_comm; exact Hfailed
                     | rewrite Nat.add_succ_comm; exact Hnow].
    intros j Hj. rewrite Nat.add_succ_comm. apply Hearlier. lia.
Qed.

Lemma call_llm_loop_busy (generate : nat -> Generation) (remaining : nat) :
  forall attempt,
    (forall j, (j < remaining)%nat ->
               retryable (generate (attempt + j)%nat) = true) ->
    call_llm_loop generate attempt remaining = "System busy, please try later.".
Proof.
  induction remaining as [| remaining IH]; intros attempt Hall; [reflexivity |].
  rewrite call_llm_loop_retry
    by (specialize (Hall 0%nat); rewrite Nat.add_0_r in Hall; apply Hall; lia).
  apply IH. intros j Hj. rewrite Nat.add_succ_comm. apply Hall. lia.
Qed.

Lemma call_llm_loop_ext (generate generate' : nat -> Generation) (remaining : nat) :
  forall attempt,
    (forall j, (j < remaining)%nat ->
               generate' (attempt + j)%nat = generate (attempt + j)%nat) ->
    call_llm_loop generate' attempt remaining
      = call_llm_loop generate attempt remaining.
Proof.
  induction remaining as [| remaining IH]; intros attempt Hsame; [reflexivity |].
  cbn [call_llm_loop]. cbv zeta.
  pose proof (Hsame 0%nat) as H0. rewrite Nat.add_0_r in H0. rewrite H0 by lia.
  rewrite (IH (S attempt))
    by (intros j Hj; rewrite Nat.add_succ_comm; apply Hsame; lia).
  reflexivity.
Qed.

(** X24: [call_llm] asks the generator at most three times and only goes
    on after a retryable failure.  The answer is the stripped text of the
    first attempt that succeeds, provided every attempt before it failed
    retryably; it is the fixed apology as soon as an attempt fails in any
    other way; it is the fixed busy notice when all three attempts fail
    retryably; and nothing the generator would answer from the fourth
    attempt on matters. *)
Theorem call_llm_attempts (generate : Prompt -> nat -> Generation)
    (prompt : Prompt) :
  (forall k text,
     (k < 3)%nat ->
     (forall j, (j < k)%nat -> retryable (generate prompt j) = true) ->
     generate prompt k = Generated text ->
     call_llm generate prompt = strip text)
  /\ (forall k error,
        (k < 3)%nat ->
        (forall j, (j < k)%nat -> retryable (generate prompt j) = true) ->
        generate prompt k = Failed error ->
        retryable (Failed error) = false ->
        call_llm generate prompt
          = "I'm having trouble understanding. Can you repeat that?")
  /\ ((forall j, (j < 3)%nat -> retryable (generate prompt j) = true) ->
      call_llm generate prompt = "System busy, please try later.")
  /\ (forall generate',
        (forall j, (j < 3)%nat -> generate' prompt j = generate prompt j) ->
        call_llm generate' prompt = call_llm generate prompt).
Proof.
  unfold call_llm. split; [| split; [| split]].
  - intros k text Hk Hearlier Hnow.
    apply (call_llm_loop_success (generate prompt) k 0 3 text Hk);
      [exact Hearlier | exact Hnow].
  - intros k error Hk Hearlier Hnow Hfatal.
    apply (call_llm_loop_fatal (generate prompt) k 0 3 Hk);
      [exact Hearlier | exists error; exact Hnow | cbn [Nat.add]; rewrite Hnow; exact Hfatal].
  - intros Hall. apply (call_llm_loop_busy (generate prompt) 3 0). exact Hall.
  - intros generate' Hsame.
    apply (call_llm_loop_ext (generate prompt) (generate' prompt) 3 0). exact Hsame.
Qed.

Lemma post_loop_spec (post : nat -> bool) (remaining : nat) :
  forall attempt,
    let made := fst (post_loop post attempt remaining) in
    let ok := snd (post_loop post attempt remaining) in
    (attempt <= made <= attempt + remaining)%nat
    /\ (ok = true ->
        (attempt < made)%nat /\ post (made - 1)%nat = true
        /\ forall j, (attempt <= j < made - 1)%nat -> post j = false)
    /\ (ok = false ->
        made = (attempt + remaining)%nat
        /\ forall j, (attempt <= j < attempt + remaining)%nat -> post j = false).
Proof.
  induction remaining as [| remaining IH]; intros attempt; cbv zeta.
  - cbn [post_loop fst snd]. split; [lia |].
    split; [discriminate |]. intros _. split; [lia |]. intros j Hj. lia.
  - cbn [post_loop]. destruct (post attempt) eqn:Hpost.
    + cbn [fst snd]. split; [lia |]. split; [| discriminate].
      intros _. split; [lia |].
      replace (S attempt - 1)%nat with attempt by lia.
      split; [exact Hpost |]. intros j Hj. lia.
    + specialize (IH (S attempt)). cbv zeta in IH.
      destruct IH as (Hrange & Hok & Hfail).
      split; [lia |]. split.
      * intros Htrue. destruct (Hok Htrue) as (Hlt & Hlast & Hbefore).
        split; [lia |]. split; [exact Hlast |].
        intros j Hj. destruct (decide (j = attempt)) as [-> | Hne];
          [exact Hpost | apply Hbefore; lia].
      * intros Hfalse. destruct (Hfail Hfalse) as (Hmade & Hnone).
        split; [lia |].
        intros j Hj. destruct (decide (j = attempt)) as [-> | Hne];
          [exact Hpost | apply Hnone; lia].
Qed.

Lemma send_final_callback_loop settings post session_id session :
  attempts_made (send_final_callback settings post session_id session)
    = fst (post_loop
             (post (payload (send_final_callback settings post session_id session)))
             0 (callback_retry_attempts settings))
  /\ delivered (send_final_callback settings post session_id session)
     = snd (post_loop
              (post (payload (send_final_callback settings post session_id session)))
              0 (callback_retry_attempts settings)).
Proof.
  unfold send_final_callback.
  destruct (post_loop _ 0 (callback_retry_attempts settings)) as [made ok] eqn:Hloop.
  cbn [attempts_made delivered payload]. rewrite Hloop. split; reflexivity.
Qed.

(** X25: [send_final_callback] posts the same payload at most
    [callback_retry_attempts] times and stops at the first POST that gets
    through: the callback counts as delivered exactly when one of the
    allowed attempts succeeds, the attempts made then end with the first
    successful one, and all allowed attempts are used up when none
    succeeds (none at all when the setting is zero).  The payload carries
    the session's turn counter, intelligence and confidence, with
    [scamDetected] set. *)
Theorem send_final_callback_attempts (settings : Settings)
    (post : CallbackPayload -> nat -> bool) (session_id : string)
    (session : SessionData) :
  let call := send_final_callback settings post session_id session in
  let allowed := callback_retry_attempts settings in
  (attempts_made call <= allowed)%nat
  /\ (delivered call = true
      <-> exists k, (k < allowed)%nat /\ post (payload call) k = true)
  /\ (delivered call = true ->
      (1 <= attempts_made call)%nat
      /\ post (payload call) (attempts_made call - 1)%nat = true
      /\ forall j, (j < attempts_made call - 1)%nat -> post (payload call) j = false)
  /\ (delivered call = false -> attempts_made call = allowed)
  /\ cb_sessionId (payload call) = session_id
  /\ cb_scamDetected (payload call) = true
  /\ cb_totalMessagesExchanged (payload call) = turns session
  /\ cb_extractedIntelligence (payload call) = extracted session
  /\ cb_finalConfidence (payload call) = confidence session.
Proof.
  cbv zeta.
  destruct (send_final_callback_loop settings post session_id session)
    as [Hmade Hok].
  pose proof (post_loop_spec
                (post (payload (send_final_callback settings post session_id
                                                    session)))
                (callback_retry_attempts settings) 0) as Hspec.
  cbv zeta in Hspec. rewrite <- Hmade, <- Hok in Hspec.
  destruct Hspec as (Hrange & Hdelivered & Hfailed).
  split; [lia |]. split; [| split; [| split]].
  - split.
    + intros Htrue. destruct (Hdelivered Htrue) as (Hlt & Hlast & _).
      eexists. split; [| exact Hlast]. lia.
    + intros (k & Hk & Hpost).
      destruct (delivered (send_final_callback settings post session_id session))
        eqn:Hd; [reflexivity |].
      destruct (Hfailed eq_refl) as (_ & Hnone).
      rewrite Hnone in Hpost by lia. discriminate Hpost.
  - intros Htrue. destruct (Hdelivered Htrue) as (Hlt & Hlast & Hbefore).
    split; [lia |]. split; [exact Hlast |]. intros j Hj. apply Hbefore. lia.
  - intros Hfalse. destruct (Hfailed Hfalse) as (Hall & _). lia.
  - rewrite send_final_callback_payload. repeat split.
Qed.

End retry_facts.

Lemma call_llm_attempts_witness :
  call_llm (fun _ attempt =>
              match attempt with
              | 0%nat => Failed "Quota exceeded"
              | _ => Generated "  Who is this?  "
              end)
           (mkPrompt confused_user GENERAL NORMAL "hello")
  = "Who is this?".
Proof.
  destruct (call_llm_attempts
              (fun _ attempt =>
                 match attempt with
                 | 0%nat => Failed "Quota exceeded"
                 | _ => Generated "  Who is this?  "
                 end)
              (mkPrompt confused_user GENERAL NORMAL "hello")) as (Hsuccess & _).
  apply (Hsuccess 1%nat "  Who is this?  ").
  - lia.
  - intros j Hj. assert (j = 0%nat) as -> by lia. reflexivity.
  - reflexivity.
Defined.

Lemma send_final_callback_attempts_witness :
  (1 <= attempts_made
          (send_final_callback default_settings
             (fun _ attempt => (1 <=? attempt)%nat) "s1" ripe_session))%nat
  /\ (fun (_ : CallbackPayload) attempt => (1 <=? attempt)%nat)
       (payload (send_final_callback default_settings
                   (fun _ attempt => (1 <=? attempt)%nat) "s1" ripe_session))
       0%nat = false.
Proof.
  destruct (send_final_callback_attempts default_settings
              (fun _ attempt => (1 <=? attempt)%nat) "s1" ripe_session)
    as (_ & _ & Hdelivered & _).
  destruct Hdelivered as (Hone & Hlast & Hbefore); [reflexivity |].
  split; [exact Hone |]. apply Hbefore. vm_compute. lia.
Defined.

(** ** The rate limiter *)

Section limiter_facts.

Lemma filter_filter_implied {A} (p q : A -> bool) (xs : list A) :
  (forall x, q x = true -> p x = true) ->
  List.filter q (List.filter p xs) = List.filter q xs.
Proof.
  intros Himp. induction xs as [| x rest IH]; [reflexivity |].
  cbn [List.filter]. destruct (p x) eqn:Hp.
  - cbn [List.filter]. rewrite IH. reflexivity.
  - destruct (q x) eqn:Hq; [apply Himp in Hq; congruence | exact IH].
Qed.

Lemma filter_all {A} (p : A -> bool) (xs : list A) :
  List.filter p (List.filter p xs) = List.filter p xs.
Proof. apply filter_filter_implied. trivial. Qed.

Lemma recent_later (earlier later stamp : Q) :
  earlier <= later -> recent later stamp = true -> recent earlier stamp = true.
Proof.
  unfold recent. intros Hle.
  destruct (Qltb_reflect (later - stamp) 60); [| discriminate].
  destruct (Qltb_reflect (earlier - stamp) 60); [reflexivity | lra].
Qed.

Lemma recent_now (now : Q) : recent now now = true.
Proof. unfold recent. destruct (Qltb_reflect (now - now) 60); [reflexivity | lra]. Qed.

Lemma times_of_app client log more :
  times_of client (log ++ more)%list
    = (times_of client log ++ times_of client more)%list.
Proof. unfold times_of. rewrite List.filter_app, map_app. reflexivity. Qed.

Lemma dispatch_staged (self : RateLimitMiddleware) (request : HttpRequest) (now : Q) :
  dispatch self request now
    = if exempt request then (self, Bypassed)
      else
        let ready := counters_ready self (client_of request) now in
        let times := stored_times ready (client_of request) in
        if (requests_per_minute ready <=? Z.of_nat (length times))%Z
        then (ready, Rejected)
        else (mkRateLimit (requests_per_minute ready)
                (<[client_of request := (times ++ [now])%list]>
                   (request_counts ready)),
              Accepted).
Proof. reflexivity. Qed.

Lemma counters_ready_spec (self : RateLimitMiddleware) (client : string) (now : Q) :
  requests_per_minute (counters_ready self client now) = requests_per_minute self
  /\ forall other,
       stored_times (counters_ready self client now) other
         = if decide (other = client)
           then List.filter (recent now) (stored_times self client)
           else stored_times self other.
Proof.
  unfold counters_ready, _clean_old_requests, stored_times. cbv zeta.
  destruct (request_counts self !! client) as [times |] eqn:Hstored.
  - cbn [request_counts requests_per_minute]. rewrite lookup_insert_eq.
    cbn [request_counts requests_per_minute]. split; [reflexivity |].
    intros other. destruct (decide (other = client)) as [-> | Hne].
    + rewrite lookup_insert_eq. reflexivity.
    + rewrite lookup_insert_ne by congruence. reflexivity.
  - rewrite Hstored. cbn [request_counts requests_per_minute].
    split; [reflexivity |].
    intros other. destruct (decide (other = client)) as [-> | Hne].
    + rewrite lookup_insert_eq. reflexivity.
    + rewrite lookup_insert_ne by congruence. reflexivity.
Qed.

(** The two outcomes of [dispatch] for a request that is not exempt. *)
Lemma dispatch_cases (self : RateLimitMiddleware) (request : HttpRequest) (now : Q) :
  exempt request = false ->
  let kept := List.filter (recent now) (stored_times self (client_of request)) in
  exists self',
    requests_per_minute self' = requests_per_minute self
    /\ (((requests_per_minute self <=? Z.of_nat (length kept))%Z = true
         /\ dispatch self request now = (self', Rejected)
         /\ forall client,
              stored_times self' client
                = if decide (client = client_of request) then kept
                  else stored_times self client)
        \/ ((requests_per_minute self <=? Z.of_nat (length kept))%Z = false
            /\ dispatch self request now = (self', Accepted)
            /\ forall client,
                 stored_times self' client
                   = if decide (client = client_of request)
                     then (kept ++ [now])%list
                     else stored_times self client)).
Proof.
  intros Hexempt. cbv zeta. rewrite dispatch_staged, Hexempt. cbv zeta.
  destruct (counters_ready_spec self (client_of request) now) as [Hlimit Hstored].
  pose proof (Hstored (client_of request)) as Hown.
  rewrite decide_True in Hown by reflexivity.
  rewrite Hlimit, Hown.
  destruct (requests_per_minute self
            <=? Z.of_nat (length (List.filter (recent now)
                                    (stored_times self (client_of request)))))%Z
    eqn:Hfull; eexists; (split; [| first [left; split; [reflexivity |];
                                          split; [reflexivity |]
                                        | right; split; [reflexivity |];
                                          split; [reflexivity |]]]).
  - exact Hlimit.
  - exact Hstored.
  - reflexivity.
  - intros client. unfold stored_times at 1. cbn [request_counts].
    destruct (decide (client = client_of request)) as [-> | Hne].
    + rewrite lookup_insert_eq. reflexivity.
    + rewrite lookup_insert_ne by congruence.
      rewrite <- (decide_False (P := client = client_of request)
                    (List.filter (recent now)
                       (stored_times self (client_of request)))
                    (stored_times self client) Hne).
      apply Hstored.
Qed.

Lemma dispatch_exempt (self : RateLimitMiddleware) (request : HttpRequest) (now : Q) :
  exempt request = true -> dispatch self request now = (self, Bypassed).
Proof. intros Hexempt. unfold dispatch. unfold exempt in Hexempt. rewrite Hexempt. reflexivity. Qed.

(** One arrival keeps the counters in line with the log. *)
Lemma dispatch_consistent (self : RateLimitMiddleware) (log : list (string * Q))
    (since now : Q) (request : HttpRequest) :
  since <= now ->
  limiter_consistent self log since ->
  limiter_consistent (fst (dispatch self request now))
    (log ++ match snd (dispatch self request now) with
            | Accepted => [(client_of request, now)]
            | _ => []
            end)%list now
  /\ requests_per_minute (fst (dispatch self request now))
     = requests_per_minute self.
Proof.
  intros Hle Hinv.
  destruct (exempt request) eqn:Hexempt.
  - rewrite (dispatch_exempt _ _ _ Hexempt). cbn [fst snd]. rewrite app_nil_r.
    split; [| reflexivity].
    intros client later Hlater. apply Hinv. lra.
  - destruct (dispatch_cases self request now Hexempt)
      as (self' & Hlimit & [(Hfull & -> & Hstored) | (Hfull & -> & Hstored)]);
      cbn [fst snd]; (split; [| exact Hlimit]);
      intros client later Hlater; rewrite Hstored, times_of_app;
      unfold times_of at 2; cbn [List.filter fst snd map];
      destruct (decide (client = client_of request)) as [-> | Hne].
    + rewrite app_nil_r.
      rewrite filter_filter_implied
        by (intros stamp; apply recent_later; exact Hlater).
      apply Hinv. lra.
    + rewrite app_nil_r. apply Hinv. lra.
    + rewrite String.eqb_refl. cbn [map snd]. rewrite !List.filter_app.
      rewrite filter_filter_implied
        by (intros stamp; apply recent_later; exact Hlater).
      rewrite (Hinv _ later) by lra. reflexivity.
    + destruct (String.eqb_spec (client_of request) client) as [Heq | _];
        [congruence |].
      cbn [map]. rewrite app_nil_r. apply Hinv. lra.
Qed.

Lemma limiter_run_consistent (arrivals : list (HttpRequest * Q)) :
  forall self log since now,
    limiter_consistent self log since ->
    ascending_from since (map snd arrivals ++ [now])%list ->
    exists last,
      last <= now
      /\ limiter_consistent (fst (limiter_run self arrivals log))
           (snd (limiter_run self arrivals log)) last
      /\ requests_per_minute (fst (limiter_run self arrivals log))
         = requests_per_minute self.
Proof.
  induction arrivals as [| [request t] rest IH]; intros self log since now Hinv Hasc.
  - cbn [limiter_run fst snd]. cbn in Hasc. exists since.
    split; [tauto |]. split; [exact Hinv | reflexivity].
  - cbn [map snd app ascending_from] in Hasc. destruct Hasc as [Hle Hrest].
    cbn [limiter_run].
    destruct (dispatch_consistent self log since t request Hle Hinv)
      as [Hinv' Hlimit].
    destruct (dispatch self request t) as [self' verdict]. cbn [fst snd] in *.
    destruct (IH self' _ t now Hinv' Hrest) as (last & Hlast & Hfinal & Hlimit').
    exists last. split; [exact Hlast |]. split; [exact Hfinal | congruence].
Qed.

(** X27: the limiter is a sliding window over the admitted requests.  As
    long as the clock never goes back, a request that is not a health check
    is answered 429 exactly when its client already has
    [requests_per_minute] requests admitted less than sixty seconds before
    it; requests that were rejected, health checks and the requests of other
    clients do not count, and a health check is always handed on. *)
Theorem rate_limit_sliding_window (limit : Z)
    (earlier : list (HttpRequest * Q)) (request : HttpRequest) (now : Q) :
  ascending (map snd earlier ++ [now])%list ->
  let self := fst (limiter_run (new_rate_limiter limit) earlier []) in
  let log := snd (limiter_run (new_rate_limiter limit) earlier []) in
  snd (dispatch self request now)
    = if exempt request then Bypassed
      else if (limit <=? Z.of_nat (accepted_within (client_of request) now log))%Z
           then Rejected else Accepted.
Proof.
  intros Hasc. cbv zeta.
  assert (exists last,
            last <= now
            /\ limiter_consistent
                 (fst (limiter_run (new_rate_limiter limit) earlier []))
                 (snd (limiter_run (new_rate_limiter limit) earlier [])) last
            /\ requests_per_minute
                 (fst (limiter_run (new_rate_limiter limit) earlier []))
               = limit) as (last & Hlast & Hinv & Hlimit).
  { assert (forall since, limiter_consistent (new_rate_limiter limit) [] since)
      as Hstart.
    { intros since client later _. unfold stored_times, new_rate_limiter.
      cbn [request_counts]. rewrite lookup_empty. reflexivity. }
    destruct earlier as [| [first t] rest].
    - exists now. split; [lra |]. split; [apply Hstart | reflexivity].
    - apply (limiter_run_consistent ((first, t) :: rest) _ _ t now (Hstart t)).
      cbn [map snd app ascending ascending_from] in Hasc |- *.
      split; [lra | exact Hasc]. }
  destruct (exempt request) eqn:Hexempt.
  - rewrite (dispatch_exempt _ _ _ Hexempt). reflexivity.
  - destruct (dispatch_cases
                (fst (limiter_run (new_rate_limiter limit) earlier []))
                request now Hexempt)
      as (self' & _ & [(Hfull & -> & _) | (Hfull & -> & _)]);
      cbn [snd]; rewrite Hlimit, (Hinv _ now Hlast) in Hfull;
      unfold accepted_within; rewrite Hfull; reflexivity.
Qed.

End limiter_facts.

Lemma rate_limit_sliding_window_witness :
  snd (dispatch
         (fst (limiter_run (new_rate_limiter 2)
                 [(mkHttpRequest "/honeypot/message" (Some "10.0.0.1"), 0);
                  (mkHttpRequest "/honeypot/message" (Some "10.0.0.1"), 10);
                  (mkHttpRequest "/honeypot/message" (Some "10.0.0.1"), 20)] []))
         (mkHttpRequest "/honeypot/message" (Some "10.0.0.1")) 65)
  = Accepted.
Proof.
  rewrite (rate_limit_sliding_window 2
             [(mkHttpRequest "/honeypot/message" (Some "10.0.0.1"), 0);
              (mkHttpRequest "/honeypot/message" (Some "10.0.0.1"), 10);
              (mkHttpRequest "/honeypot/message" (Some "10.0.0.1"), 20)]
             (mkHttpRequest "/honeypot/message" (Some "10.0.0.1")) 65).
  - reflexivity.
  - cbn. repeat split; lra.
Defined.

(** ** The monitoring endpoints *)

Section metrics_facts.
Context `{Externals}.












End metrics_facts.

Section aggregation_facts.

Lemma has_intelligence_false (x : ExtractedIntelligence) :
  has_intelligence x = false ->
  upiIds x = [] /\ phoneNumbers x = [] /\ phishingLinks x = []
  /\ suspiciousKeywords x = [].
Proof.
  unfold has_intelligence.
  destruct (upiIds x), (phoneNumbers x), (phishingLinks x), (suspiciousKeywords x);
    cbn; intros Hnone; try discriminate Hnone; repeat split.
Qed.

(** What the loop of [get_intelligence] has collected after [items]. *)
Lemma aggregate_sessions (items : list (string * SessionData)) :
  forall acc,
    let result := fold_left aggregate_session items acc in
    all_upi_ids result
      = (all_upi_ids acc
         ++ concat (map (fun item => upiIds (extracted (snd item))) items))%list
    /\ all_phone_numbers result
       = (all_phone_numbers acc
          ++ concat (map (fun item => phoneNumbers (extracted (snd item))) items))%list
    /\ all_phishing_links result
       = (all_phishing_links acc
          ++ concat (map (fun item => phishingLinks (extracted (snd item))) items))%list
    /\ all_keywords result
       = (all_keywords acc
          ++ concat (map (fun item => suspiciousKeywords (extracted (snd item)))
                         items))%list
    /\ map sum_session_id (sessions_with_data result)
       = (map sum_session_id (sessions_with_data acc)
          ++ map fst (List.filter
                        (fun item => has_intelligence (extracted (snd item)))
                        items))%list
    /\ scam_count result
       = (scam_count acc
          + count_if (fun item => Qltb (confidence (snd item)) 1.0) items)%nat.
Proof.
  induction items as [| [session_id session_data] rest IH]; intros acc; cbv zeta.
  - cbn [fold_left map concat List.filter count_if length].
    rewrite !app_nil_r, Nat.add_0_r. repeat split.
  - cbn [fold_left]. specialize (IH (aggregate_session acc (session_id, session_data))).
    cbv zeta in IH. destruct IH as (H1 & H2 & H3 & H4 & H5 & H6).
    rewrite H1, H2, H3, H4, H5, H6.
    cbn [map concat List.filter snd fst]. unfold count_if. cbn [List.filter snd].
    unfold aggregate_session.
    destruct (has_intelligence (extracted session_data)) eqn:Hhas;
      destruct (Qltb (confidence session_data) 1.0);
      cbn [all_upi_ids all_phone_numbers all_phishing_links all_keywords
           sessions_with_data scam_count map fst length];
      rewrite ?map_app; cbn [map sum_session_id];
      try (apply has_intelligence_false in Hhas as (-> & -> & -> & ->));
      rewrite <- ?app_assoc; cbn [app];
      repeat split; lia.
Qed.

Lemma elem_of_session_field (w : World) (field : SessionData -> list string)
    (x : string) :
  x ∈ concat (map (fun item => field (snd item)) (session_items w))
  <-> exists session_id s, SESSIONS w !! session_id = Some s /\ x ∈ field s.
Proof.
  rewrite list_elem_of_In, in_concat. split.
  - intros (xs & Hxs & Hx). apply in_map_iff in Hxs as ([session_id s] & <- & Hin).
    exists session_id, s. split.
    + apply elem_of_map_to_list, list_elem_of_In. exact Hin.
    + apply list_elem_of_In. exact Hx.
  - intros (session_id & s & Hs & Hx). exists (field s). split.
    + apply in_map_iff. exists (session_id, s). split; [reflexivity |].
      apply list_elem_of_In, elem_of_map_to_list. exact Hs.
    + apply list_elem_of_In. exact Hx.
Qed.

(** X29: the aggregate of [get_intelligence] is the union of what the
    sessions hold: an item is in a field of the aggregate exactly when some
    stored session has it in that field, no field of the aggregate lists an
    item twice, the sessions reported with their data are exactly those
    holding at least one item, and the sessions counted as scam sessions
    (confidence below 1) are no more than the sessions stored. *)
Theorem get_intelligence_union (w : World) (x : string) (session_id : string) :
  let r := get_intelligence w in
  (x ∈ upiIds (aggregated_intelligence r)
   <-> exists sid s, SESSIONS w !! sid = Some s /\ x ∈ upiIds (extracted s))
  /\ (x ∈ phoneNumbers (aggregated_intelligence r)
      <-> exists sid s, SESSIONS w !! sid = Some s
                        /\ x ∈ phoneNumbers (extracted s))
  /\ (x ∈ phishingLinks (aggregated_intelligence r)
      <-> exists sid s, SESSIONS w !! sid = Some s
                        /\ x ∈ phishingLinks (extracted s))
  /\ (x ∈ suspiciousKeywords (aggregated_intelligence r)
      <-> exists sid s, SESSIONS w !! sid = Some s
                        /\ x ∈ suspiciousKeywords (extracted s))
  /\ intelligence_nodup (aggregated_intelligence r)
  /\ (session_id ∈ map sum_session_id (sessions_with_intelligence r)
      <-> exists s, SESSIONS w !! session_id = Some s
                    /\ has_intelligence (extracted s) = true)
  /\ (scam_sessions r <= ir_total_sessions r)%nat
  /\ ir_total_sessions r = size (SESSIONS w).
Proof.
  cbv zeta. unfold get_intelligence. cbv zeta.
  cbn [aggregated_intelligence sessions_with_intelligence scam_sessions
       ir_total_sessions upiIds phoneNumbers phishingLinks suspiciousKeywords].
  pose proof (aggregate_sessions (session_items w)
                (mkAggregation [] [] [] [] [] 0)) as Hagg.
  cbv zeta in Hagg. destruct Hagg as (H1 & H2 & H3 & H4 & H5 & H6).
  cbn [all_upi_ids all_phone_numbers all_phishing_links all_keywords
       sessions_with_data scam_count map app Nat.add] in H1, H2, H3, H4, H5, H6.
  rewrite H1, H2, H3, H4, H5, H6.
  split; [rewrite elem_of_list_set;
          apply (elem_of_session_field w (fun s => upiIds (extracted s))) |].
  split; [rewrite elem_of_list_set;
          apply (elem_of_session_field w (fun s => phoneNumbers (extracted s))) |].
  split; [rewrite elem_of_list_set;
          apply (elem_of_session_field w (fun s => phishingLinks (extracted s))) |].
  split; [rewrite elem_of_list_set;
          apply (elem_of_session_field w (fun s => suspiciousKeywords (extracted s))) |].
  split; [repeat split; apply NoDup_list_set |].
  split; [| split; [apply filter_length_le
                   | unfold session_items; apply length_map_to_list]].
  rewrite list_elem_of_In, in_map_iff. split.
  - intros ([sid s] & Hsid & Hin). cbn [fst] in Hsid. subst sid.
    apply filter_In in Hin as [Hin Hhas]. exists s. split; [| exact Hhas].
    apply elem_of_map_to_list, list_elem_of_In. exact Hin.
  - intros (s & Hs & Hhas). exists (session_id, s). split; [reflexivity |].
    apply filter_In. split; [| exact Hhas].
    apply list_elem_of_In, elem_of_map_to_list. exact Hs.
Qed.

End aggregation_facts.

(** ** The validators *)

Section strip_facts.

Lemma append_cons (c : ascii) (s t : string) :
  (String c s ++ t)%string = String c (s ++ t)%string.
Proof. reflexivity. Qed.

Lemma append_nil_r (s : string) : (s ++ "")%string = s.
Proof.
  induction s as [| c s IH]; [reflexivity |].
  rewrite append_cons, IH. reflexivity.
Qed.



















End strip_facts.


Section origins_facts.





End origins_facts.
